(** * dot_builder: correlation and graph construction for contact traces

    A shallow embedding of [src/dot_builder.py].

    - Log records, invocation logs and contact summaries are JSON
      documents; they are modelled by the type [value] below, with Python's
      [==], truthiness, [in], [len] and indexing on it.
    - Python exceptions are modelled by the [res] monad; [try]/[except] is a
      match on the result.
    - A Graphviz [Digraph] is modelled by the statements the builder sends
      to it: node statements and edge statements, in emission order.  Graph
      attributes, ranks and the rendering of a graph to a file are left
      out.
    - The text and the label of a node are computed as the source computes
      them, by [get_node_text_by_module_type] and [get_node_label], with
      every exception they can raise.  A node statement records the module
      type and the title handed to [get_node_label], the colour, the shape
      and the URL payload; the label itself is not kept in the graph.
    - What the builder prints is kept as a list of diagnostics.
    - Functions imported from other modules, library functions and files
      read at run time are fields of the record [externals]. *)

From Stdlib Require Import String Ascii List ZArith Lia Bool Arith DecimalString.
From Stdlib Require Import Permutation Sorted DecimalNat.
Import ListNotations.
Open Scope string_scope.
Open Scope list_scope.
Set Warnings "-register-all".

(* ------------------------------------------------------------------ *)
(** ** Python values *)

(** The JSON fragment of Python values: [None], booleans, integers,
    strings, lists and insertion-ordered dictionaries with string keys. *)
Inductive value : Type :=
| JNull : value
| JBool : bool -> value
| JNum  : Z -> value
| JStr  : string -> value
| JList : list value -> value
| JObj  : list (string * value) -> value.

Fixpoint assoc {A : Type} (k : string) (d : list (string * A)) : option A :=
  match d with
  | [] => None
  | (k', v) :: d' => if String.eqb k k' then Some v else assoc k d'
  end.

(** Python [==] on this fragment: booleans compare equal to the integers 0
    and 1, dictionaries compare as unordered maps. *)
Fixpoint py_eq (a b : value) {struct a} : bool :=
  match a, b with
  | JNull, JNull => true
  | JBool x, JBool y => Bool.eqb x y
  | JBool x, JNum n => Z.eqb n (if x then 1 else 0)%Z
  | JNum n, JBool x => Z.eqb n (if x then 1 else 0)%Z
  | JNum x, JNum y => Z.eqb x y
  | JStr x, JStr y => String.eqb x y
  | JList xs, JList ys =>
      (fix go (xs ys : list value) {struct xs} : bool :=
         match xs, ys with
         | [], [] => true
         | x :: xs', y :: ys' => py_eq x y && go xs' ys'
         | _, _ => false
         end) xs ys
  | JObj xs, JObj ys =>
      Nat.eqb (List.length xs) (List.length ys) &&
      (fix all (xs : list (string * value)) {struct xs} : bool :=
         match xs with
         | [] => true
         | (k, v) :: xs' =>
             match assoc k ys with
             | Some w => py_eq v w
             | None => false
             end && all xs'
         end) xs
  | _, _ => false
  end.

(** Truthiness, as used by [if x:] and [not x]. *)
Definition truthy (v : value) : bool :=
  match v with
  | JNull => false
  | JBool b => b
  | JNum n => negb (Z.eqb n 0)
  | JStr s => negb (String.eqb s "")
  | JList l => match l with [] => false | _ => true end
  | JObj d => match d with [] => false | _ => true end
  end.

(* ------------------------------------------------------------------ *)
(** ** Exceptions *)

Inductive exn : Type :=
| KeyError | TypeError | AttributeError | ValueError | IndexError
| UnboundLocalError | NameError | IOError.

Inductive res (A : Type) : Type :=
| Ret : A -> res A
| Raise : exn -> res A.
Arguments Ret {A} _.
Arguments Raise {A} _.

Definition bind {A B : Type} (m : res A) (k : A -> res B) : res B :=
  match m with
  | Ret a => k a
  | Raise e => Raise e
  end.

Notation "x <- m ;; k" := (bind m (fun x => k))
  (at level 61, m at next level, right associativity).
Notation "' pat <- m ;; k" := (bind m (fun x => match x with pat => k end))
  (at level 61, pat pattern, m at next level, right associativity).

(* ------------------------------------------------------------------ *)
(** ** Dictionary, string and container primitives *)

(** [d.get(k)] and [d.get(k, default)]; only dictionaries have [get]. *)
Definition py_get_default (d : value) (k : string) (dflt : value) : res value :=
  match d with
  | JObj kv => Ret (match assoc k kv with Some v => v | None => dflt end)
  | _ => Raise AttributeError
  end.

Definition py_get (d : value) (k : string) : res value :=
  py_get_default d k JNull.

(** [d[k]] for a string key. *)
Definition py_index (d : value) (k : string) : res value :=
  match d with
  | JObj kv => match assoc k kv with Some v => Ret v | None => Raise KeyError end
  | _ => Raise TypeError
  end.

Fixpoint is_substring (sub s : string) : bool :=
  String.prefix sub s ||
  match s with
  | EmptyString => false
  | String _ s' => is_substring sub s'
  end.

(** [k in x] for a string [k]: substring test on strings, membership on
    lists, key test on dictionaries, [TypeError] on anything else. *)
Definition py_str_in (k : string) (x : value) : res bool :=
  match x with
  | JStr s => Ret (is_substring k s)
  | JList l => Ret (existsb (py_eq (JStr k)) l)
  | JObj d => Ret (match assoc k d with Some _ => true | None => false end)
  | _ => Raise TypeError
  end.


(** [x in l] for a list of string constants [l]. *)
Definition in_consts (x : value) (l : list string) : bool :=
  existsb (fun c => py_eq x (JStr c)) l.

(** [s.replace(c, "")] for a one-character pattern. *)
Fixpoint remove_char (c : ascii) (s : string) : string :=
  match s with
  | EmptyString => EmptyString
  | String a s' =>
      if Ascii.eqb a c then remove_char c s' else String a (remove_char c s')
  end.

(** [s.replace(pat, by)], leftmost non-overlapping occurrences. *)
Fixpoint drop_chars (n : nat) (s : string) : string :=
  match n, s with
  | O, _ => s
  | S n', String _ s' => drop_chars n' s'
  | S _, EmptyString => EmptyString
  end.

Fixpoint replace_fuel (fuel : nat) (pat by_ s : string) : string :=
  match fuel with
  | O => s
  | S fuel' =>
      match s with
      | EmptyString => EmptyString
      | String a s' =>
          if String.prefix pat s
          then (by_ ++ replace_fuel fuel' pat by_ (drop_chars (String.length pat) s))%string
          else String a (replace_fuel fuel' pat by_ s')
      end
  end.

(** For a non-empty pattern every step consumes a character, so the
    length of [s] is enough fuel. *)
Definition str_replace (pat by_ s : string) : string :=
  replace_fuel (String.length s) pat by_ s.

Definition str_of_nat (n : nat) : string :=
  NilEmpty.string_of_uint (Nat.to_uint n).

(** Text is held as UTF-8.  [len], indexing and iteration of a string go
    by code point: a leading byte and the continuation bytes after it. *)
Definition is_continuation (c : ascii) : bool :=
  let n := nat_of_ascii c in ((128 <=? n) && (n <? 192))%nat.

Definition starts_with_continuation (s : string) : bool :=
  match s with
  | String c _ => is_continuation c
  | EmptyString => false
  end.

Fixpoint str_chars (s : string) : list string :=
  match s with
  | EmptyString => []
  | String c s' =>
      match str_chars s' with
      | r :: rs =>
          if starts_with_continuation s' then String c r :: rs
          else String c EmptyString :: r :: rs
      | [] => [String c EmptyString]
      end
  end.

Definition str_len (s : string) : nat := List.length (str_chars s).

(** [s.split(sep)] for a non-empty separator; [cur] is the piece being
    read.  Every step consumes a character, so the length of [s] and one
    more step for the end is enough fuel. *)
Fixpoint split_fuel (fuel : nat) (sep s cur : string) : list string :=
  match fuel with
  | O => [(cur ++ s)%string]
  | S fuel' =>
      match s with
      | EmptyString => [cur]
      | String a s' =>
          if String.prefix sep s
          then cur :: split_fuel fuel' sep (drop_chars (String.length sep) s) EmptyString
          else split_fuel fuel' sep s' (cur ++ String a EmptyString)%string
      end
  end.

Definition str_split (sep s : string) : list string :=
  split_fuel (S (String.length s)) sep s EmptyString.

Definition newline : string := String "010"%char EmptyString.

Definition double_quote : string := String "034"%char EmptyString.

(** A literal of the source that holds double quotes, written here with
    single quotes in their place. *)
Definition markup (s : string) : string := str_replace "'" double_quote s.

(* ------------------------------------------------------------------ *)
(** ** Module constants *)

Definition ERROR_KEYWORDS : list string :=
  [ "Error"; "Failed"; "Timeout"; "Exception"; "No prompt provided";
    "Instance has reached concurrent Lambda thread access limit";
    "Unsupported"; "Invalid"; "not found"; "NotDone"; "MultipleFound";
    "The Lambda Function Returned An Error." ].

Definition DUP_CONTACT_FLOW_MODULE_TYPE : list string :=
  [ "SetAttributes"; "SetFlowAttributes" ].

Definition OMIT_CONTACT_FLOW_MODULE_TYPE : list string :=
  [ "InvokeFlowModule" ].

(* ------------------------------------------------------------------ *)
(** ** The graph under construction *)

(** The URL attribute of a node: either a serialized document (the model
    keeps the document) or a path to a rendered sub-graph. *)
Inductive url : Type :=
| UrlDoc : value -> url
| UrlFile : string -> url.

Record node_stmt : Type := mkNode {
  n_id : string;
  n_module_type : value;   (* first argument of get_node_label (icon lookup) *)
  n_title : value;         (* second argument of get_node_label *)
  n_shape : string;
  n_color : string;
  n_url : url
}.

Record edge_stmt : Type := mkEdge {
  e_tail : string;
  e_head : string;
  e_label : value;
  e_dir : value            (* [JNull] when no [dir] attribute is given *)
}.

Record digraph : Type := mkGraph {
  g_nodes : list node_stmt;
  g_edges : list edge_stmt
}.

Definition empty_graph : digraph := mkGraph [] [].

Definition dot_node (g : digraph) (n : node_stmt) : digraph :=
  mkGraph (g_nodes g ++ [n]) (g_edges g).

Definition dot_edge (g : digraph) (e : edge_stmt) : digraph :=
  mkGraph (g_nodes g) (g_edges g ++ [e]).

(* ------------------------------------------------------------------ *)
(** ** add_edges *)

Definition pair_eqb (p q : string * string) : bool :=
  String.eqb (fst p) (fst q) && String.eqb (snd p) (snd q).

Definition pair_mem (p : string * string) (s : list (string * string)) : bool :=
  existsb (pair_eqb p) s.

(** One iteration of the loop body of [add_edges], for index [i]. *)
Definition add_edges_step (nodes : list string)
    (st : digraph * list (string * string)) (i : nat)
  : digraph * list (string * string) :=
  let '(dot, added_edges) := st in
  let a := nth i nodes "" in
  let b := nth (S i) nodes "" in
  if pair_mem (a, b) added_edges then (dot, added_edges)
  else (dot_edge dot (mkEdge a b (JStr (str_of_nat i)) JNull),
        (a, b) :: added_edges).

(** [for i in range(len(nodes) - 1)]: the range is empty when the list has
    fewer than two elements. *)
Definition add_edges (dot : digraph) (nodes : list string) : digraph :=
  fst (fold_left (add_edges_step nodes)
                 (seq 0 (List.length nodes - 1)) (dot, [])).

(** The consecutive pairs of a list, in index order. *)
Fixpoint consecutive_pairs (nodes : list string) : list (string * string) :=
  match nodes with
  | a :: ((b :: _) as tl) => (a, b) :: consecutive_pairs tl
  | _ => []
  end.

Definition edge_pair (e : edge_stmt) : string * string := (e_tail e, e_head e).

(** The pair and the edge of index [i], and whether index [i] is the first
    one at which its pair occurs. *)
Definition pair_at (nodes : list string) (i : nat) : string * string :=
  (nth i nodes "", nth (S i) nodes "").

Definition edge_at (nodes : list string) (i : nat) : edge_stmt :=
  mkEdge (nth i nodes "") (nth (S i) nodes "") (JStr (str_of_nat i)) JNull.

Definition first_occurrence (nodes : list string) (i : nat) : bool :=
  negb (existsb (fun j => pair_eqb (pair_at nodes i) (pair_at nodes j)) (seq 0 i)).


(* ------------------------------------------------------------------ *)
(** ** More primitives *)

Definition hashable (v : value) : bool :=
  match v with
  | JList _ | JObj _ => false
  | _ => true
  end.

(** [d.get(k)] for an arbitrary key [k]; the keys of a JSON dictionary are
    strings, an unhashable key raises. *)
Definition py_get_v (d k : value) : res value :=
  match d with
  | JObj kv =>
      match k with
      | JStr s => Ret (match assoc s kv with Some v => v | None => JNull end)
      | JList _ | JObj _ => Raise TypeError
      | _ => Ret JNull
      end
  | _ => Raise AttributeError
  end.

(** [len(x)]. *)
Definition py_len (v : value) : res nat :=
  match v with
  | JStr s => Ret (str_len s)
  | JList l => Ret (List.length l)
  | JObj d => Ret (List.length d)
  | _ => Raise TypeError
  end.

(** [x[i]] for a non-negative integer constant [i]. *)
Definition py_item (v : value) (i : nat) : res value :=
  match v with
  | JList l => match nth_error l i with Some x => Ret x | None => Raise IndexError end
  | JStr s => match nth_error (str_chars s) i with
              | Some c => Ret (JStr c)
              | None => Raise IndexError
              end
  | JObj _ => Raise KeyError
  | _ => Raise TypeError
  end.

(** [l[n]] for an integer [n], counted from the end when negative. *)
Definition list_index {A : Type} (l : list A) (n : Z) : res A :=
  let len := Z.of_nat (List.length l) in
  let i := if (n <? 0)%Z then (len + n)%Z else n in
  if ((0 <=? i) && (i <? len))%Z then
    match nth_error l (Z.to_nat i) with
    | Some x => Ret x
    | None => Raise IndexError
    end
  else Raise IndexError.

(** [x[k]] for an arbitrary subscript [k]. *)
Definition py_subscript (x k : value) : res value :=
  match x with
  | JObj d =>
      match k with
      | JStr s => match assoc s d with Some v => Ret v | None => Raise KeyError end
      | JList _ | JObj _ => Raise TypeError
      | _ => Raise KeyError
      end
  | JList l =>
      match k with
      | JNum n => list_index l n
      | JBool b => list_index l (if b then 1 else 0)%Z
      | _ => Raise TypeError
      end
  | JStr s =>
      match k with
      | JNum n => c <- list_index (str_chars s) n ;; Ret (JStr c)
      | JBool b => c <- list_index (str_chars s) (if b then 1 else 0)%Z ;; Ret (JStr c)
      | _ => Raise TypeError
      end
  | _ => Raise TypeError
  end.

(** [for x in v]: the elements of a list, the keys of a dictionary, the
    characters of a string; anything else is not iterable. *)
Definition py_iter (v : value) : res (list value) :=
  match v with
  | JList l => Ret l
  | JObj d => Ret (map (fun kv => JStr (fst kv)) d)
  | JStr s => Ret (map JStr (str_chars s))
  | _ => Raise TypeError
  end.

(** ["..." + v]: only text can be appended to text. *)
Definition py_concat_str (s : string) (v : value) : res string :=
  match v with
  | JStr t => Ret (s ++ t)%string
  | _ => Raise TypeError
  end.

(** [for x in l: text += f x] *)
Fixpoint for_text {A : Type} (f : A -> res string) (l : list A) (text : string)
  : res string :=
  match l with
  | [] => Ret text
  | x :: rest => piece <- f x ;; for_text f rest (text ++ piece)%string
  end.

Fixpoint dict_del (k : string) (d : list (string * value)) : list (string * value) :=
  match d with
  | [] => []
  | (k', v) :: d' =>
      if String.eqb k k' then dict_del k d' else (k', v) :: dict_del k d'
  end.

(** [d[k] = v] for a key the dictionary has: the entry keeps its place. *)
Fixpoint dict_put (k : string) (v : value) (d : list (string * value))
  : list (string * value) :=
  match d with
  | [] => []
  | (k', v') :: d' =>
      if String.eqb k k' then (k', v) :: d' else (k', v') :: dict_put k v d'
  end.

Fixpoint mapM {A B : Type} (f : A -> res B) (l : list A) : res (list B) :=
  match l with
  | [] => Ret []
  | x :: l' => y <- f x ;; ys <- mapM f l' ;; Ret (y :: ys)
  end.

Fixpoint filterM {A : Type} (f : A -> res bool) (l : list A) : res (list A) :=
  match l with
  | [] => Ret []
  | x :: l' => b <- f x ;; ys <- filterM f l' ;; Ret (if b then x :: ys else ys)
  end.

(** [s.replace(':', '').replace('.', '')] on a value that must be a string. *)
Definition strip_timestamp (ts : value) : res string :=
  match ts with
  | JStr s => Ret (remove_char "." (remove_char ":" s))
  | _ => Raise AttributeError
  end.

(* ------------------------------------------------------------------ *)
(** ** Error classification *)

(** [any(keyword in r for keyword in ks)]: the generator is consumed up to
    the first hit. *)
Fixpoint any_keyword (ks : list string) (r : value) : res bool :=
  match ks with
  | [] => Ret false
  | k :: ks' =>
      b <- py_str_in k r ;;
      if b then Ret true else any_keyword ks' r
  end.

Definition results_has_keyword (log : value) : res bool :=
  r <- py_get_default log "Results" (JStr "") ;;
  any_keyword ERROR_KEYWORDS r.

(** The body of the [try] of [is_lambda_error]; [None] stands for falling
    off the end of the function. *)
Definition is_lambda_error_try (log : value) : res value :=
  er <- py_get log "ExternalResults" ;;
  s <- py_index er "isSuccess" ;;
  if py_eq s (JStr "false") then Ret (JBool true) else Ret JNull.

Definition is_lambda_error (log : value) : res value :=
  mt <- py_get log "ContactFlowModuleType" ;;
  if py_eq mt (JStr "InvokeExternalResource") then
    match is_lambda_error_try log with
    | Ret v => Ret v
    | Raise KeyError => Ret (JBool false)
    | Raise TypeError => Ret (JBool false)
    | Raise e => Raise e
    end
  else Ret (JBool false).

(** [any(...) or is_lambda_error(log)], the expression both assembly loops
    bind to [is_error]. *)
Definition classify (log : value) : res value :=
  b <- results_has_keyword log ;;
  if b then Ret (JBool true) else is_lambda_error log.




(* ------------------------------------------------------------------ *)
(** ** Module types and titles *)

Definition define_module_type (module_type param_json : value) : res value :=
  if py_eq module_type (JStr "SetContactFlow") then
    flow_type <- py_get param_json "Type" ;;
    if py_eq flow_type (JStr "CustomerHold") || py_eq flow_type (JStr "AgentHold")
    then Ret (JStr "SetHoldFlow")
    else if py_eq flow_type (JStr "CustomerWhisper")
            || py_eq flow_type (JStr "AgentWhisper")
    then Ret (JStr "SetWhisperFlow")
    else if py_eq flow_type (JStr "CustomerQueue")
    then Ret (JStr "SetCustomerQueueFlow")
    else if py_eq flow_type (JStr "DefaultAgentUI")
    then Ret (JStr "SetEventHook")
    else Ret JNull
  else Ret module_type.

(** The values of the [Type] parameter that [define_module_type] tells
    apart. *)
Definition recognized_flow_types : list value :=
  map JStr [ "CustomerHold"; "AgentHold"; "CustomerWhisper"; "AgentWhisper";
             "CustomerQueue"; "DefaultAgentUI" ].

(** [get_module_name_ko], given the translation table read from
    [flow_ko_en.json]. *)
Definition get_module_name_ko (flow_translation_map : list (string * string))
    (module_type log : value) : res value :=
  name <- (if hashable module_type then
             Ret (match module_type with
                  | JStr s => match assoc s flow_translation_map with
                              | Some ko => JStr ko
                              | None => module_type
                              end
                  | _ => module_type
                  end)
           else Raise TypeError) ;;
  if in_consts module_type DUP_CONTACT_FLOW_MODULE_TYPE then
    p <- py_get_default log "Parameters" (JObj []) ;;
    n <- py_len p ;;
    Ret (match name with
         | JStr s => JStr (s ++ " x " ++ str_of_nat n)%string
         | _ => name
         end)
  else Ret name.

(* ------------------------------------------------------------------ *)
(** ** The deduplication cache *)

(** The dictionary stored per bucket by [add_node_cache]. *)
Record node_data : Type := mkNodeData {
  nd_id : string;
  nd_contact_flow_name : value;
  nd_module_type : value;
  nd_timestamp : value;
  nd_blockIdentifier : value;
  nd_Parameters : list value;
  nd_is_error : value
}.

(** The same bucket as the dictionary it is in the source. *)
Definition node_data_doc (d : node_data) : value :=
  JObj [ ("id", JStr (nd_id d));
         ("contact_flow_name", nd_contact_flow_name d);
         ("module_type", nd_module_type d);
         ("timestamp", nd_timestamp d);
         ("blockIdentifier", nd_blockIdentifier d);
         ("Parameters", JList (nd_Parameters d));
         ("is_error", nd_is_error d) ].

(** Buckets are keyed by the tuple [(ContactFlowName, module_type)] and
    kept in insertion order. *)
Definition cache_key : Type := (value * value)%type.
Definition node_cache : Type := list (cache_key * node_data).

Definition key_eqb (k k' : cache_key) : bool :=
  py_eq (fst k) (fst k') && py_eq (snd k) (snd k').

Fixpoint cache_mem (k : cache_key) (c : node_cache) : bool :=
  match c with
  | [] => false
  | (k', _) :: c' => key_eqb k k' || cache_mem k c'
  end.

Definition append_parameters (p : value) (d : node_data) : node_data :=
  mkNodeData (nd_id d) (nd_contact_flow_name d) (nd_module_type d)
             (nd_timestamp d) (nd_blockIdentifier d)
             (nd_Parameters d ++ [p]) (nd_is_error d).

Fixpoint cache_append (k : cache_key) (p : value) (c : node_cache) : node_cache :=
  match c with
  | [] => []
  | (k', d) :: c' =>
      if key_eqb k k' then (k', append_parameters p d) :: c'
      else (k', d) :: cache_append k p c'
  end.

Definition add_node_cache (module_type : value) (cache : node_cache)
    (node_id : string) (log : value) (is_error : value) : res node_cache :=
  parameters <- py_get_default log "Parameters" (JObj []) ;;
  flow_name <- py_index log "ContactFlowName" ;;
  let unique_key := (flow_name, module_type) in
  if hashable flow_name && hashable module_type then
    if cache_mem unique_key cache then
      Ret (cache_append unique_key parameters cache)
    else
      ts <- py_index log "Timestamp" ;;
      ident <- py_index log "Identifier" ;;
      Ret (cache ++ [(unique_key,
                      mkNodeData node_id flow_name module_type ts ident
                                 [parameters] is_error)])
  else Raise TypeError.

Definition error_color (is_error : value) : string :=
  if truthy is_error then "tomato" else "lightgray".

(** Dictionaries with arbitrary hashable keys, in insertion order. *)
Fixpoint dict_set {A : Type} (k : value) (v : A) (d : list (value * A))
  : list (value * A) :=
  match d with
  | [] => [(k, v)]
  | (k', v') :: d' =>
      if py_eq k k' then (k', v) :: d' else (k', v') :: dict_set k v d'
  end.

Fixpoint dict_find {A : Type} (k : value) (d : list (value * A)) : option A :=
  match d with
  | [] => None
  | (k', v) :: d' => if py_eq k k' then Some v else dict_find k d'
  end.

(** [d[k]] on such a dictionary. *)
Definition dict_index {A : Type} (k : value) (d : list (value * A)) : res A :=
  if hashable k then
    match dict_find k d with
    | Some v => Ret v
    | None => Raise KeyError
    end
  else Raise TypeError.

(* ------------------------------------------------------------------ *)
(** ** Collaborators outside [dot_builder.py] *)

(** Library functions, the helpers imported from [utils], the files read at
    run time and the ambient [env] and [connect_region] are parameters of
    the model. *)
Record externals : Type := mkExternals {
  (* the table loaded from ./mnt/flow_ko_en.json *)
  flow_translation_map : list (string * string);
  (* str(), as used by f-strings *)
  py_str : value -> string;
  (* json.dumps(x, sort_keys=True) *)
  json_dumps_sorted : value -> string;
  (* datetime.fromisoformat, as a point on the time line *)
  fromisoformat : string -> res Z;
  (* utils.get_func_name(arn, env) *)
  get_func_name : value -> res string;
  (* utils.calculate_timestamp_gap(event_timestamp, log_timestamp) *)
  calculate_timestamp_gap : value -> value -> res Z;
  (* utils.get_xray_trace(xray_trace_id, connect_region) *)
  get_xray_trace : value -> res (list value);
  (* reading ./virtual_env/batch_xray_{id}.json and drawing the trace
     graph of build_xray_nodes, for a trace id and its associated logs *)
  draw_xray_batch : value -> list value -> res unit;
  (* reading ./virtual_env/contact_flow_{contact_id}.json *)
  read_contact_flow : value -> res (list value);
  (* whether the datetime that fromisoformat reads from a text is aware,
     that is, whether the text carries a UTC offset *)
  has_utc_offset : string -> bool;
  (* str() of the datetime that fromisoformat reads from a text *)
  str_datetime : string -> string;
  (* utils.replace_generic_arn(log) *)
  replace_generic_arn : value -> res value;
  (* utils.wrap_text(text, is_just_cut=..., max_length=...) *)
  wrap_text : value -> bool -> nat -> res value;
  (* describe_flow.get_comparison_value(flow_id, block_id, name, second) *)
  get_comparison_value : value -> value -> string -> bool -> res value;
  (* utils.sanitize_label(text) and utils.valid_uuid(text) *)
  sanitize_label : value -> res value;
  valid_uuid : value -> res value;
  (* json.dumps(x, indent=n, ensure_ascii=False) *)
  json_dumps_indent : nat -> value -> string;
  (* os.getcwd() and os.path.isfile(path) *)
  getcwd : string;
  isfile : string -> bool
}.

(** What the builder prints. *)
Inductive diag : Type :=
| NoTargetLogs : value -> diag              (* "===no target logs=== : {log}" *)
| CaughtException : value -> exn -> diag    (* print(check_log); traceback *)
| Traceback : exn -> diag.                  (* print(traceback.format_exc()) *)

(** The accumulators every assembly function threads through: the graph,
    the ordered node list, the error counter, and standard output. *)
Record bstate : Type := mkState {
  st_dot : digraph;
  st_nodes : list string;
  st_errors : nat;
  st_out : list diag
}.

Definition sys_maxsize : Z := (2 ^ 63 - 1)%Z.

Section Assembly.

Variable X : externals.

(* ---------------------------------------------------------------- *)
(** *** get_node_text_by_module_type *)

(** [f"({c})" if c else ""] *)
Definition parenthesised (c : value) : string :=
  if truthy c then ("(" ++ py_str X c ++ ")")%string else "".

(** The sign of a comparison and the text the node starts with: the
    [if]/[elif] chain on [op]. *)
Definition comparison_operand (op : value) : string * string :=
  if py_eq op (JStr "Contains") then ("⊃", "")
  else if py_eq op (JStr "Equals") then ("=", "")
  else if py_eq op (JStr "GreaterThan") then (">", "")
  else if py_eq op (JStr "GreaterThanOrEqualTo") then ("≧", "")
  else if py_eq op (JStr "LessThan") then ("<", "")
  else if py_eq op (JStr "LessThanOrEqualTo") then ("≦", "")
  else if py_eq op (JStr "StartsWith") then ("StartsWith", "")
  else ("", "Invalid Operator").

(** The branch for [CheckAttribute].  [comparison_value] and
    [comparison_second_value] are assigned only when the event has a flow
    id and a block id; they are read in any case. *)
Definition check_attribute_text (log replaced_arn_log param_json block_id : value)
  : res (string * string) :=
  op <- py_get param_json "ComparisonMethod" ;;
  value0 <- py_get param_json "Value" ;;
  second_value0 <- py_get param_json "SecondValue" ;;
  value1 <- wrap_text X value0 false 50 ;;
  flow_id <- py_get log "ContactFlowId" ;;
  compared <-
    (if truthy flow_id && truthy block_id then
       c <- get_comparison_value X flow_id block_id "ComparisonValue" false ;;
       c2 <- get_comparison_value X flow_id block_id "ComparisonValue" true ;;
       Ret (Some (c, c2))
     else Ret None) ;;
  let '(operand, node_text) := comparison_operand op in
  match compared with
  | None => Raise UnboundLocalError
  | Some (comparison_value, comparison_second_value) =>
      let value := (py_str X value1 ++ parenthesised comparison_value)%string in
      let second_value :=
        (py_str X second_value0 ++ parenthesised comparison_second_value)%string in
      let is_too_long := (30 <? str_len (value ++ second_value))%nat in
      let node_text :=
        (node_text ++ value ++ " " ++ operand ++ " "
           ++ (if is_too_long then newline else "") ++ second_value ++ " ? ")%string in
      results <- py_get replaced_arn_log "Results" ;;
      node_footer <- py_concat_str "Results : " results ;;
      Ret (node_text, node_footer)
  end.

(** One parameter of an invocation: the body of [for key in parameters]. *)
Definition invoke_parameter_text (log block_id parameters key : value) : res string :=
  flow_id <- py_get log "ContactFlowId" ;;
  parameter_attr <-
    get_comparison_value X flow_id block_id "LambdaInvocationAttributes" false ;;
  v <- py_subscript parameters key ;;
  line <- wrap_text X (JStr (py_str X key ++ " = " ++ py_str X v)%string) true 25 ;;
  attr <- py_get_v parameter_attr key ;;
  dollar <- py_str_in "$" attr ;;
  note <- (if dollar then
             a <- py_concat_str "(" attr ;; Ret (a ++ ")")%string
           else Ret "") ;;
  Ret (py_str X line ++ " " ++ note ++ newline)%string.

(** The branch for [InvokeExternalResource] and [InvokeLambdaFunction]. *)
Definition invoke_text (log replaced_arn_log param_json block_id : value)
  : res (string * string) :=
  parameters <- py_get param_json "Parameters" ;;
  node_text <-
    (if truthy parameters then
       keys <- py_iter parameters ;;
       for_text (invoke_parameter_text log block_id parameters) keys ""
     else Ret "") ;;
  external_results <- py_get replaced_arn_log "ExternalResults" ;;
  node_footer <-
    (if truthy external_results then
       Ret ("ExternalResults : " ++ json_dumps_indent X 2 external_results)%string
     else
       results <- py_get_default replaced_arn_log "Results" (JStr "") ;;
       py_concat_str "" results) ;;
  Ret (node_text, node_footer).

(** [l_arr[n] = l_arr[n] + "\n"] *)
Fixpoint break_at (n : nat) (l_arr : list string) : list string :=
  match l_arr, n with
  | [], _ => []
  | w :: rest, O => (w ++ newline)%string :: rest
  | w :: rest, S n' => w :: break_at n' rest
  end.

(** One line of a prompt: a line of more than 30 characters is broken
    after its middle word. *)
Definition prompt_line (line : string) : string :=
  if (30 <? str_len line)%nat then
    let l_arr := str_split " " line in
    (String.concat " " (break_at (List.length l_arr / 2) l_arr) ++ newline)%string
  else (line ++ newline)%string.

(** The branch for [PlayPrompt], [GetUserInput] and [StoreUserInput]. *)
Definition prompt_text (replaced_arn_log param_json : value) : res (string * string) :=
  param_str <- py_get param_json "Text" ;;
  node_text <-
    (if truthy param_str then
       match param_str with
       | JStr text =>
           let text' := str_replace "." ("." ++ newline)
                                    (str_replace "," ("," ++ newline) text) in
           Ret (String.concat "" (map prompt_line (str_split newline text')))
       | _ => Raise AttributeError
       end
     else
       source <- py_get param_json "PromptSource" ;;
       if truthy source then
         prompt_wav <- py_get param_json "PromptLocation" ;;
         match prompt_wav with
         | JStr wav =>
             let parts := str_split "/" wav in
             if (2 <? List.length parts)%nat then
               Ret ("음원재생 : " ++ newline ++ " "
                      ++ nth (List.length parts - 2) parts "" ++ "/" ++ last parts "")%string
             else Ret ""
         | _ => Raise AttributeError
         end
       else Ret "") ;;
  results <- py_get replaced_arn_log "Results" ;;
  node_footer <-
    (if truthy results then
       wrapped <- wrap_text X results true 20 ;;
       py_concat_str "Results : " wrapped
     else Ret "") ;;
  Ret (node_text, node_footer).

(** [f"{key} : {d[key]} \n"] for every key of [d]. *)
Definition items_text (d : value) : res string :=
  keys <- py_iter d ;;
  for_text (fun key => v <- py_subscript d key ;;
                       Ret (py_str X key ++ " : " ++ py_str X v ++ " " ++ newline)%string)
           keys "".

(** The branch for [SetAttributes] and [SetFlowAttributes]: one line per
    parameter record, read with [param['Key']] and [param['Value']]. *)
Definition attributes_text (param_json : value) : res string :=
  params <- py_iter param_json ;;
  for_text (fun param =>
              k <- py_subscript param (JStr "Key") ;;
              v <- py_subscript param (JStr "Value") ;;
              line <- wrap_text X (JStr (py_str X k ++ " = " ++ py_str X v)%string) true 30 ;;
              Ret (py_str X line ++ " " ++ newline)%string)
           params "".

(** [node_footer = "Results : " + Results], when the event has results. *)
Definition results_footer (replaced_arn_log : value) : res string :=
  results <- py_get replaced_arn_log "Results" ;;
  if truthy results then py_concat_str "Results : " results else Ret "".

(** The last branch, for every other module type. *)
Definition default_text (replaced_arn_log param_json : value) : res (string * string) :=
  keys <- py_iter param_json ;;
  node_text <-
    for_text (fun key =>
                v <- py_subscript param_json key ;;
                line <- wrap_text X (JStr (py_str X key ++ " = " ++ py_str X v)%string)
                                  true 25 ;;
                Ret (py_str X line ++ " " ++ newline)%string)
             keys "" ;;
  node_footer <- results_footer replaced_arn_log ;;
  Ret (node_text, node_footer).

(** The text and the footer of a node. *)
Definition get_node_text_by_module_type (module_type log block_id : value)
  : res (value * string) :=
  replaced_arn_log <- replace_generic_arn X log ;;
  param_json <- py_get_default replaced_arn_log "Parameters" (JObj []) ;;
  '(node_text, node_footer) <-
    (if py_eq module_type (JStr "CheckAttribute") then
       check_attribute_text log replaced_arn_log param_json block_id
     else if in_consts module_type ["InvokeExternalResource"; "InvokeLambdaFunction"] then
       invoke_text log replaced_arn_log param_json block_id
     else if in_consts module_type ["PlayPrompt"; "GetUserInput"; "StoreUserInput"] then
       prompt_text replaced_arn_log param_json
     else if py_eq module_type (JStr "TagContact") then
       tags <- py_get param_json "Tags" ;;
       node_text <- (if truthy tags then items_text tags else Ret "") ;;
       Ret (node_text, "")
     else if in_consts module_type ["SetAttributes"; "SetFlowAttributes"] then
       node_text <- attributes_text param_json ;;
       Ret (node_text, "")
     else if py_eq module_type (JStr "SetLoggingBehavior") then
       v <- py_subscript param_json (JStr "LoggingBehavior") ;;
       Ret (("LoggingBehavior = " ++ py_str X v)%string, "")
     else if in_consts module_type ["SetContactFlow"; "SetContactData"] then
       node_text <- items_text param_json ;;
       Ret (node_text, "")
     else if py_eq module_type (JStr "GetCustomerProfile") then
       data <- py_get replaced_arn_log "ResultData" ;;
       node_text <- (if truthy data then
                       profile <- py_subscript data (JStr "ProfileId") ;;
                       py_concat_str "ProfileId: " profile
                     else Ret "") ;;
       node_footer <- results_footer replaced_arn_log ;;
       Ret (node_text, node_footer)
     else if py_eq module_type (JStr "AssociateContactToCustomerProfile") then
       request <- py_subscript param_json (JStr "ProfileRequestData") ;;
       a <- py_subscript request (JNum 0) ;;
       b <- py_subscript request (JNum 1) ;;
       Ret ((py_str X a ++ newline ++ py_str X b)%string, "")
     else if in_consts module_type ["Dial"; "Resume"; "ReturnFromFlowModule"] then
       Ret ("", "")
     else default_text replaced_arn_log param_json) ;;
  wrapped <- wrap_text X (JStr node_text) true 100 ;;
  Ret (wrapped, node_footer).

(* ---------------------------------------------------------------- *)
(** *** get_node_label *)

(** [str(x).replace(">", "＞").replace("<", "＜").replace("\n", "<br/>")] *)
Definition html_text (x : value) : string :=
  str_replace newline "<br/>" (str_replace "<" "＜" (str_replace ">" "＞" (py_str X x))).

Definition indent8 : string := (newline ++ "        ")%string.
Definition indent12 : string := (newline ++ "            ")%string.

(** The label of a node: an HTML table with the icon and the title, the
    block id unless it is a UUID, the text and the footer. *)
Definition get_node_label (module_type node_title node_text node_footer block_id : value)
  : res string :=
  let icon_path := (getcwd X ++ "/mnt/img/" ++ py_str X module_type ++ ".png")%string in
  let node_text := html_text node_text in
  let footer := html_text node_footer in
  node_footer <-
    (if String.prefix "ExternalResults" footer then
       if is_substring (markup "'isSuccess': 'true'") footer
       then Ret (JStr "isSuccess: true ✅")
       else if is_substring (markup "'isSuccess': 'false'") footer
       then Ret (JStr "isSuccess: false ❌")
       else wrap_text X (JStr footer) true 30
     else if is_substring "false" footer || is_substring "Fail" footer
     then Ret (JStr (footer ++ " ❌"))
     else if is_substring "true" footer || is_substring "Success" footer
     then Ret (JStr (footer ++ " ✅"))
     else Ret (JStr footer)) ;;
  let icon := isfile X icon_path in
  let top_label :=
    if icon then
      (markup "<<table border='0' cellborder='0' cellspacing='0'>" ++ indent8 ++ "<tr>"
         ++ indent12
         ++ markup "<td bgcolor='lightgray' width='30' height='30' fixedsize='true'><img scale='true' src='"
         ++ icon_path ++ markup "'/></td>"
         ++ indent12 ++ markup "<td bgcolor='lightgray' width='150'>"
         ++ py_str X node_title ++ "</td>" ++ indent8 ++ "</tr>")%string
    else
      (markup "<<table border='0' cellborder='0' cellspacing='0'>" ++ indent8 ++ "<tr>"
         ++ indent12 ++ markup "<td bgcolor='lightgray'>"
         ++ py_str X node_title ++ "</td>" ++ indent8 ++ "</tr>")%string in
  block_id_label <-
    (if py_eq block_id JNull then Ret ""
     else
       uuid <- valid_uuid X block_id ;;
       if truthy uuid then Ret ""
       else
         b <- sanitize_label X block_id ;;
         Ret (if icon
              then markup "<tr><td colspan='2'>" ++ py_str X b ++ "</td></tr>"
              else "<tr><td>" ++ py_str X b ++ "</td></tr>")%string) ;;
  t <- sanitize_label X (JStr node_text) ;;
  let bottom_label :=
    if icon then
      ("<tr>" ++ indent12 ++ markup "<td colspan='2' bgcolor='white'>" ++ py_str X t
         ++ "</td>" ++ indent8 ++ "</tr>")%string
    else
      ("<tr>" ++ indent12 ++ markup "<td bgcolor='white'>" ++ py_str X t
         ++ "</td>" ++ indent8 ++ "</tr>")%string in
  let result_label :=
    if py_eq node_footer JNull || py_eq node_footer (JStr "None") then "</table>>"
    else if icon
    then (markup "<tr><td colspan='2'>" ++ py_str X node_footer ++ "</td></tr></table>>")%string
    else ("<tr><td>" ++ py_str X node_footer ++ "</td></tr></table>>")%string in
  Ret (top_label ++ block_id_label ++ bottom_label ++ result_label)%string.

(* ---------------------------------------------------------------- *)
(** *** dup_block_sanitize *)

(** The body of the loop of [dup_block_sanitize]: the node of one bucket. *)
Definition bucket_node (d : node_data) : res node_stmt :=
  '(node_text, _) <-
    get_node_text_by_module_type (nd_module_type d) (node_data_doc d)
                                 (nd_blockIdentifier d) ;;
  module_type <- define_module_type (nd_module_type d) (JList (nd_Parameters d)) ;;
  title <- get_module_name_ko (flow_translation_map X) module_type (node_data_doc d) ;;
  _ <- get_node_label module_type title node_text JNull (nd_blockIdentifier d) ;;
  Ret (mkNode (nd_id d) module_type title "box"
              (error_color (nd_is_error d)) (UrlDoc (node_data_doc d))).

(** [dup_block_sanitize]: one node per bucket, in insertion order. *)
Fixpoint dup_block_sanitize (cache : node_cache) (dot : digraph) (nodes : list string)
  : res (digraph * list string) :=
  match cache with
  | [] => Ret (dot, nodes)
  | (_, d) :: cache' =>
      n <- bucket_node d ;;
      dup_block_sanitize cache' (dot_node dot n) (nodes ++ [nd_id d])
  end.

(* ---------------------------------------------------------------- *)
(** *** X-Ray summary node *)

Definition py_add_str (a b : value) : res value :=
  match a, b with
  | JStr x, JStr y => Ret (JStr (x ++ y)%string)
  | _, _ => Raise TypeError
  end.

(** The operation line of one trace segment ([None] when it has none). *)
Definition xray_op (t : value) : res value :=
  aws <- py_get t "aws" ;;
  if truthy aws then
    operation <- py_get aws "operation" ;;
    if truthy operation then
      names <- py_get_default aws "resource_names" (JList []) ;;
      n <- py_len names ;;
      if (0 <? n)%nat then
        first <- py_item names 0 ;;
        a <- py_add_str operation (JStr " ") ;;
        b <- py_add_str a first ;;
        py_add_str b (JStr newline)
      else
        name <- py_index t "name" ;;
        a <- py_add_str operation (JStr " ") ;;
        b <- py_add_str a name ;;
        py_add_str b (JStr newline)
    else Ret JNull
  else Ret JNull.

Fixpoint xray_text_loop (trace : list value) (last_op : value) (index : nat)
    (text : string) : res string :=
  match trace with
  | [] => Ret text
  | t :: trace' =>
      op <- xray_op t ;;
      if negb (py_eq op last_op) then
        line <- py_add_str (JStr ("Operation " ++ str_of_nat index ++ " : " ++ newline)%string) op ;;
        match line with
        | JStr l => xray_text_loop trace' op (S index) (text ++ l)%string
        | _ => Raise TypeError
        end
      else xray_text_loop trace' last_op index text
  end.

Definition build_xray_nodes (xray_trace_id : value)
    (associated_lambda_logs : list value) (module_stack : string)
    (contact_id : value) : res string :=
  _ <- draw_xray_batch X xray_trace_id associated_lambda_logs ;;
  match associated_lambda_logs with
  | [] => Raise UnboundLocalError   (* xray_trace_file is never assigned *)
  | _ => Ret ("./virtual_env/xray_trace_" ++ py_str X contact_id ++ module_stack
              ++ "__" ++ py_str X xray_trace_id)%string
  end.

Definition count_level (lvl : string) (levels : list value) : nat :=
  List.length (filter (fun l => py_eq l (JStr lvl)) levels).

Definition build_xray_dot (st : bstate) (xray_trace_id : value)
    (function_logs : list value) (log : value) (module_stack : string)
    (contact_id : value) : res bstate :=
  xray_trace <- get_xray_trace X xray_trace_id ;;
  xray_text <- xray_text_loop xray_trace JNull 1 "" ;;
  associated_lambda_logs <-
    filterM (fun l => x <- py_get l "xray_trace_id" ;; Ret (py_eq x xray_trace_id))
            function_logs ;;
  xray_trace_file <-
    build_xray_nodes xray_trace_id associated_lambda_logs module_stack contact_id ;;
  levels <- mapM (fun l => py_get_default l "level" (JStr "INFO"))
                 associated_lambda_logs ;;
  let l_error_count := count_level "ERROR" levels in
  let l_warn_count := count_level "WARN" levels in
  let flagged := ((0 <? l_error_count) || (0 <? l_warn_count))%nat in
  let color := if flagged then "tomato" else "lightgray" in
  let lambda_node_footer :=
    if flagged then
      JStr ((if (0 <? l_warn_count)%nat
             then "Warn : " ++ str_of_nat l_warn_count else "")
            ++ (if (0 <? l_error_count)%nat
                then newline ++ "Error : " ++ str_of_nat l_error_count else ""))%string
    else JNull in
  ts <- py_get_default log "Timestamp" (JStr "") ;;
  stripped <- strip_timestamp ts ;;
  let node_id := (stripped ++ "_" ++ py_str X xray_trace_id)%string in
  name <- get_module_name_ko (flow_translation_map X) (JStr "xray") log ;;
  title <- py_add_str name (JStr "  ➡️") ;;
  _ <- get_node_label (JStr "xray") title (JStr xray_text) lambda_node_footer
                      xray_trace_id ;;
  let n := mkNode node_id (JStr "xray") title "plaintext" color
                  (UrlFile (xray_trace_file ++ ".dot")%string) in
  Ret (mkState (dot_node (st_dot st) n) (st_nodes st ++ [node_id])
               (if flagged then st_errors st + (l_error_count + l_warn_count)
                else st_errors st)
               (st_out st)).

(* ---------------------------------------------------------------- *)
(** *** Correlation of an invocation event with the function logs *)

(** One iteration of the matching loop.  The state is the list of matches
    and the event's parameters.  The [varsConfig] exception deletes that
    key from the event's parameters and from the entry's parameters, in
    place.  The edit of the event's parameters is carried through the loop
    and into the event as it is printed and handed on afterwards
    ([with_parameters] below).  The edit of the entry is applied to the
    copy of its parameters that is compared: the entries kept as matches
    and the function logs handed on are the entries as they were read, and
    the lambda logs of a later event are those its caller passes. *)
Definition match_step (contact_id : value) (st : list value * value) (l : value)
  : res (list value * value) :=
  let '(target_logs, log_parameters) := st in
  cid <- py_get l "ContactId" ;;
  if py_eq cid contact_id then
    msg <- py_get_default l "message" (JStr "") ;;
    is_parameter <- py_str_in "parameter" msg ;;
    if is_parameter then
      fp <- py_get l "parameters" ;;
      let func_param := str_replace "id&v" "idnv" (json_dumps_sorted X fp) in
      let log_param := str_replace "id&v" "idnv" (json_dumps_sorted X log_parameters) in
      if String.eqb log_param func_param
      then Ret (target_logs ++ [l], log_parameters)
      else Ret st
    else
      is_event <- py_str_in "Event" msg ;;
      if is_event then
        _ <- match log_parameters with       (* sorted(log_parameters.items()) *)
             | JObj _ => Ret tt
             | _ => Raise AttributeError
             end ;;
        ev <- py_get l "event" ;;
        if truthy ev then
          details <- py_index ev "Details" ;;
          func_param <- py_index details "Parameters" ;;
          fv <- py_get func_param "varsConfig" ;;
          lv <- py_get log_parameters "varsConfig" ;;
          let both := negb (py_eq JNull fv) && negb (py_eq JNull lv) in
          let func_param' :=
            match func_param with
            | JObj d => if both then JObj (dict_del "varsConfig" d) else func_param
            | _ => func_param
            end in
          let log_parameters' :=
            match log_parameters with
            | JObj d => if both then JObj (dict_del "varsConfig" d) else log_parameters
            | _ => log_parameters
            end in
          if String.eqb (json_dumps_sorted X log_parameters')
                        (json_dumps_sorted X func_param')
          then Ret (target_logs ++ [l], log_parameters')
          else Ret (target_logs, log_parameters')
        else Ret st
      else Ret st
  else Ret st.

(** The loop, with [check_log], the entry looked at last. *)
Fixpoint match_loop (contact_id : value) (function_logs : list value)
    (check_log : value) (st : list value * value)
  : value * res (list value * value) :=
  match function_logs with
  | [] => (check_log, Ret st)
  | l :: ls =>
      match match_step contact_id st l with
      | Ret st' => match_loop contact_id ls l st'
      | Raise e => (l, Raise e)
      end
  end.

(** The loop that keeps the trace id of the closest candidate. *)
Fixpoint closest_trace (event_ts : value) (target_logs : list value)
    (min_gap : Z) (xid : value) : res value :=
  match target_logs with
  | [] => Ret xid
  | l :: ls =>
      lts <- py_get l "timestamp" ;;
      gap <- calculate_timestamp_gap X event_ts lts ;;
      if (min_gap >? gap)%Z then
        x <- py_get l "xray_trace_id" ;;
        closest_trace event_ts ls gap x
      else closest_trace event_ts ls min_gap xid
  end.

(** The gap and the trace id of one candidate, as the loop reads them. *)
Definition entry_gap (event_ts l : value) : res Z :=
  lts <- py_get l "timestamp" ;;
  calculate_timestamp_gap X event_ts lts.

Definition entry_trace_id (l : value) : value :=
  match l with
  | JObj d => match assoc "xray_trace_id" d with Some v => v | None => JNull end
  | _ => JNull
  end.

(** What a candidate must satisfy for the gap loop to read it: it is a
    record and its gap to the event is computed and below [sys.maxsize]. *)
Definition readable (event_ts l : value) (g : Z) : Prop :=
  entry_gap event_ts l = Ret g /\ (g < sys_maxsize)%Z /\ exists d, l = JObj d.

(** [k] is the first index of a smallest gap. *)
Definition first_minimum (gaps : list Z) (k : nat) (gk : Z) : Prop :=
  nth_error gaps k = Some gk /\
  forall j gj, nth_error gaps j = Some gj -> (gk <= gj)%Z /\ (j < k -> (gk < gj)%Z).

(** The trace id chosen among the matches, and whether the "no target
    logs" diagnostic is printed. *)
Definition select_trace (log : value) (target_logs : list value)
  : res (value * bool) :=
  match target_logs with
  | [] => Ret (JStr "", true)
  | [l] => x <- py_get l "xray_trace_id" ;; Ret (x, false)
  | _ =>
      ts <- py_get log "Timestamp" ;;
      x <- closest_trace ts target_logs sys_maxsize (JStr "") ;;
      Ret (x, false)
  end.

(** The event after the matching loop, which edits
    [log["Parameters"]["Parameters"]] in place: [log_parameters] is what
    the loop leaves there. *)
Definition with_parameters (log log_parameters : value) : value :=
  match log with
  | JObj d =>
      match assoc "Parameters" d with
      | Some (JObj p) =>
          match assoc "Parameters" p with
          | Some _ =>
              JObj (dict_put "Parameters"
                             (JObj (dict_put "Parameters" log_parameters p)) d)
          | None => log
          end
      | _ => log
      end
  | _ => log
  end.

(** The first half of the [try] of [add_block_nodes]: the function's
    logs, the contact id, the matching entries ([target_logs]) and the
    event's parameters as the loop leaves them, with [check_log]. *)
Definition find_target_logs (log lambda_logs : value) (function_name : string)
  : value * res (list value * value * list value * value) :=
  match (function_logs <- py_get_default lambda_logs function_name (JList []) ;;
         match function_logs with
         | JList ls => Ret ls
         | _ => Raise TypeError
         end) with
  | Raise e => (JNull, Raise e)
  | Ret function_logs =>
      match (contact_id <- py_get log "ContactId" ;;
             p <- py_get_default log "Parameters" (JList []) ;;
             log_parameters <- py_get_default p "Parameters" (JList []) ;;
             _ <- mapM (fun l => py_get l "ContactId") function_logs ;;
             Ret (contact_id, log_parameters)) with
      | Raise e => (JNull, Raise e)
      | Ret (contact_id, log_parameters) =>
          match match_loop contact_id function_logs JNull ([], log_parameters) with
          | (check_log, Raise e) => (check_log, Raise e)
          | (check_log, Ret (target_logs, log_parameters')) =>
              (check_log,
               Ret (function_logs, contact_id, target_logs, log_parameters'))
          end
      end
  end.

(** The body of the [try] of [add_block_nodes]. *)
Definition trace_lambda (st : bstate) (log lambda_logs : value)
    (function_name : string) (module_stack : string) : value * res bstate :=
  match find_target_logs log lambda_logs function_name with
  | (check_log, Raise e) => (check_log, Raise e)
  | (check_log, Ret (function_logs, contact_id, target_logs, log_parameters)) =>
      let log := with_parameters log log_parameters in
      (check_log,
       '(xid, missing) <- select_trace log target_logs ;;
       let st1 :=
         if missing
         then mkState (st_dot st) (st_nodes st) (st_errors st)
                      (st_out st ++ [NoTargetLogs log])
         else st in
       match target_logs with
       | [] => Ret st1
       | _ => build_xray_dot st1 xid function_logs log module_stack contact_id
       end)
  end.

(* ---------------------------------------------------------------- *)
(** *** add_block_nodes *)

Definition add_block_nodes (module_type log is_error : value) (st : bstate)
    (node_id : string) (lambda_logs : value) (module_stack : string)
  : res bstate :=
  block_id <- py_get log "Identifier" ;;
  '(node_text, node_footer) <- get_node_text_by_module_type module_type log block_id ;;
  params <- py_get_default log "Parameters" (JObj []) ;;
  module_type' <- define_module_type module_type params ;;
  title <- get_module_name_ko (flow_translation_map X) module_type' log ;;
  _ <- get_node_label module_type' title node_text (JStr node_footer) block_id ;;
  let n := mkNode node_id module_type' title "plaintext"
                  (error_color is_error) (UrlDoc log) in
  let st1 := mkState (dot_node (st_dot st) n) (st_nodes st ++ [node_id])
                     (st_errors st) (st_out st) in
  if py_eq module_type' (JStr "InvokeExternalResource") then
    n_logs <- py_len lambda_logs ;;
    if (0 <? n_logs)%nat then
      p <- py_get log "Parameters" ;;
      arn <- py_index p "FunctionArn" ;;
      function_name <- get_func_name X arn ;;
      match trace_lambda st1 log lambda_logs function_name module_stack with
      | (_, Ret st2) => Ret st2
      | (check_log, Raise e) =>
          Ret (mkState (st_dot st1) (st_nodes st1) (st_errors st1)
                       (st_out st1 ++ [CaughtException check_log e]))
      end
    else Ret st1
  else Ret st1.

(* ---------------------------------------------------------------- *)
(** *** The dedup/emit loops *)

(** [datetime.fromisoformat(x['Timestamp'].replace('Z', '+00:00'))]: the
    text that is read, and the point on the time line it denotes. *)
Definition timestamp_of (x : value) : res (string * Z) :=
  ts <- py_index x "Timestamp" ;;
  match ts with
  | JStr s =>
      let text := str_replace "Z" "+00:00" s in
      t <- fromisoformat X text ;;
      Ret (text, t)
  | _ => Raise AttributeError
  end.

Definition sort_key (x : value) : res Z :=
  t <- timestamp_of x ;; Ret (snd t).

(** Whether the datetime of an event is aware. *)
Definition aware (x : value) : bool :=
  match timestamp_of x with
  | Ret t => has_utc_offset X (fst t)
  | Raise _ => false
  end.

(** A naive and an aware datetime cannot be ordered: the comparison raises
    [TypeError].  A sort has to order every element against the rest, so it
    returns only when the datetimes are all naive or all aware. *)
Definition comparable (logs : list value) : bool :=
  match logs with
  | [] => true
  | x :: rest => forallb (fun y => Bool.eqb (aware y) (aware x)) rest
  end.

Fixpoint insert_by_key (k : Z) (x : value) (l : list (Z * value))
  : list (Z * value) :=
  match l with
  | [] => [(k, x)]
  | (k', y) :: l' =>
      if (k <=? k')%Z then (k, x) :: l else (k', y) :: insert_by_key k x l'
  end.

Fixpoint sort_keyed (l : list (Z * value)) : list (Z * value) :=
  match l with
  | [] => []
  | (k, x) :: l' => insert_by_key k x (sort_keyed l')
  end.

(** [logs.sort(key=lambda x: datetime.fromisoformat(
      x['Timestamp'].replace('Z', '+00:00')))]: the keys are computed for
    every element first, then the list is sorted by them; the sort is
    stable. *)
Definition sort_logs (logs : list value) : res (list value) :=
  keys <- mapM sort_key logs ;;
  if comparable logs
  then Ret (map snd (sort_keyed (combine keys logs)))
  else Raise TypeError.

(** [f"{log['Timestamp'].replace(':', '').replace('.', '')}_{index}"] *)
Definition make_node_id (log : value) (index : nat) : res string :=
  ts <- py_index log "Timestamp" ;;
  stripped <- strip_timestamp ts ;;
  Ret (stripped ++ "_" ++ str_of_nat index)%string.

(** The part of the loop body shared, line for line, by
    [build_module_detail] and [build_contact_flow_detail]: aggregate the
    event, or flush the cache and emit a node for it. *)
Definition dedup_emit (lambda_logs : value) (module_stack : string)
    (module_type log is_error : value) (node_id : string)
    (st : bstate) (cache : node_cache) (last_module_type : value)
  : res (bstate * node_cache * value) :=
  if in_consts module_type DUP_CONTACT_FLOW_MODULE_TYPE then
    cache' <- add_node_cache module_type cache node_id log is_error ;;
    last' <- py_get_v log module_type ;;
    Ret (st, cache', last')
  else
    '(st1, cache1) <-
      (if (0 <? List.length cache)%nat && negb (py_eq module_type last_module_type)
       then
         '(dot, nodes) <- dup_block_sanitize cache (st_dot st) (st_nodes st) ;;
         Ret (mkState dot nodes (st_errors st) (st_out st), [])
       else Ret (st, cache)) ;;
    if negb (in_consts module_type OMIT_CONTACT_FLOW_MODULE_TYPE) then
      st2 <- add_block_nodes module_type log is_error st1 node_id
                             lambda_logs module_stack ;;
      Ret (st2, cache1, last_module_type)
    else Ret (st1, cache1, last_module_type).

Definition module_step (lambda_logs : value) (module_stack : string)
    (index : nat) (log : value) (s : bstate * node_cache * value)
  : res (bstate * node_cache * value) :=
  let '(st, cache, last_module_type) := s in
  is_error <- classify log ;;
  let st' := mkState (st_dot st) (st_nodes st)
                     (if truthy is_error then S (st_errors st) else st_errors st)
                     (st_out st) in
  node_id <- make_node_id log index ;;
  module_type <- py_get log "ContactFlowModuleType" ;;
  dedup_emit lambda_logs module_stack module_type log is_error node_id
             st' cache last_module_type.

(** [for index, log in enumerate(logs)], from index [index]. *)
Fixpoint module_loop (lambda_logs : value) (module_stack : string)
    (index : nat) (logs : list value) (s : bstate * node_cache * value)
  : res (bstate * node_cache * value) :=
  match logs with
  | [] => Ret s
  | log :: logs' =>
      s' <- module_step lambda_logs module_stack index log s ;;
      module_loop lambda_logs module_stack (S index) logs' s'
  end.

(** [build_module_detail]; the result is [(m_dot, nodes,
    module_error_count)] together with what was printed.  The flush after
    the loop is commented out in the source. *)
Definition build_module_detail (logs : list value) (lambda_logs : value)
    (module_error_count : nat) (module_stack : string) (out : list diag)
  : res bstate :=
  logs' <- sort_logs logs ;;
  '(st, _, _) <- module_loop lambda_logs module_stack 0 logs'
                   (mkState empty_graph [] module_error_count out, [], JStr "") ;;
  Ret (mkState (add_edges (st_dot st) (st_nodes st)) (st_nodes st)
               (st_errors st) (st_out st)).

(* ---------------------------------------------------------------- *)
(** *** process_sub_flow *)

(** [a < b] on two datetimes. *)
Definition datetime_lt (a b : string * Z) : res bool :=
  if Bool.eqb (has_utc_offset X (fst a)) (has_utc_offset X (fst b))
  then Ret (snd a <? snd b)%Z
  else Raise TypeError.

(** [min_timestamp] and [max_timestamp], [None] before the first event. *)
Definition time_span : Type := (option (string * Z) * option (string * Z))%type.

(** The first loop of [process_sub_flow]: the time span and the scan for
    errors. *)
Fixpoint scan_errors (l_logs : list value) (span : time_span) (error_count : nat)
  : res (time_span * nat) :=
  match l_logs with
  | [] => Ret (span, error_count)
  | log :: rest =>
      timestamp <- timestamp_of log ;;
      min_timestamp <-
        match fst span with
        | None => Ret timestamp
        | Some m => earlier <- datetime_lt timestamp m ;;
                    Ret (if earlier then timestamp else m)
        end ;;
      max_timestamp <-
        match snd span with
        | None => Ret timestamp
        | Some m => later <- datetime_lt m timestamp ;;
                    Ret (if later then timestamp else m)
        end ;;
      kw <- results_has_keyword log ;;
      let c1 := if kw then S error_count else error_count in
      le <- is_lambda_error log ;;
      let c2 := if truthy le then S c1 else c1 in
      scan_errors rest (Some min_timestamp, Some max_timestamp) c2
  end.

(** [str(t).replace('000+00:00', '')] for [t] a datetime or [None]. *)
Definition span_text (t : option (string * Z)) : string :=
  str_replace "000+00:00" ""
              (match t with
               | Some d => str_datetime X (fst d)
               | None => "None"
               end).

(** The tail of [process_sub_flow]: remember the unit and add its summary
    node.  [shown_count] is the counter the colour is keyed on. *)
Definition sub_flow_node (st : bstate) (l_nodes : list (value * string))
    (l_name : value) (node_id node_title sub_file : string)
    (span : time_span) (n_logs : nat)
    (shown_count error_count : nat) (out : list diag)
  : res (bstate * list (value * string)) :=
  if hashable l_name then
    let l_color := if (0 <? shown_count)%nat then "tomato" else "lightgray" in
    let error_count_text :=
      if (0 <? shown_count)%nat then ("Errors: " ++ str_of_nat shown_count)%string
      else "" in
    let title := JStr (py_str X l_name ++ "  ➡️")%string in
    _ <- get_node_label (JStr node_title) title
           (JStr (span_text (fst span) ++ " ~ " ++ newline ++ span_text (snd span))%string)
           (JStr ("Nodes : " ++ str_of_nat n_logs ++ newline ++ error_count_text)%string)
           JNull ;;
    let n := mkNode node_id (JStr node_title) title "box"
                    l_color (UrlFile (sub_file ++ ".dot")%string) in
    Ret (mkState (dot_node (st_dot st) n) (st_nodes st ++ [node_id])
                 error_count out,
         dict_set l_name node_id l_nodes)
  else Raise TypeError.

(** [process_sub_flow] with [flow_type == "module"]. *)
Definition process_sub_flow_module (st : bstate) (l_nodes : list (value * string))
    (l_name : value) (node_id : string) (l_logs : list value)
    (contact_id lambda_logs : value)
  : res (bstate * list (value * string)) :=
  '(span, error_count) <- scan_errors l_logs (None, None) (st_errors st) ;;
  flow_logs <- read_contact_flow X contact_id ;;
  flow_arn_list <-
    filterM (fun l => cf <- py_get l "ContactFlowId" ;;
                      log <- match l_logs with   (* the last loop variable *)
                             | [] => Raise NameError
                             | _ => Ret (last l_logs JNull)
                             end ;;
                      stack <- py_index log "ModuleExecutionStack" ;;
                      caller <- py_item stack 1 ;;
                      Ret (py_eq cf caller)) flow_logs ;;
  flow_name <- match flow_arn_list with
               | l :: _ => py_get l "ContactFlowName"
               | [] => Ret (JStr "")
               end ;;
  let module_stack := ("__" ++ py_str X flow_name ++ "__" ++ py_str X l_name)%string in
  sub <- build_module_detail l_logs lambda_logs 0 module_stack (st_out st) ;;
  let module_error_count := st_errors sub in
  let sub_file := ("./virtual_env/module_" ++ py_str X contact_id ++ module_stack)%string in
  sub_flow_node st l_nodes l_name node_id "InvokeFlowModule" sub_file
                span (List.length l_logs)
                module_error_count (error_count + module_error_count) (st_out sub).

(** One iteration of the loop of [build_contact_flow_detail]. *)
Definition flow_step (logs : list value) (contact_id lambda_logs : value)
    (module_stack : string) (index : nat) (log : value)
    (s : bstate * node_cache * value * list (value * string))
  : res (bstate * node_cache * value * list (value * string)) :=
  let '(st, cache, last_module_type, module_nodes) := s in
  is_error <- classify log ;;
  node_id <- make_node_id log index ;;
  module_type <- py_get log "ContactFlowModuleType" ;;
  flow_name <- py_index log "ContactFlowName" ;;
  is_module <- py_str_in "MOD_" flow_name ;;
  if is_module then
    let module_name := flow_name in
    if hashable module_name then
      match dict_find module_name module_nodes with
      | None =>
          module_logs <-
            filterM (fun l => n <- py_index l "ContactFlowName" ;;
                              Ret (py_eq n module_name)) logs ;;
          '(st', module_nodes') <-
            process_sub_flow_module st module_nodes module_name node_id
                                    module_logs contact_id lambda_logs ;;
          Ret (st', cache, last_module_type, module_nodes')
      | Some _ => Ret s
      end
    else Raise TypeError
  else
    '(st', cache', last') <-
      dedup_emit lambda_logs module_stack module_type log is_error node_id
                 st cache last_module_type ;;
    Ret (st', cache', last', module_nodes).

Fixpoint flow_loop (all_logs : list value) (contact_id lambda_logs : value)
    (module_stack : string) (index : nat) (logs : list value)
    (s : bstate * node_cache * value * list (value * string))
  : res (bstate * node_cache * value * list (value * string)) :=
  match logs with
  | [] => Ret s
  | log :: logs' =>
      s' <- flow_step all_logs contact_id lambda_logs module_stack index log s ;;
      flow_loop all_logs contact_id lambda_logs module_stack (S index) logs' s'
  end.

(** [build_contact_flow_detail]; the result is [(dot, error_count)], with
    the node list and what was printed.  Here too the flush after the loop
    is commented out in the source. *)
Definition build_contact_flow_detail (logs : list value)
    (contact_id lambda_logs : value) (error_count : nat)
    (module_stack : string) (out : list diag) : res bstate :=
  logs' <- sort_logs logs ;;
  '(st, _, _, _) <- flow_loop logs' contact_id lambda_logs module_stack 0 logs'
                      (mkState empty_graph [] error_count out, [], JStr "", []) ;;
  Ret (mkState (add_edges (st_dot st) (st_nodes st)) (st_nodes st)
               (st_errors st) (st_out st)).

(** [process_sub_flow] with [flow_type == "flow"]. *)
Definition process_sub_flow_flow (st : bstate) (l_nodes : list (value * string))
    (l_name : value) (node_id : string) (l_logs : list value)
    (contact_id lambda_logs : value)
  : res (bstate * list (value * string)) :=
  '(span, error_count) <- scan_errors l_logs (None, None) (st_errors st) ;;
  let module_stack := ("__" ++ py_str X l_name)%string in
  sub <- build_contact_flow_detail l_logs contact_id lambda_logs error_count
                                   module_stack (st_out st) ;;
  let error_count' := st_errors sub in
  let sub_file := ("./virtual_env/flow_" ++ py_str X contact_id ++ "_" ++ node_id
                   ++ module_stack)%string in
  sub_flow_node st l_nodes l_name node_id "TransferToFlow" sub_file
                span (List.length l_logs)
                error_count' error_count' (st_out sub).

(** [process_sub_flow]: the two branches on [flow_type]; with any other
    flow type [sub_dot] is unbound when it is rendered. *)
Definition process_sub_flow (flow_type : string) (st : bstate)
    (l_nodes : list (value * string)) (l_name : value) (node_id : string)
    (l_logs : list value) (contact_id lambda_logs : value)
  : res (bstate * list (value * string)) :=
  if String.eqb flow_type "module" then
    process_sub_flow_module st l_nodes l_name node_id l_logs contact_id lambda_logs
  else if String.eqb flow_type "flow" then
    process_sub_flow_flow st l_nodes l_name node_id l_logs contact_id lambda_logs
  else
    _ <- scan_errors l_logs (None, None) (st_errors st) ;;
    Raise UnboundLocalError.

End Assembly.

(* ------------------------------------------------------------------ *)
(** ** Runs of aggregatable events *)

(** What [log.get(k)] reads on an event record. *)
Definition field (r : value) (k : string) : value :=
  match r with
  | JObj d => match assoc k d with Some v => v | None => JNull end
  | _ => JNull
  end.

(** [log.get('Parameters', {})] *)
Definition event_parameters (r : value) : value :=
  match r with
  | JObj d => match assoc "Parameters" d with Some v => v | None => JObj [] end
  | _ => JObj []
  end.


Definition classification (r : value) : value :=
  match classify r with
  | Ret v => v
  | Raise _ => JNull
  end.

Definition error_flag (r : value) : bool := truthy (classification r).

Definition node_id_of (r : value) (i : nat) : string :=
  match make_node_id r i with
  | Ret s => s
  | Raise _ => ""
  end.

(** An event record of flow [F] and aggregatable module type [T] that the
    loop can read: it has a textual timestamp and a block identifier, and
    its classification returns. *)
Definition aggregatable (F T : string) (r : value) : Prop :=
  In T DUP_CONTACT_FLOW_MODULE_TYPE /\
  exists d ts ident v,
    r = JObj d /\
    assoc "ContactFlowName" d = Some (JStr F) /\
    assoc "ContactFlowModuleType" d = Some (JStr T) /\
    assoc "Timestamp" d = Some (JStr ts) /\
    assoc "Identifier" d = Some ident /\
    classify r = Ret v.

(** The bucket a run leaves in the cache: the identity of its first event
    at index [i] and one entry of parameters per event. *)
Definition run_bucket (F T : string) (first : value) (i : nat)
    (run : list value) : node_data :=
  mkNodeData (node_id_of first i) (JStr F) (JStr T)
             (field first "Timestamp") (field first "Identifier")
             (map event_parameters run) (classification first).

(** The node [dup_block_sanitize] adds for the bucket of a run of type [T]. *)
Definition aggregate_node (flow_translation_map : list (string * string))
    (T : string) (b : node_data) : node_stmt :=
  let name := match assoc T flow_translation_map with
              | Some ko => ko
              | None => T
              end in
  mkNode (nd_id b) (JStr T)
         (JStr (name ++ " x " ++ str_of_nat (List.length (nd_Parameters b)))%string)
         "box" (error_color (nd_is_error b)) (UrlDoc (node_data_doc b)).

(** What [last_module_type] holds after a run: the value the last event of
    the run stores under the key [T] ([None] when it has no such field). *)
Definition run_marker (T : string) (run : list value) (last0 : value) : value :=
  fold_left (fun _ r => field r T) run last0.

(** The state a run leaves behind, in [build_module_detail]: only the
    error counter moves. *)
Definition count_errors (run : list value) : nat :=
  List.length (filter error_flag run).


Definition bump (st : bstate) (n : nat) : bstate :=
  mkState (st_dot st) (st_nodes st) (st_errors st + n) (st_out st).


(* ------------------------------------------------------------------ *)
(** ** Linking the contacts (the last two loops of build_main_contacts) *)

(** The [try] block: the edge to a related or to a previous contact. *)
Definition link_contact (subgraphs : list value)
    (subgraph_nodes : list (value * list string))
    (contact contact_id prev_id related_id : value) (dot : digraph)
  : res digraph :=
  use_related <-
    (if truthy related_id then
       rel_nodes <- dict_index related_id subgraph_nodes ;;
       if (0 <? List.length rel_nodes)%nat then
         own_nodes <- dict_index contact_id subgraph_nodes ;;
         Ret (0 <? List.length own_nodes)%nat
       else Ret false
     else Ret false) ;;
  if use_related then
    rel_nodes <- dict_index related_id subgraph_nodes ;;
    own_nodes <- dict_index contact_id subgraph_nodes ;;
    Ret (dot_edge dot (mkEdge (last rel_nodes "") (hd "" own_nodes)
                              (JStr "Related") (JStr "none")))
  else
    use_prev <-
      (if truthy prev_id then
         if hashable prev_id then
           if existsb (py_eq prev_id) subgraphs then
             prev_nodes <- dict_index prev_id subgraph_nodes ;;
             if (0 <? List.length prev_nodes)%nat then
               own_nodes <- dict_index contact_id subgraph_nodes ;;
               Ret (0 <? List.length own_nodes)%nat
             else Ret false
           else Ret false
         else Raise TypeError
       else Ret false) ;;
    if use_prev then
      prev_nodes <- dict_index prev_id subgraph_nodes ;;
      own_nodes <- dict_index contact_id subgraph_nodes ;;
      method <- py_get contact "InitiationMethod" ;;
      Ret (dot_edge dot (mkEdge (last prev_nodes "") (hd "" own_nodes)
                                method JNull))
    else Ret dot.

(** [for contact in search_contacts]: collect the roots and add the
    related/previous edges.  [subgraphs] lists the contact ids that have a
    cluster. *)
Fixpoint link_loop (subgraphs : list value)
    (subgraph_nodes : list (value * list string)) (contacts : list value)
    (s : digraph * list (value * value) * list diag)
  : res (digraph * list (value * value) * list diag) :=
  match contacts with
  | [] => Ret s
  | contact :: rest =>
      let '(dot, root_contact_ids, out) := s in
      contact_id <- py_get contact "ContactId" ;;
      prev_id <- py_get contact "PreviousContactId" ;;
      related_id <- py_get contact "RelatedContactId" ;;
      if negb (truthy contact_id) then
        link_loop subgraphs subgraph_nodes rest s
      else if hashable contact_id then
        method <- py_get contact "InitiationMethod" ;;
        let roots1 := if negb (truthy prev_id)
                      then dict_set contact_id method root_contact_ids
                      else root_contact_ids in
        let roots2 := if truthy related_id
                      then dict_set contact_id method roots1
                      else roots1 in
        if existsb (py_eq contact_id) subgraphs then
          match link_contact subgraphs subgraph_nodes contact contact_id
                             prev_id related_id dot with
          | Ret dot' => link_loop subgraphs subgraph_nodes rest (dot', roots2, out)
          | Raise e =>
              link_loop subgraphs subgraph_nodes rest (dot, roots2, out ++ [Traceback e])
          end
        else Raise KeyError
      else Raise TypeError
  end.

(** [for key, value in root_contact_ids.items()]: the edges from the
    synthetic start node. *)
Fixpoint root_edges (subgraph_nodes : list (value * list string))
    (roots : list (value * value)) (dot : digraph) : res digraph :=
  match roots with
  | [] => Ret dot
  | (key, method) :: rest =>
      key_nodes <- dict_index key subgraph_nodes ;;
      if (0 <? List.length key_nodes)%nat then
        root_edges subgraph_nodes rest
                   (dot_edge dot (mkEdge "start" (hd "" key_nodes) method JNull))
      else root_edges subgraph_nodes rest dot
  end.

(** The contact ids that own a cluster: those of the first loop of
    [build_main_contacts]. *)
Fixpoint cluster_ids (contacts : list value) : res (list value) :=
  match contacts with
  | [] => Ret []
  | contact :: rest =>
      contact_id <- py_get contact "ContactId" ;;
      ids <- cluster_ids rest ;;
      Ret (if truthy contact_id then contact_id :: ids else ids)
  end.

Definition start_graph : digraph :=
  dot_node empty_graph
           (mkNode "start" JNull (JStr "Start") "Mdiamond" "" (UrlFile "")).

(** The edge-adding part of [build_main_contacts], given the node list of
    every contact. *)
Definition link_contacts (search_contacts : list value)
    (subgraph_nodes : list (value * list string)) (out : list diag)
  : res (digraph * list diag) :=
  subgraphs <- cluster_ids search_contacts ;;
  '(dot, roots, out') <- link_loop subgraphs subgraph_nodes search_contacts
                                   (start_graph, [], out) ;;
  dot' <- root_edges subgraph_nodes roots dot ;;
  Ret (dot', out').

(* ------------------------------------------------------------------ *)
(** ** get_xray_parent_id *)

(** [for i in subs: if i["id"] == target: ...; break] *)
Fixpoint find_subsegment (target : value) (subs : list value) : res bool :=
  match subs with
  | [] => Ret false
  | i :: rest =>
      id <- py_index i "id" ;;
      if py_eq id target then Ret true else find_subsegment target rest
  end.

(** [if segment.get("subsegments"): for i in segment.get("subsegments"): ...]:
    whether the inner loop finds a subsegment with the id [target]. *)
Definition has_subsegment (segment target : value) : res bool :=
  subs <- py_get segment "subsegments" ;;
  if truthy subs then
    items <- py_iter subs ;;
    find_subsegment target items
  else Ret false.

(** The first loop: [break] leaves the inner loop only, so a later segment
    with a matching subsegment overwrites [invocation_id]. *)
Fixpoint invocation_loop (parent_id : value) (xray_data : list value)
    (invocation_id : value) : res value :=
  match xray_data with
  | [] => Ret invocation_id
  | segment :: rest =>
      found <- has_subsegment segment parent_id ;;
      if found then
        p <- py_index segment "parent_id" ;;
        invocation_loop parent_id rest p
      else invocation_loop parent_id rest invocation_id
  end.

(** The second loop returns at the first match. *)
Fixpoint parent_loop (invocation_id : value) (xray_data : list value) : res value :=
  match xray_data with
  | [] => Ret JNull
  | segment :: rest =>
      found <- has_subsegment segment invocation_id ;;
      if found then py_index segment "id"
      else parent_loop invocation_id rest
  end.

Definition get_xray_parent_id (parent_id xray_data : value) : res value :=
  invocation_id <-
    (if truthy parent_id then
       segments <- py_iter xray_data ;;
       invocation_loop parent_id segments JNull
     else Ret JNull) ;;
  if truthy invocation_id then
    segments <- py_iter xray_data ;;
    parent_loop invocation_id segments
  else Ret JNull.

(* ------------------------------------------------------------------ *)
(** ** build_main_flow *)

Section MainFlow.

Variable X : externals.

(** [node_info]: a [defaultdict] from node ids to a flow name, [""] at
    first, and the events of the node, in insertion order. *)
Definition node_info_map : Type := list (string * (value * list value)).

(** [if ...: node_info[node_id]["contact_flow_name"] = name] followed by
    [node_info[node_id]["subnode"].append(log)]; [name] is [None] when the
    assignment is skipped. *)
Fixpoint node_info_add (node_id : string) (name : option value) (log : value)
    (node_info : node_info_map) : node_info_map :=
  match node_info with
  | [] => [(node_id, (match name with Some n => n | None => JStr "" end, [log]))]
  | (k, (n, subnode)) :: rest =>
      if String.eqb node_id k
      then (k, (match name with Some n' => n' | None => n end, subnode ++ [log])) :: rest
      else (k, (n, subnode)) :: node_info_add node_id name log rest
  end.

(** The grouping loop. *)
Fixpoint group_logs (contact_id : value) (logs : list value)
    (node_info : node_info_map) : res node_info_map :=
  match logs with
  | [] => Ret node_info
  | log :: rest =>
      nid <- py_index log "node_id" ;;
      let node_id := (py_str X contact_id ++ "_" ++ py_str X nid)%string in
      name <- py_index log "ContactFlowName" ;;
      in_module <- py_str_in "MOD_" name ;;
      group_logs contact_id rest
        (node_info_add node_id (if in_module then None else Some name) log node_info)
  end.

(** [for index, node_id in enumerate(node_info.keys())]: one call of
    [process_sub_flow] per node, each with the error count reset to 0. *)
Fixpoint main_flow_loop (contact_id lambda_logs : value) (node_info : node_info_map)
    (s : digraph * list string * list (value * string) * list diag)
  : res (digraph * list string * list (value * string) * list diag) :=
  match node_info with
  | [] => Ret s
  | (node_id, (name, subnode)) :: rest =>
      let '(dot, nodes, flow_nodes, out) := s in
      '(st, flow_nodes') <-
        process_sub_flow X "flow" (mkState dot nodes 0 out) flow_nodes name node_id
                         subnode contact_id lambda_logs ;;
      main_flow_loop contact_id lambda_logs rest
                     (st_dot st, st_nodes st, flow_nodes', st_out st)
  end.

Definition build_main_flow (logs : list value) (lambda_logs contact_id : value)
    (out : list diag) : res (digraph * list string * list diag) :=
  sorted <- sort_logs X logs ;;
  node_info <- group_logs contact_id sorted [] ;;
  '(dot, nodes, _, out') <-
    main_flow_loop contact_id lambda_logs node_info (empty_graph, [], [], out) ;;
  Ret (add_edges dot nodes, nodes, out').

End MainFlow.

(* ------------------------------------------------------------------ *)
(** ** The attribute table of build_main_contacts *)

(** A row of the table: [{"k": ..., "v": ..., "c": ..., "i": ...}]. *)
Record attr_row : Type := mkRow {
  r_k : string;     (* the attribute *)
  r_v : string;     (* json.dumps of its value *)
  r_c : value;      (* the flow that set it, or "" *)
  r_i : value       (* the block that set it, or "" *)
}.

Section AttributeTable.

(** [json.dumps(v, ensure_ascii=False)] *)
Variable json_dumps : value -> string.

(** [for log in logs: if ... and key == k: is_exists = True; break]: the
    event the loop stops at, if it stops. *)
Fixpoint find_setter (k : string) (logs : list value) : res (option value) :=
  match logs with
  | [] => Ret None
  | log :: rest =>
      module_type <- py_get log "ContactFlowModuleType" ;;
      has_parameters <-
        (if py_eq module_type (JStr "SetAttributes")
         then py_str_in "Parameters" log
         else Ret false) ;;
      if has_parameters then
        p <- py_index log "Parameters" ;;
        key <- py_get p "Key" ;;
        if py_eq key (JStr k) then Ret (Some log) else find_setter k rest
      else find_setter k rest
  end.

(** The row of one attribute. *)
Definition attribute_row (logs : list value) (kv : string * value) : res attr_row :=
  found <- find_setter (fst kv) logs ;;
  Ret (match found with
       | None => mkRow (fst kv) (json_dumps (snd kv)) (JStr "") (JStr "")
       | Some log => mkRow (fst kv) (json_dumps (snd kv))
                           (field log "ContactFlowName") (field log "Identifier")
       end).

(** [for k, v in contact_attrs.items(): ...; data.append(...)] *)
Definition attribute_rows (logs : list value) (contact_attrs : list (string * value))
  : res (list attr_row) :=
  mapM (attribute_row logs) contact_attrs.

End AttributeTable.

(** [if entry["v"] and entry["c"] and entry["i"]: continue] *)
Definition complete (entry : attr_row) : bool :=
  negb (String.eqb (r_v entry) "") && truthy (r_c entry) && truthy (r_i entry).

(** [for other_entry in other_data: if ...: ...; break]: the first row of
    [other_data] with the key and the value of the entry. *)
Fixpoint find_row (k v : string) (other_data : list attr_row) : option attr_row :=
  match other_data with
  | [] => None
  | o :: rest =>
      if String.eqb (r_k o) k && String.eqb (r_v o) v then Some o
      else find_row k v rest
  end.

(** [for other_id, other_data in subcontact_attr.items()]: [break] leaves
    the loop over the rows only, so every other contact with such a row
    overwrites the entry in turn. *)
Fixpoint borrow_from (my_id : value) (entry : attr_row)
    (subcontact_attr : list (value * list attr_row)) : attr_row :=
  match subcontact_attr with
  | [] => entry
  | (other_id, other_data) :: rest =>
      if py_eq other_id my_id then borrow_from my_id entry rest
      else
        match find_row (r_k entry) (r_v entry) other_data with
        | Some o => borrow_from my_id (mkRow (r_k entry) (r_v o) (r_c o) (r_i o)) rest
        | None => borrow_from my_id entry rest
        end
  end.

Definition borrow_entry (subcontact_attr : list (value * list attr_row))
    (my_id : value) (entry : attr_row) : attr_row :=
  if complete entry then entry else borrow_from my_id entry subcontact_attr.

(** [for my_id, my_data in subcontact_attr.items()]: the rows are updated
    in place, so the contacts after [my_id] read the rows of the contacts
    before it as already updated; [updated] holds those, [pending] the
    contacts still to come.  While the rows of [my_id] are updated only the
    rows of the other contacts are read. *)
Fixpoint borrow_loop (updated pending : list (value * list attr_row))
  : list (value * list attr_row) :=
  match pending with
  | [] => updated
  | (my_id, my_data) :: rest =>
      let subcontact_attr := updated ++ (my_id, my_data) :: rest in
      borrow_loop (updated ++ [(my_id, map (borrow_entry subcontact_attr my_id) my_data)])
                  rest
  end.

Definition borrow_provenance (subcontact_attr : list (value * list attr_row))
  : list (value * list attr_row) :=
  borrow_loop [] subcontact_attr.

(* ------------------------------------------------------------------ *)
(** ** Notions used to state further properties *)

(** The node statements and the ordered node list are in step. *)
Definition in_step (st : bstate) : Prop :=
  map n_id (g_nodes (st_dot st)) = st_nodes st.

(** The order [logs.sort] establishes, on events paired with their time. *)
Definition key_order (p q : Z * value) : Prop := (fst p <= fst q)%Z.

(** The two tests of the scan loop of [process_sub_flow]. *)
Definition keyword_flag (r : value) : bool :=
  match results_has_keyword r with
  | Ret b => b
  | Raise _ => false
  end.

Definition lambda_flag (r : value) : bool :=
  match is_lambda_error r with
  | Ret v => truthy v
  | Raise _ => false
  end.

(** The function logs that carry a trace id, their levels, and how many
    of them are errors or warnings. *)
Definition associated_logs (xray_trace_id : value) (function_logs : list value)
  : list value :=
  filter (fun l => py_eq (field l "xray_trace_id") xray_trace_id) function_logs.

Definition log_level (l : value) : value :=
  match l with
  | JObj d => match assoc "level" d with Some v => v | None => JStr "INFO" end
  | _ => JStr "INFO"
  end.

Definition alarm_count (logs : list value) : nat :=
  count_level "ERROR" (map log_level logs) + count_level "WARN" (map log_level logs).

(** [l1] is [l2] with some elements left out. *)
Inductive subseq {A : Type} : list A -> list A -> Prop :=
| subseq_nil : subseq [] []
| subseq_skip : forall x l1 l2, subseq l1 l2 -> subseq l1 (x :: l2)
| subseq_keep : forall x l1 l2, subseq l1 l2 -> subseq (x :: l1) (x :: l2).

(** The number of parameter entries held by the cache. *)
Definition total_parameters (c : node_cache) : nat :=
  list_sum (map (fun kb => List.length (nd_Parameters (snd kb))) c).

(** Every bucket is of an aggregatable module type. *)
Definition typed_cache (c : node_cache) : Prop :=
  Forall (fun kb => exists T, In T DUP_CONTACT_FLOW_MODULE_TYPE /\
                              nd_module_type (snd kb) = JStr T) c.

(** [st'] is [st] after more work: nodes were appended, to the graph and to
    the node list alike, no edge was added, the error count did not go down
    and the output was only appended to. *)
Definition extends (st st' : bstate) : Prop :=
  exists new printed,
    g_nodes (st_dot st') = g_nodes (st_dot st) ++ new /\
    st_nodes st' = st_nodes st ++ map n_id new /\
    g_edges (st_dot st') = g_edges (st_dot st) /\
    st_errors st <= st_errors st' /\
    st_out st' = st_out st ++ printed.

(** An event the scan loop of [process_sub_flow] reads without raising. *)
Definition scannable (X : externals) (r : value) : Prop :=
  (exists k, sort_key X r = Ret k) /\
  (exists b, results_has_keyword r = Ret b) /\
  (exists v, is_lambda_error r = Ret v).

(** The node of a bucket can be formatted: its text and its label are
    computed, and so are its module type and its title. *)
Definition formatted (X : externals) (b : node_data) : Prop :=
  exists n, bucket_node X b = Ret n.

(** Both ends of a time span are naive, or both aware, as [a] says. *)
Definition span_aware (X : externals) (a : bool) (span : time_span) : Prop :=
  (forall t, fst span = Some t -> has_utc_offset X (fst t) = a) /\
  (forall t, snd span = Some t -> has_utc_offset X (fst t) = a).


(** The nodes the linking loops of [build_main_contacts] draw edges
    between: the first and the last node of a contact. *)
Definition first_of (subgraph_nodes : list (value * list string)) (n : string) : Prop :=
  exists key nodes,
    dict_find key subgraph_nodes = Some nodes /\ nodes <> [] /\ n = hd "" nodes.

Definition last_of (subgraph_nodes : list (value * list string)) (n : string) : Prop :=
  exists key nodes,
    dict_find key subgraph_nodes = Some nodes /\ nodes <> [] /\ n = last nodes "".

Definition linking_edge (subgraph_nodes : list (value * list string))
    (e : edge_stmt) : Prop :=
  first_of subgraph_nodes (e_head e) /\
  (e_tail e = "start" \/ last_of subgraph_nodes (e_tail e)).

(** The node id [build_main_flow] gives to an event, and the ids of a list
    of events without repetition, in the order of their first occurrence. *)
Definition main_node_id (X : externals) (contact_id log : value) : string :=
  (py_str X contact_id ++ "_" ++ py_str X (field log "node_id"))%string.

Definition add_distinct (seen : list string) (x : string) : list string :=
  if existsb (String.eqb x) seen then seen else seen ++ [x].

Definition distinct (l : list string) : list string := fold_left add_distinct l [].

(** The test of the loop that looks for the event that set an attribute. *)
Definition sets_attribute (k : string) (log : value) : bool :=
  py_eq (field log "ContactFlowModuleType") (JStr "SetAttributes") &&
  match log with
  | JObj d => match assoc "Parameters" d with Some _ => true | None => false end
  | _ => false
  end &&
  py_eq (field (field log "Parameters") "Key") (JStr k).

(** A contact other than [my_id] that has a row with this key and value. *)
Definition lends (my_id : value) (k v : string) (c : value * list attr_row) : bool :=
  negb (py_eq (fst c) my_id) &&
  match find_row k v (snd c) with Some _ => true | None => false end.

(** The summary node of a module, and the names of the modules of a list of
    events (the flow names with "MOD_"), each once, in the order of their
    first event. *)
Definition is_module_summary (n : node_stmt) : bool :=
  py_eq (n_module_type n) (JStr "InvokeFlowModule").

Definition add_module_name (seen : list value) (log : value) : list value :=
  let name := field log "ContactFlowName" in
  match py_str_in "MOD_" name with
  | Ret true => if existsb (py_eq name) seen then seen else seen ++ [name]
  | _ => seen
  end.

Definition module_names (logs : list value) : list value :=
  fold_left add_module_name logs [].

(** A node id that ends with the index [j] of an event,
    [f"{...}_{index}"], and the ids of the buckets of a cache. *)
Definition tagged (j : nat) (id : string) : Prop :=
  exists s, id = (s ++ "_" ++ str_of_nat j)%string.

Definition cache_ids (c : node_cache) : list string :=
  map (fun kb => nd_id (snd kb)) c.

(** Before the event of index [i] is read: the ids emitted so far and the
    ids held by the cache end with pairwise different indices below [i]. *)
Definition distinct_ids (i : nat) (nodes : list string) (cache : node_cache) : Prop :=
  exists jn jc,
    Forall2 tagged jn nodes /\ Forall2 tagged jc (cache_ids cache) /\
    NoDup (jn ++ jc) /\ Forall (fun j => j < i) (jn ++ jc).

(** An event that is drawn on its own: its module type is neither
    aggregated nor omitted. *)
Definition drawn_alone (log : value) : Prop :=
  in_consts (field log "ContactFlowModuleType") DUP_CONTACT_FLOW_MODULE_TYPE = false /\
  in_consts (field log "ContactFlowModuleType") OMIT_CONTACT_FLOW_MODULE_TYPE = false.
(* ------------------------------------------------------------------ *)
(** ** A concrete instance of the collaborators, for worked examples *)

Module Demo.

Definition digit_of (c : ascii) : option Z :=
  let n := nat_of_ascii c in
  if ((48 <=? n) && (n <=? 57))%nat then Some (Z.of_nat (n - 48)) else None.

(** The digits of a timestamp read as one number: on timestamps of one
    fixed-width format this orders them as the instants they denote. *)
Fixpoint digits_value (s : string) (acc : Z) : Z :=
  match s with
  | EmptyString => acc
  | String c s' =>
      match digit_of c with
      | Some d => digits_value s' (acc * 10 + d)%Z
      | None => digits_value s' acc
      end
  end.

Definition fromisoformat (s : string) : res Z :=
  if String.eqb s "" then Raise ValueError else Ret (digits_value s 0).

Definition str_of_Z (z : Z) : string := NilZero.string_of_int (Z.to_int z).

Definition py_str (v : value) : string :=
  match v with
  | JNull => "None"
  | JBool true => "True"
  | JBool false => "False"
  | JNum z => str_of_Z z
  | JStr s => s
  | JList _ => "[...]"
  | JObj _ => "{...}"
  end.

Definition dquote : ascii := "034"%char.

(** A serializer for documents whose keys are already in sorted order and
    whose strings need no escaping. *)
Fixpoint dumps (v : value) : string :=
  match v with
  | JNull => "null"
  | JBool true => "true"
  | JBool false => "false"
  | JNum z => str_of_Z z
  | JStr s => (String dquote s ++ String dquote EmptyString)%string
  | JList l =>
      ("[" ++ (fix go (l : list value) : string :=
                 match l with
                 | [] => ""
                 | [x] => dumps x
                 | x :: l' => dumps x ++ ", " ++ go l'
                 end) l ++ "]")%string
  | JObj d =>
      ("{" ++ (fix go (d : list (string * value)) : string :=
                 match d with
                 | [] => ""
                 | [(k, x)] => String dquote k ++ String dquote ": " ++ dumps x
                 | (k, x) :: d' =>
                     String dquote k ++ String dquote ": " ++ dumps x ++ ", " ++ go d'
                 end) d ++ "}")%string
  end.

(** Timestamps in milliseconds, as integers or as digit strings. *)
Definition millis (v : value) : res Z :=
  match v with
  | JNum z => Ret z
  | JStr s => Ret (digits_value s 0)
  | _ => Raise TypeError
  end.

Definition calculate_timestamp_gap (a b : value) : res Z :=
  x <- millis a ;; y <- millis b ;; Ret (Z.abs (x - y)).

Definition get_func_name (arn : value) : res string :=
  match arn with
  | JStr s => Ret s
  | _ => Raise AttributeError
  end.

(** Text is wrapped and sanitized to itself; the attribute of the one
    parameter the sample invocations pass is the path it is read from. *)
Definition wrap_text (v : value) (is_just_cut : bool) (max_length : nat) : res value :=
  match v with
  | JStr _ => Ret v
  | _ => Raise TypeError
  end.

Definition get_comparison_value (flow_id block_id : value) (name : string)
    (second : bool) : res value :=
  if String.eqb name "LambdaInvocationAttributes"
  then Ret (JObj [("x", JStr "$.x")])
  else Ret (JStr "").

Definition X : externals :=
  mkExternals [("PlayPrompt", "Play prompt")] py_str dumps fromisoformat
              get_func_name calculate_timestamp_gap
              (fun _ => Ret []) (fun _ _ => Ret tt) (fun _ => Ret [])
              (is_substring "+") (str_replace "T" " ")
              (fun log => Ret log) wrap_text get_comparison_value
              (fun text => Ret text) (fun _ => Ret (JBool false))
              (fun _ => dumps) "/srv" (fun _ => false).

(** Sample events. *)
Definition event (ts flow type : string) (extra : list (string * value)) : value :=
  JObj ([ ("Timestamp", JStr ts); ("ContactId", JStr "c-1");
          ("ContactFlowName", JStr flow); ("ContactFlowModuleType", JStr type);
          ("Identifier", JStr "block") ] ++ extra).

Definition set_attr (ts flow key val : string) (extra : list (string * value)) : value :=
  event ts flow "SetAttributes"
        (("Parameters", JObj [("Key", JStr key); ("Value", JStr val)]) :: extra).

Definition prompt (ts flow : string) : value :=
  event ts flow "PlayPrompt" [("Parameters", JObj [("Text", JStr "hello")])].

(** An invocation of the function "fn" with parameters [{"x": 1}], and a
    line of that function's log with the same parameters. *)
Definition invoke (ts : string) : value :=
  event ts "F" "InvokeExternalResource"
        [("Parameters", JObj [("FunctionArn", JStr "fn");
                              ("Parameters", JObj [("x", JNum 1)])])].

Definition candidate (ts trace : string) : value :=
  JObj [ ("ContactId", JStr "c-1"); ("level", JStr "INFO");
         ("message", JStr "[parameter]"); ("parameters", JObj [("x", JNum 1)]);
         ("timestamp", JStr ts); ("xray_trace_id", JStr trace) ].

(** Two contacts: [contact_a] starts the interaction, [contact_b] names it
    as its related contact. *)
Definition contact_a : value :=
  JObj [("ContactId", JStr "A"); ("InitiationMethod", JStr "INBOUND")].

Definition contact_b : value :=
  JObj [("ContactId", JStr "B"); ("RelatedContactId", JStr "A");
        ("InitiationMethod", JStr "TRANSFER")].

Definition contact_nodes : list (value * list string) :=
  [(JStr "A", ["a1"; "a2"]); (JStr "B", ["b1"; "b2"])].

Definition at_1000 : string := "2024-01-01T00:00:01.000Z".
Definition at_2000 : string := "2024-01-01T00:00:02.000Z".
Definition at_3000 : string := "2024-01-01T00:00:03.000Z".

Definition no_state : bstate := mkState empty_graph [] 0 [].

(** A flow that ends with two attribute settings. *)
Definition trailing_run : list value :=
  [ prompt at_1000 "F"; set_attr at_2000 "F" "a" "1" []; set_attr at_3000 "F" "b" "2" [] ].

(** A run whose second event is an error, and the same run the other way
    round, each closed by a prompt. *)
Definition failed_attr (ts : string) : value :=
  set_attr ts "F" "b" "2" [("Results", JStr "Error")].

Definition error_second : list value :=
  [ set_attr at_1000 "F" "a" "1" []; failed_attr at_2000; prompt at_3000 "F" ].

Definition error_first : list value :=
  [ failed_attr at_1000; set_attr at_2000 "F" "a" "1" []; prompt at_3000 "F" ].

(** A flow whose only event is a failed prompt inside the module "MOD_x". *)
Definition module_failure : value :=
  event at_1000 "MOD_x" "PlayPrompt"
        [("Results", JStr "Error");
         ("ModuleExecutionStack", JList [JStr "module-id"; JStr "flow-id"])].
Definition at_1050 : string := "2024-01-01T00:00:01.050Z".
Definition at_0600 : string := "2024-01-01T00:00:00.600Z".


(** Two prompts, in time order. *)
Definition two_prompts : list value := [ prompt at_1000 "F"; prompt at_2000 "F" ].

(** A line of the log of "fn" at level ERROR. *)
Definition failure_line (ts trace : string) : value :=
  JObj [ ("ContactId", JStr "c-1"); ("level", JStr "ERROR");
         ("message", JStr "boom"); ("timestamp", JStr ts);
         ("xray_trace_id", JStr trace) ].

(** A failed invocation whose result text has a keyword as well. *)
Definition double_failure : value :=
  event at_1000 "F" "InvokeExternalResource"
        [("Results", JStr "Error");
         ("ExternalResults", JObj [("isSuccess", JStr "false")])].

(** Three lines of the log of "fn": two with the parameters of [invoke],
    one of another trace that only reports a failure. *)
Definition fn_lines : list value :=
  [ candidate at_1050 "t-1"; failure_line at_2000 "t-1"; candidate at_3000 "t-2" ].

Definition fn_logs : value := JObj [("fn", JList fn_lines)].

(** A contact transferred from [contact_a]. *)
Definition contact_c : value :=
  JObj [("ContactId", JStr "C"); ("PreviousContactId", JStr "A");
        ("InitiationMethod", JStr "TRANSFER")].

Definition contact_nodes_ac : list (value * list string) :=
  [ (JStr "A", ["a1"; "a2"]); (JStr "C", ["c1"]) ].

(** The segments of a trace: the function's segment, started by the
    invocation "inv", holds the subsegment "sdk"; the segment of the caller
    holds the invocation. *)
Definition segment_function : value :=
  JObj [("id", JStr "fn"); ("parent_id", JStr "inv");
        ("subsegments", JList [JObj [("id", JStr "sdk")]])].

Definition segment_caller : value :=
  JObj [("id", JStr "caller");
        ("subsegments", JList [JObj [("id", JStr "inv")]])].

Definition segment_leaf : value :=
  JObj [("id", JStr "leaf"); ("parent_id", JStr "sdk")].

Definition trace_segments : value :=
  JList [segment_leaf; segment_function; segment_caller].

(** Three events of a contact on two nodes of the main flow; the one given
    first is the latest. *)
Definition on_node (node : string) (e : value) : value :=
  match e with
  | JObj d => JObj (d ++ [("node_id", JStr node)])
  | _ => e
  end.

Definition main_events : list value :=
  [ on_node "n1" (prompt at_3000 "Main");
    on_node "n1" (prompt at_1000 "Main");
    on_node "n2" (prompt at_2000 "Other") ].

(** The attribute tables of three contacts with the same attribute and
    value: only the second contact has the event that set it. *)
Definition bare_row : attr_row := mkRow "lang" "ko" (JStr "") (JStr "").
Definition set_row : attr_row := mkRow "lang" "ko" (JStr "Main") (JStr "block").

Definition three_tables : list (value * list attr_row) :=
  [ (JStr "A", [bare_row]); (JStr "B", [set_row]); (JStr "C", [bare_row]) ].

(** A flow that enters the module "MOD_x" twice, with a prompt of its own
    in between. *)
Definition in_module (ts : string) : value :=
  event ts "MOD_x" "PlayPrompt"
        [("Parameters", JObj [("Text", JStr "hello")]);
         ("ModuleExecutionStack", JList [JStr "arn:m"; JStr "arn:f"])].

Definition module_twice : list value :=
  [ in_module at_1000; prompt at_2000 "F"; in_module at_3000 ].





(** A "SetContactFlow" event with a [Type] the builder does not know, and
    a prompt whose [Results] field holds [None]. *)
Definition outbound : value :=
  event at_1000 "F" "SetContactFlow" [("Parameters", JObj [("Type", JStr "Outbound")])].

End Demo.

(* ================================================================== *)
(** * Properties *)

(* ------------------------------------------------------------------ *)
(** ** add_edges *)

Lemma pair_eqb_eq (p q : string * string) : pair_eqb p q = true <-> p = q.
Proof.
  destruct p as [a b], q as [c d]; unfold pair_eqb; simpl.
  rewrite andb_true_iff, !String.eqb_eq.
  split; [intros [-> ->]; reflexivity | intros [= -> ->]; auto].
Qed.

Lemma pair_mem_In (p : string * string) (s : list (string * string)) :
  pair_mem p s = true <-> In p s.
Proof.
  unfold pair_mem. rewrite existsb_exists. split.
  - intros (q & Hq & He). apply pair_eqb_eq in He. now subst.
  - intros H. exists p. split; [assumption | now apply pair_eqb_eq].
Qed.

(** The state of the loop of [add_edges] after the indices below [m]. *)
Lemma add_edges_fold (nodes : list string) (dot : digraph) (m : nat) :
  let r := fold_left (add_edges_step nodes) (seq 0 m) (dot, []) in
  g_nodes (fst r) = g_nodes dot /\
  g_edges (fst r) =
    g_edges dot ++ map (edge_at nodes) (filter (first_occurrence nodes) (seq 0 m)) /\
  forall p, pair_mem p (snd r) =
            existsb (fun j => pair_eqb p (pair_at nodes j)) (seq 0 m).
Proof.
  induction m as [|m IH]; cbv zeta.
  - simpl. repeat split. now rewrite app_nil_r.
  - cbv zeta in IH. rewrite seq_S, fold_left_app. simpl.
    destruct (fold_left (add_edges_step nodes) (seq 0 m) (dot, [])) as [d added].
    simpl in IH. destruct IH as (Hn & He & Hm).
    rewrite filter_app, map_app. simpl.
    assert (Hfo : first_occurrence nodes m =
                  negb (pair_mem (nth m nodes "", nth (S m) nodes "") added)).
    { unfold first_occurrence. now rewrite Hm. }
    rewrite Hfo.
    destruct (pair_mem (nth m nodes "", nth (S m) nodes "") added) eqn:Hin; simpl.
    + repeat split; try assumption.
      * now rewrite app_nil_r.
      * intros p. rewrite existsb_app, <- Hm. simpl. rewrite orb_false_r.
        destruct (pair_eqb p (pair_at nodes m)) eqn:Hp.
        -- apply pair_eqb_eq in Hp. subst p. rewrite orb_true_r. exact Hin.
        -- now rewrite orb_false_r.
    + repeat split; try assumption.
      * rewrite He. now rewrite <- app_assoc.
      * intros p. rewrite existsb_app, <- Hm. simpl. rewrite orb_false_r.
        unfold pair_mem at 1. simpl. fold (pair_mem p added).
        apply orb_comm.
Qed.

Lemma consecutive_pairs_seq (nodes : list string) :
  consecutive_pairs nodes = map (pair_at nodes) (seq 0 (List.length nodes - 1)).
Proof.
  induction nodes as [|a [|b tl] IH]; try reflexivity.
  change (consecutive_pairs (a :: b :: tl)) with ((a, b) :: consecutive_pairs (b :: tl)).
  rewrite IH.
  replace (List.length (a :: b :: tl) - 1) with (S (List.length (b :: tl) - 1))
    by (simpl; lia).
  generalize (List.length (b :: tl) - 1). intros k.
  change (seq 0 (S k)) with (0 :: seq 1 k).
  rewrite <- seq_shift, map_cons, map_map. reflexivity.
Qed.





Lemma first_occurrence_all (nodes : list string) (m : nat) :
  NoDup (map (pair_at nodes) (seq 0 m)) ->
  filter (first_occurrence nodes) (seq 0 m) = seq 0 m.
Proof.
  induction m as [|m IH]; [reflexivity|].
  rewrite seq_S, map_app, filter_app. simpl. intros Hnd.
  rewrite IH by exact (NoDup_app_remove_r _ _ Hnd).
  apply NoDup_remove_2 in Hnd. rewrite app_nil_r in Hnd.
  destruct (first_occurrence nodes m) eqn:Hfo; [reflexivity|].
  exfalso. apply Hnd.
  unfold first_occurrence in Hfo. apply negb_false_iff in Hfo.
  apply existsb_exists in Hfo. destruct Hfo as (k & Hk & Heq).
  apply pair_eqb_eq in Heq. apply in_map_iff. exists k. split; congruence.
Qed.


Lemma edge_pair_at (nodes : list string) (l : list nat) :
  map edge_pair (map (edge_at nodes) l) = map (pair_at nodes) l.
Proof. rewrite map_map. reflexivity. Qed.




(* ------------------------------------------------------------------ *)
(** ** Error classification *)

Lemma py_eq_str (v : value) (s : string) :
  py_eq v (JStr s) = true <-> v = JStr s.
Proof.
  destruct v; simpl; try (split; [discriminate | intros [=]]).
  rewrite String.eqb_eq. split; [now intros -> | now intros [= ->]].
Qed.

Lemma py_eq_str_false (v : value) (s : string) :
  v <> JStr s -> py_eq v (JStr s) = false.
Proof.
  intros H. destruct (py_eq v (JStr s)) eqn:E; [|reflexivity].
  apply py_eq_str in E. contradiction.
Qed.







(* ------------------------------------------------------------------ *)
(** ** Module types *)

Lemma not_recognized (t : value) :
  ~ In t recognized_flow_types ->
  py_eq t (JStr "CustomerHold") = false /\ py_eq t (JStr "AgentHold") = false /\
  py_eq t (JStr "CustomerWhisper") = false /\ py_eq t (JStr "AgentWhisper") = false /\
  py_eq t (JStr "CustomerQueue") = false /\ py_eq t (JStr "DefaultAgentUI") = false.
Proof.
  intros H. repeat split; apply py_eq_str_false; intros ->; apply H; simpl; tauto.
Qed.

(** C10.  [define_module_type] returns its argument for every module type
    other than "SetContactFlow".  For "SetContactFlow" with parameters [d]
    it reads [t = d.get("Type")]: the hold, whisper, queue and agent-UI
    values give the four refined types, and any other [t] (an absent
    [Type] reads as [None]) gives [None].  In [add_block_nodes] that [None]
    is the module type handed to [get_node_label] (icon lookup) and,
    through [get_module_name_ko], the title handed to it; when the text and
    the label are formatted, the node is added with [None] as its type and
    title. *)
Theorem define_module_type_cases :
  (forall mt p, mt <> JStr "SetContactFlow" -> define_module_type mt p = Ret mt) /\
  (forall d t, py_get (JObj d) "Type" = Ret t ->
     let r := define_module_type (JStr "SetContactFlow") (JObj d) in
     (t = JStr "CustomerHold" \/ t = JStr "AgentHold" -> r = Ret (JStr "SetHoldFlow")) /\
     (t = JStr "CustomerWhisper" \/ t = JStr "AgentWhisper" ->
      r = Ret (JStr "SetWhisperFlow")) /\
     (t = JStr "CustomerQueue" -> r = Ret (JStr "SetCustomerQueueFlow")) /\
     (t = JStr "DefaultAgentUI" -> r = Ret (JStr "SetEventHook")) /\
     (~ In t recognized_flow_types -> r = Ret JNull)) /\
  (forall X log d t is_error st node_id lambda_logs module_stack,
     py_get_default log "Parameters" (JObj []) = Ret (JObj d) ->
     py_get (JObj d) "Type" = Ret t ->
     ~ In t recognized_flow_types ->
     add_block_nodes X (JStr "SetContactFlow") log is_error st node_id
                     lambda_logs module_stack =
     ('(node_text, node_footer) <-
        get_node_text_by_module_type X (JStr "SetContactFlow") log
                                     (field log "Identifier") ;;
      _ <- get_node_label X JNull JNull node_text (JStr node_footer)
                          (field log "Identifier") ;;
      Ret (mkState
             (dot_node (st_dot st)
                       (mkNode node_id JNull JNull "plaintext"
                               (error_color is_error) (UrlDoc log)))
             (st_nodes st ++ [node_id]) (st_errors st) (st_out st)))).
Proof.
  split; [|split].
  - intros mt p Hne. unfold define_module_type.
    now rewrite (py_eq_str_false _ _ Hne).
  - intros d t Ht r. subst r. unfold define_module_type.
    change (py_eq (JStr "SetContactFlow") (JStr "SetContactFlow")) with true.
    cbv iota. rewrite Ht. cbn [bind].
    repeat split.
    + intros [-> | ->]; reflexivity.
    + intros [-> | ->]; reflexivity.
    + intros ->; reflexivity.
    + intros ->; reflexivity.
    + intros Hn. destruct (not_recognized t Hn) as (-> & -> & -> & -> & -> & ->).
      reflexivity.
  - intros X log d t is_error st node_id lambda_logs module_stack Hp Ht Hn.
    assert (Hid : py_get log "Identifier" = Ret (field log "Identifier")).
    { destruct log; try discriminate. reflexivity. }
    unfold add_block_nodes. rewrite Hid. cbn [bind].
    destruct (get_node_text_by_module_type X (JStr "SetContactFlow") log
                (field log "Identifier")) as [[node_text node_footer]|];
      cbn [bind]; [|reflexivity].
    rewrite Hp. cbn [bind].
    unfold define_module_type.
    change (py_eq (JStr "SetContactFlow") (JStr "SetContactFlow")) with true.
    cbv iota. rewrite Ht. cbn [bind].
    destruct (not_recognized t Hn) as (-> & -> & -> & -> & -> & ->).
    cbn [orb bind get_module_name_ko hashable in_consts existsb py_eq
         DUP_CONTACT_FLOW_MODULE_TYPE].
    destruct (get_node_label X JNull JNull node_text (JStr node_footer)
                (field log "Identifier")); reflexivity.
Qed.

(** C10, worked: a "SetContactFlow" event with an unknown [Type] gets no
    module type, a "PlayPrompt" event keeps its own; the node of the
    former is added with [None] as its type and title. *)
Lemma define_module_type_cases_witness :
  define_module_type (JStr "SetContactFlow") (JObj [("Type", JStr "Outbound")])
    = Ret JNull /\
  define_module_type (JStr "PlayPrompt") (JObj []) = Ret (JStr "PlayPrompt") /\
  add_block_nodes Demo.X (JStr "SetContactFlow") Demo.outbound JNull Demo.no_state
                  "n_0" (JObj []) ""
    = Ret (mkState (dot_node empty_graph
                      (mkNode "n_0" JNull JNull "plaintext" "lightgray"
                              (UrlDoc Demo.outbound)))
                   ["n_0"] 0 []).
Proof.
  destruct define_module_type_cases as (Hid & Hset & Hadd). split; [|split].
  - apply (Hset [("Type", JStr "Outbound")] (JStr "Outbound") eq_refl).
    simpl. intuition discriminate.
  - apply Hid. discriminate.
  - rewrite (Hadd Demo.X Demo.outbound [("Type", JStr "Outbound")] (JStr "Outbound")
               JNull Demo.no_state "n_0" (JObj []) "" eq_refl eq_refl).
    + vm_compute. reflexivity.
    + simpl. intuition discriminate.
Defined.

(* ------------------------------------------------------------------ *)
(** ** Correlation *)

Section Correlation.

Variable X : externals.

Lemma closest_trace_min (event_ts : value) (targets : list value) (gaps : list Z) :
  Forall2 (readable X event_ts) targets gaps ->
  forall min_gap xid,
    (closest_trace X event_ts targets min_gap xid = Ret xid /\
     forall j gj, nth_error gaps j = Some gj -> (min_gap <= gj)%Z) \/
    (exists k lk gk,
        nth_error targets k = Some lk /\ first_minimum gaps k gk /\
        (gk < min_gap)%Z /\
        closest_trace X event_ts targets min_gap xid = Ret (entry_trace_id lk)).
Proof.
  induction 1 as [|l g ls gs Hl Hrest IH]; intros min_gap xid.
  - left. split; [reflexivity|]. intros [|j] gj; discriminate.
  - destruct Hl as (Hgap & Hlt & d & ->).
    unfold entry_gap in Hgap. simpl in Hgap |- *.
    destruct (calculate_timestamp_gap X event_ts
                (match assoc "timestamp" d with Some v => v | None => JNull end))
      as [g'|e] eqn:Hc; [|discriminate].
    injection Hgap as ->. cbn [bind].
    destruct (min_gap >? g)%Z eqn:Hcmp.
    + apply Z.gtb_lt in Hcmp. right.
      destruct (IH g (entry_trace_id (JObj d))) as [[Hres Hall] | (k & lk & gk & Hk & [Hgk Hmin] & Hlt' & Hres)].
      * exists 0, (JObj d), g. repeat split; try assumption; try reflexivity.
        -- destruct j as [|j]; simpl in H; [injection H as <-; lia|].
           apply (Hall j gj H).
        -- lia.
      * exists (S k), lk, gk. repeat split; try assumption.
        -- destruct j as [|j]; simpl in H; [injection H as <-; lia|].
           apply (Hmin j gj H).
        -- intros Hj. destruct j as [|j]; simpl in H; [injection H as <-; lia|].
           apply (Hmin j gj H). lia.
        -- lia.
    + rewrite Z.gtb_ltb in Hcmp. apply Z.ltb_ge in Hcmp.
      destruct (IH min_gap xid) as [[Hres Hall] | (k & lk & gk & Hk & [Hgk Hmin] & Hlt' & Hres)].
      * left. split; [assumption|].
        intros [|j] gj Hj; simpl in Hj; [injection Hj as <-; lia|].
        apply (Hall j gj Hj).
      * right. exists (S k), lk, gk. repeat split; try assumption.
        -- destruct j as [|j]; simpl in H; [injection H as <-; lia|].
           apply (Hmin j gj H).
        -- intros Hj. destruct j as [|j]; simpl in H; [injection H as <-; lia|].
           apply (Hmin j gj H). lia.
Qed.

Lemma assoc_dict_put_other {k k' : string} (v : value) (d : list (string * value)) :
  k <> k' -> assoc k (dict_put k' v d) = assoc k d.
Proof.
  intros Hne. induction d as [|[k0 v0] d IH]; [reflexivity|].
  cbn [dict_put]. destruct (String.eqb k' k0) eqn:E; cbn [assoc].
  - apply String.eqb_eq in E. subst k0.
    now rewrite (proj2 (String.eqb_neq k k') Hne).
  - now rewrite IH.
Qed.

(** The edit of the parameters leaves every other field of the event. *)
Lemma with_parameters_field (log lp : value) (k : string) :
  k <> "Parameters" ->
  py_get (with_parameters log lp) k = py_get log k.
Proof.
  intros Hne. unfold with_parameters.
  destruct log as [| | | | |d]; try reflexivity.
  destruct (assoc "Parameters" d) as [[| | | | |p]|]; try reflexivity.
  destruct (assoc "Parameters" p); [|reflexivity].
  unfold py_get, py_get_default. now rewrite (assoc_dict_put_other _ d Hne).
Qed.

Lemma select_trace_with_parameters (log lp : value) (targets : list value) :
  select_trace X (with_parameters log lp) targets = select_trace X log targets.
Proof.
  destruct targets as [|t1 [|t2 rest]]; cbn [select_trace]; try reflexivity.
  rewrite with_parameters_field by discriminate. reflexivity.
Qed.

Lemma trace_lambda_selected (st : bstate) (log lambda_logs : value)
    (fname ms : string) (check : value) (fl : list value) (cid : value)
    (targets : list value) (lp xid : value) :
  targets <> [] ->
  find_target_logs X log lambda_logs fname = (check, Ret (fl, cid, targets, lp)) ->
  select_trace X log targets = Ret (xid, false) ->
  trace_lambda X st log lambda_logs fname ms =
    (check, build_xray_dot X st xid fl (with_parameters log lp) ms cid).
Proof.
  intros Hne Hfind Hsel. unfold trace_lambda. rewrite Hfind. cbv zeta.
  rewrite select_trace_with_parameters, Hsel. cbn [bind].
  destruct targets; [contradiction | reflexivity].
Qed.

(** C6.  Let the matching entries be records whose gaps to the event are
    [gaps], each below [sys.maxsize].  With exactly one match its trace id
    is selected.  With two or more, the trace id selected is that of the
    match at the first index [k] of a smallest gap: no gap is smaller, and
    every gap at an index before [k] is strictly larger.  The trace id
    selected is the one [build_xray_dot] is called with, together with the
    function's logs and the event as the matching loop leaves it. *)
Theorem select_trace_closest (log event_ts : value) (targets : list value)
    (gaps : list Z) :
  py_get log "Timestamp" = Ret event_ts ->
  Forall2 (readable X event_ts) targets gaps ->
  (forall l, targets = [l] ->
     select_trace X log targets = Ret (entry_trace_id l, false)) /\
  (2 <= List.length targets ->
     exists k lk gk,
       nth_error targets k = Some lk /\ first_minimum gaps k gk /\
       select_trace X log targets = Ret (entry_trace_id lk, false)) /\
  (forall st lambda_logs fname ms check fl cid lp xid,
     targets <> [] ->
     find_target_logs X log lambda_logs fname = (check, Ret (fl, cid, targets, lp)) ->
     select_trace X log targets = Ret (xid, false) ->
     trace_lambda X st log lambda_logs fname ms =
       (check, build_xray_dot X st xid fl (with_parameters log lp) ms cid)).
Proof.
  intros Hts Hall. split; [|split].
  - intros l ->. inversion Hall as [|? g ? ? (_ & _ & d & ->) _]; subst.
    reflexivity.
  - intros Hlen.
    destruct targets as [|l1 [|l2 rest]]; simpl in Hlen; try lia.
    unfold select_trace. rewrite Hts. cbn [bind].
    destruct (closest_trace_min event_ts _ _ Hall sys_maxsize (JStr ""))
      as [[_ Hge] | (k & lk & gk & Hk & Hmin & _ & Hres)].
    + exfalso. inversion Hall as [|? g ? ? (_ & Hlt & _) _]; subst.
      specialize (Hge 0 g eq_refl). lia.
    + exists k, lk, gk. rewrite Hres. auto.
  - intros st lambda_logs fname ms check fl cid lp xid Hne Hfind Hsel.
    exact (trace_lambda_selected st log lambda_logs fname ms check fl cid targets
             lp xid Hne Hfind Hsel).
Qed.

(** C7.  Take an [InvokeExternalResource] event record for which the
    function name is found, and non-empty lambda logs.  The text and the
    label of the event's node are formatted before the [try] is entered;
    an exception raised there is raised by [add_block_nodes].  When they
    are formatted, [add_block_nodes] returns: nothing raised inside the
    [try], where the correlation runs, gets out.  When the matching loop
    ends with no matching entry, the "no target logs" diagnostic is
    printed, with the event as the loop leaves it, the event's own node is
    the only node added, and the error counter is unchanged. *)
Theorem add_block_nodes_no_match (d : list (string * value)) (p arn : value)
    (ll : list (string * value)) (fname : string) (is_error : value)
    (st : bstate) (node_id ms : string) :
  assoc "Parameters" d = Some p ->
  py_index p "FunctionArn" = Ret arn ->
  get_func_name X arn = Ret fname ->
  ll <> [] ->
  let log := JObj d in
  let block_id := field log "Identifier" in
  let run := add_block_nodes X (JStr "InvokeExternalResource") log is_error st
                             node_id (JObj ll) ms in
  exists title,
    get_module_name_ko (flow_translation_map X) (JStr "InvokeExternalResource") log
      = Ret title /\
    (forall e,
       get_node_text_by_module_type X (JStr "InvokeExternalResource") log block_id
         = Raise e ->
       run = Raise e) /\
    let n := mkNode node_id (JStr "InvokeExternalResource") title "plaintext"
                    (error_color is_error) (UrlDoc log) in
    forall node_text node_footer label,
      get_node_text_by_module_type X (JStr "InvokeExternalResource") log block_id
        = Ret (node_text, node_footer) ->
      get_node_label X (JStr "InvokeExternalResource") title node_text
                     (JStr node_footer) block_id = Ret label ->
      (exists st', run = Ret st') /\
      (forall check fl cid lp,
         find_target_logs X log (JObj ll) fname = (check, Ret (fl, cid, [], lp)) ->
         run = Ret (mkState (dot_node (st_dot st) n) (st_nodes st ++ [node_id])
                            (st_errors st)
                            (st_out st ++ [NoTargetLogs (with_parameters log lp)]))).
Proof.
  intros Hp Harn Hname Hll log block_id run.
  assert (Htitle : exists title,
             get_module_name_ko (flow_translation_map X)
                                (JStr "InvokeExternalResource") log = Ret title).
  { unfold get_module_name_ko. cbn. eauto. }
  destruct Htitle as (title & Htitle). exists title.
  split; [exact Htitle|].
  assert (Hid : py_get log "Identifier" = Ret block_id) by reflexivity.
  split.
  { intros e He. subst run. unfold add_block_nodes.
    rewrite Hid. cbn [bind]. rewrite He. reflexivity. }
  intros n node_text node_footer label Htext Hlabel.
  assert (Hrun : run =
            match trace_lambda X
                    (mkState (dot_node (st_dot st) n) (st_nodes st ++ [node_id])
                             (st_errors st) (st_out st))
                    log (JObj ll) fname ms with
            | (_, Ret st2) => Ret st2
            | (check_log, Raise e) =>
                Ret (mkState (dot_node (st_dot st) n) (st_nodes st ++ [node_id])
                             (st_errors st)
                             (st_out st ++ [CaughtException check_log e]))
            end).
  { subst run. unfold add_block_nodes.
    rewrite Hid. cbn [bind]. rewrite Htext. cbn [bind].
    unfold log at 1. unfold py_get_default at 1. rewrite Hp. cbn [bind].
    change (define_module_type (JStr "InvokeExternalResource") p)
      with (Ret (A:=value) (JStr "InvokeExternalResource")).
    cbn [bind]. rewrite Htitle. cbn [bind]. rewrite Hlabel. cbn [bind].
    change (py_eq (JStr "InvokeExternalResource") (JStr "InvokeExternalResource"))
      with true. cbv iota.
    destruct ll as [|kv ll']; [contradiction|].
    cbn [py_len List.length bind Nat.ltb Nat.leb].
    unfold log at 1. unfold py_get, py_get_default. rewrite Hp. cbn [bind].
    rewrite Harn. cbn [bind]. rewrite Hname. cbn [bind]. reflexivity. }
  split.
  - rewrite Hrun. destruct (trace_lambda _ _ _ _ _ _) as [c [st2|e]]; eauto.
  - intros check fl cid lp Hfind. rewrite Hrun.
    unfold trace_lambda. rewrite Hfind. reflexivity.
Qed.

End Correlation.

(** C6, worked: candidates at gaps of 400 ms and 50 ms, in either order;
    the trace id of the one at 50 ms is selected. *)
Lemma select_trace_closest_witness :
  select_trace Demo.X (Demo.invoke Demo.at_1000)
    [Demo.candidate Demo.at_0600 "trace-400"; Demo.candidate Demo.at_1050 "trace-50"]
    = Ret (JStr "trace-50", false) /\
  select_trace Demo.X (Demo.invoke Demo.at_1000)
    [Demo.candidate Demo.at_1050 "trace-50"; Demo.candidate Demo.at_0600 "trace-400"]
    = Ret (JStr "trace-50", false).
Proof.
  assert (R400 : readable Demo.X (JStr Demo.at_1000)
                          (Demo.candidate Demo.at_0600 "trace-400") 400).
  { split; [reflexivity | split; [reflexivity | eexists; reflexivity]]. }
  assert (R50 : readable Demo.X (JStr Demo.at_1000)
                         (Demo.candidate Demo.at_1050 "trace-50") 50).
  { split; [reflexivity | split; [reflexivity | eexists; reflexivity]]. }
  split.
  - destruct (select_trace_closest Demo.X (Demo.invoke Demo.at_1000)
                (JStr Demo.at_1000) _ [400; 50]%Z eq_refl
                (Forall2_cons _ _ R400 (Forall2_cons _ _ R50 (Forall2_nil _))))
      as (_ & H & _).
    destruct (H (le_n 2)) as (k & lk & gk & Hk & (Hgk & Hmin) & Hsel).
    rewrite Hsel.
    destruct k as [|[|k]]; simpl in Hk, Hgk.
    + injection Hgk as <-. destruct (Hmin 1 50%Z eq_refl) as [Hle _]. lia.
    + injection Hk as <-. reflexivity.
    + destruct k; discriminate Hgk.
  - destruct (select_trace_closest Demo.X (Demo.invoke Demo.at_1000)
                (JStr Demo.at_1000) _ [50; 400]%Z eq_refl
                (Forall2_cons _ _ R50 (Forall2_cons _ _ R400 (Forall2_nil _))))
      as (_ & H & _).
    destruct (H (le_n 2)) as (k & lk & gk & Hk & (Hgk & Hmin) & Hsel).
    rewrite Hsel.
    destruct k as [|[|k]]; simpl in Hk, Hgk.
    + injection Hk as <-. reflexivity.
    + injection Hgk as <-. destruct (Hmin 0 50%Z eq_refl) as [Hle _]. lia.
    + destruct k; discriminate Hgk.
Defined.

(** C7, worked: the function has log lines, none with the parameters of
    the event. *)
Lemma add_block_nodes_no_match_witness :
  exists title,
    add_block_nodes Demo.X (JStr "InvokeExternalResource")
      (Demo.invoke Demo.at_1000) JNull (mkState empty_graph [] 0 []) "n_0"
      (JObj [("fn", JList [JObj [("ContactId", JStr "c-1");
                                 ("message", JStr "[parameter]");
                                 ("parameters", JObj [("x", JNum 2)]);
                                 ("timestamp", JStr Demo.at_1050);
                                 ("xray_trace_id", JStr "trace-other")]])]) ""
    = Ret (mkState
             (dot_node empty_graph
                (mkNode "n_0" (JStr "InvokeExternalResource") title "plaintext"
                        "lightgray" (UrlDoc (Demo.invoke Demo.at_1000))))
             ["n_0"] 0 [NoTargetLogs (Demo.invoke Demo.at_1000)]).
Proof.
  destruct (add_block_nodes_no_match Demo.X
              [("Timestamp", JStr Demo.at_1000); ("ContactId", JStr "c-1");
               ("ContactFlowName", JStr "F");
               ("ContactFlowModuleType", JStr "InvokeExternalResource");
               ("Identifier", JStr "block");
               ("Parameters", JObj [("FunctionArn", JStr "fn");
                                    ("Parameters", JObj [("x", JNum 1)])])]
              (JObj [("FunctionArn", JStr "fn"); ("Parameters", JObj [("x", JNum 1)])])
              (JStr "fn")
              [("fn", JList [JObj [("ContactId", JStr "c-1");
                                   ("message", JStr "[parameter]");
                                   ("parameters", JObj [("x", JNum 2)]);
                                   ("timestamp", JStr Demo.at_1050);
                                   ("xray_trace_id", JStr "trace-other")]])]
              "fn" JNull (mkState empty_graph [] 0 []) "n_0" ""
              eq_refl eq_refl eq_refl ltac:(discriminate))
    as (title & Htitle & _ & H).
  exists title.
  assert (Ht : title = JStr "InvokeExternalResource").
  { vm_compute in Htitle. injection Htitle as <-. reflexivity. }
  destruct (H (JStr ("x = 1 ($.x)" ++ newline)) ""
              ("<<table border=" ++ double_quote ++ "0" ++ double_quote
                 ++ " cellborder=" ++ double_quote ++ "0" ++ double_quote
                 ++ " cellspacing=" ++ double_quote ++ "0" ++ double_quote ++ ">"
                 ++ indent8 ++ "<tr>" ++ indent12
                 ++ "<td bgcolor=" ++ double_quote ++ "lightgray" ++ double_quote
                 ++ ">InvokeExternalResource</td>" ++ indent8 ++ "</tr>"
                 ++ "<tr><td>block</td></tr>"
                 ++ "<tr>" ++ indent12
                 ++ "<td bgcolor=" ++ double_quote ++ "white" ++ double_quote
                 ++ ">x = 1 ($.x)<br/></td>" ++ indent8 ++ "</tr>"
                 ++ "<tr><td></td></tr></table>>")%string)
    as [_ Hno].
  - vm_compute. reflexivity.
  - rewrite Ht. vm_compute. reflexivity.
  - exact (Hno _ _ _ _ eq_refl).
Defined.

(* ------------------------------------------------------------------ *)
(** ** Linking two related contacts *)

Section Linking.

(** Contact [a] has no predecessor and no related contact; contact [b]
    names [a] as its related contact.  Both have nodes. *)
Variables (a b : value) (ida idb : string) (pa ra ma pb mb : value).
Variables (nodes_a nodes_b : list string).
Variable subgraph_nodes : list (value * list string).

Hypothesis a_id : py_get a "ContactId" = Ret (JStr ida).
Hypothesis a_prev : py_get a "PreviousContactId" = Ret pa.
Hypothesis a_rel : py_get a "RelatedContactId" = Ret ra.
Hypothesis a_method : py_get a "InitiationMethod" = Ret ma.
Hypothesis b_id : py_get b "ContactId" = Ret (JStr idb).
Hypothesis b_prev : py_get b "PreviousContactId" = Ret pb.
Hypothesis b_rel : py_get b "RelatedContactId" = Ret (JStr ida).
Hypothesis b_method : py_get b "InitiationMethod" = Ret mb.
Hypothesis a_root : truthy pa = false.
Hypothesis a_unrelated : truthy ra = false.
Hypothesis ida_given : ida <> "".
Hypothesis idb_given : idb <> "".
Hypothesis distinct : ida <> idb.
Hypothesis a_nodes : dict_find (JStr ida) subgraph_nodes = Some nodes_a.
Hypothesis b_nodes : dict_find (JStr idb) subgraph_nodes = Some nodes_b.
Hypothesis a_nonempty : nodes_a <> [].
Hypothesis b_nonempty : nodes_b <> [].

Let related_edge : edge_stmt :=
  mkEdge (last nodes_a "") (hd "" nodes_b) (JStr "Related") (JStr "none").
Let start_a : edge_stmt := mkEdge "start" (hd "" nodes_a) ma JNull.
Let start_b : edge_stmt := mkEdge "start" (hd "" nodes_b) mb JNull.

Lemma truthy_id (s : string) : s <> "" -> truthy (JStr s) = true.
Proof.
  intros H. simpl. apply negb_true_iff. now apply String.eqb_neq.
Qed.

Lemma nonempty_length (l : list string) : l <> [] -> (0 <? List.length l)%nat = true.
Proof. destruct l; [contradiction | reflexivity]. Qed.

Lemma link_a_then_b (out : list diag) :
  exists dot,
    link_contacts [a; b] subgraph_nodes out = Ret (dot, out) /\
    g_edges dot = [related_edge; start_a; start_b].
Proof.
  unfold link_contacts. cbn [cluster_ids].
  rewrite a_id, b_id. cbn [bind].
  rewrite (truthy_id ida ida_given), (truthy_id idb idb_given).
  cbn [link_loop]. rewrite a_id, a_prev, a_rel. cbn [bind].
  rewrite (truthy_id ida ida_given). cbn [negb hashable].
  rewrite a_method. cbn [bind]. rewrite a_root, a_unrelated. cbn [negb].
  cbn [existsb py_eq]. rewrite String.eqb_refl. cbn [orb].
  unfold link_contact at 1. rewrite a_unrelated, a_root. cbn [bind].
  rewrite b_id, b_prev, b_rel. cbn [bind].
  rewrite (truthy_id idb idb_given). cbn [negb hashable].
  rewrite b_method. cbn [bind]. rewrite (truthy_id ida ida_given).
  cbn [existsb py_eq]. rewrite String.eqb_refl.
  replace (idb =? ida)%string with false
    by (symmetry; apply String.eqb_neq; congruence).
  cbn [orb].
  unfold link_contact. rewrite (truthy_id ida ida_given).
  unfold dict_index. cbn [hashable]. rewrite a_nodes, b_nodes. cbn [bind].
  rewrite (nonempty_length _ a_nonempty), (nonempty_length _ b_nonempty).
  cbn [bind].
  assert (Hset : forall v, dict_set (JStr idb) v
                   (if negb (truthy pb)
                    then dict_set (JStr idb) mb (dict_set (JStr ida) ma [])
                    else dict_set (JStr ida) ma []) =
                 [(JStr ida, ma); (JStr idb, v)]).
  { assert (Hneq : (idb =? ida)%string = false)
      by (apply String.eqb_neq; congruence).
    intros v. destruct (negb (truthy pb));
      repeat (cbn [dict_set py_eq]; rewrite ?Hneq, ?String.eqb_refl);
      reflexivity. }
  rewrite Hset. cbn [root_edges].
  unfold dict_index. cbn [hashable]. rewrite a_nodes, b_nodes. cbn [bind].
  rewrite (nonempty_length _ a_nonempty), (nonempty_length _ b_nonempty).
  cbn [bind]. eexists. split; reflexivity.
Qed.

Lemma link_b_then_a (out : list diag) :
  exists dot,
    link_contacts [b; a] subgraph_nodes out = Ret (dot, out) /\
    g_edges dot = [related_edge; start_b; start_a].
Proof.
  assert (Hneq : (ida =? idb)%string = false) by (now apply String.eqb_neq).
  unfold link_contacts. cbn [cluster_ids].
  rewrite a_id, b_id. cbn [bind].
  rewrite (truthy_id ida ida_given), (truthy_id idb idb_given).
  cbn [link_loop]. rewrite b_id, b_prev, b_rel. cbn [bind].
  rewrite (truthy_id idb idb_given). cbn [negb hashable].
  rewrite b_method. cbn [bind]. rewrite (truthy_id ida ida_given).
  cbn [existsb py_eq]. rewrite String.eqb_refl. cbn [orb].
  unfold link_contact at 1. rewrite (truthy_id ida ida_given).
  unfold dict_index. cbn [hashable]. rewrite a_nodes, b_nodes. cbn [bind].
  rewrite (nonempty_length _ a_nonempty), (nonempty_length _ b_nonempty).
  cbn [bind].
  rewrite a_id, a_prev, a_rel. cbn [bind].
  rewrite (truthy_id ida ida_given). cbn [negb hashable].
  rewrite a_method. cbn [bind]. rewrite a_root, a_unrelated. cbn [negb].
  cbn [existsb py_eq]. rewrite String.eqb_refl, Hneq. cbn [orb].
  unfold link_contact. rewrite a_unrelated, a_root. cbn [bind].
  assert (Hset : dict_set (JStr ida) ma
                   (dict_set (JStr idb) mb
                      (if negb (truthy pb) then dict_set (JStr idb) mb [] else [])) =
                 [(JStr idb, mb); (JStr ida, ma)]).
  { destruct (negb (truthy pb));
      repeat (cbn [dict_set py_eq]; rewrite ?Hneq, ?String.eqb_refl);
      reflexivity. }
  rewrite Hset. cbn [root_edges].
  unfold dict_index. cbn [hashable]. rewrite a_nodes, b_nodes. cbn [bind].
  rewrite (nonempty_length _ a_nonempty), (nonempty_length _ b_nonempty).
  cbn [bind]. eexists. split; reflexivity.
Qed.

(** C9.  Composing [a] and [b], in either order of the
    contact list, adds exactly three linking edges and prints nothing: the
    undirected edge labelled "Related" from the last node of [a] to the
    first node of [b], the edge from the start node to the first node of
    [a] labelled with the initiation method of [a], and the edge from the
    start node to the first node of [b] labelled with the initiation method
    of [b], since a contact with a related contact is registered as a root
    as well (whatever its previous contact). *)
Theorem link_related_contacts (out : list diag) :
  (exists dot,
     link_contacts [a; b] subgraph_nodes out = Ret (dot, out) /\
     g_edges dot =
       [ mkEdge (last nodes_a "") (hd "" nodes_b) (JStr "Related") (JStr "none");
         mkEdge "start" (hd "" nodes_a) ma JNull;
         mkEdge "start" (hd "" nodes_b) mb JNull ]) /\
  (exists dot,
     link_contacts [b; a] subgraph_nodes out = Ret (dot, out) /\
     g_edges dot =
       [ mkEdge (last nodes_a "") (hd "" nodes_b) (JStr "Related") (JStr "none");
         mkEdge "start" (hd "" nodes_b) mb JNull;
         mkEdge "start" (hd "" nodes_a) ma JNull ]).
Proof.
  split; [apply link_a_then_b | apply link_b_then_a].
Qed.

End Linking.

(** C9, worked on the two sample contacts. *)
Lemma link_related_contacts_witness :
  exists dot,
    link_contacts [Demo.contact_a; Demo.contact_b] Demo.contact_nodes [] = Ret (dot, []) /\
    g_edges dot =
      [ mkEdge "a2" "b1" (JStr "Related") (JStr "none");
        mkEdge "start" "a1" (JStr "INBOUND") JNull;
        mkEdge "start" "b1" (JStr "TRANSFER") JNull ].
Proof.
  exact (proj1 (link_related_contacts Demo.contact_a Demo.contact_b "A" "B"
                  JNull JNull (JStr "INBOUND") JNull (JStr "TRANSFER")
                  ["a1"; "a2"] ["b1"; "b2"] Demo.contact_nodes
                  eq_refl eq_refl eq_refl eq_refl eq_refl eq_refl eq_refl eq_refl
                  eq_refl eq_refl
                  ltac:(discriminate) ltac:(discriminate) ltac:(discriminate)
                  eq_refl eq_refl ltac:(discriminate) ltac:(discriminate) [])).
Defined.

(** C9, the claim as stated fails on the two sample contacts: besides the
    two edges it names, the start node is linked to the first node of the
    related contact. *)
Lemma link_related_contacts_counterexample :
  exists dot,
    link_contacts [Demo.contact_a; Demo.contact_b] Demo.contact_nodes [] = Ret (dot, []) /\
    In (mkEdge "start" "b1" (JStr "TRANSFER") JNull) (g_edges dot) /\
    g_edges dot <>
      [ mkEdge "start" "a1" (JStr "INBOUND") JNull;
        mkEdge "a2" "b1" (JStr "Related") (JStr "none") ] /\
    List.length (g_edges dot) = 3.
Proof.
  eexists. split; [reflexivity|]. simpl.
  split; [tauto|]. split; [discriminate | reflexivity].
Qed.

(* ------------------------------------------------------------------ *)
(** ** The deduplication cache *)

Lemma in_consts_In (T : string) (l : list string) :
  In T l -> in_consts (JStr T) l = true.
Proof.
  intros H. unfold in_consts. apply existsb_exists.
  exists T. split; [assumption | simpl; apply String.eqb_refl].
Qed.

Lemma key_eqb_refl (F T : string) :
  key_eqb (JStr F, JStr T) (JStr F, JStr T) = true.
Proof. unfold key_eqb. simpl. now rewrite !String.eqb_refl. Qed.

Lemma cache_mem_last (k k' : cache_key) (c : node_cache) (b : node_data) :
  cache_mem k (c ++ [(k', b)]) = cache_mem k c || key_eqb k k'.
Proof.
  induction c as [|[k0 b0] c IH]; simpl.
  - now rewrite orb_false_r.
  - now rewrite IH, orb_assoc.
Qed.

Lemma cache_append_last (k : cache_key) (p : value) (c : node_cache)
    (b : node_data) :
  cache_mem k c = false -> key_eqb k k = true ->
  cache_append k p (c ++ [(k, b)]) = c ++ [(k, append_parameters p b)].
Proof.
  intros Hc Hk. induction c as [|[k0 b0] c IH]; simpl in *.
  - now rewrite Hk.
  - apply orb_false_iff in Hc. destruct Hc as [-> Hc]. now rewrite IH.
Qed.


(** The node of a bucket, when it is formatted. *)
Lemma bucket_node_shape (X : externals) (b : node_data) (n : node_stmt) :
  bucket_node X b = Ret n ->
  n_id n = nd_id b /\ n_shape n = "box" /\
  n_color n = error_color (nd_is_error b) /\
  n_url n = UrlDoc (node_data_doc b) /\
  define_module_type (nd_module_type b) (JList (nd_Parameters b))
    = Ret (n_module_type n) /\
  get_module_name_ko (flow_translation_map X) (n_module_type n) (node_data_doc b)
    = Ret (n_title n).
Proof.
  unfold bucket_node.
  destruct (get_node_text_by_module_type X (nd_module_type b) (node_data_doc b)
              (nd_blockIdentifier b)) as [[text footer]|]; cbn [bind];
    [|discriminate].
  destruct (define_module_type (nd_module_type b) (JList (nd_Parameters b)))
    as [mt|] eqn:Hmt; cbn [bind]; [|discriminate].
  destruct (get_module_name_ko (flow_translation_map X) mt (node_data_doc b))
    as [title|] eqn:Hti; cbn [bind]; [|discriminate].
  destruct (get_node_label X mt title text JNull (nd_blockIdentifier b));
    cbn [bind]; [|discriminate].
  intros H. injection H as <-.
  cbn [n_id n_shape n_color n_url n_module_type n_title].
  repeat split; assumption || reflexivity.
Qed.

Lemma dup_not_set_contact_flow (T : string) :
  In T DUP_CONTACT_FLOW_MODULE_TYPE -> forall p, define_module_type (JStr T) p = Ret (JStr T).
Proof.
  intros [<- | [<- | []]] p; reflexivity.
Qed.



(** What the loop reads on an aggregatable event. *)
Lemma aggregatable_reads (F T : string) (r : value) (i : nat) :
  aggregatable F T r ->
  In T DUP_CONTACT_FLOW_MODULE_TYPE /\
  classify r = Ret (classification r) /\
  make_node_id r i = Ret (node_id_of r i) /\
  py_get r "ContactFlowModuleType" = Ret (JStr T) /\
  py_index r "ContactFlowName" = Ret (JStr F) /\
  py_get_default r "Parameters" (JObj []) = Ret (event_parameters r) /\
  py_index r "Timestamp" = Ret (field r "Timestamp") /\
  py_index r "Identifier" = Ret (field r "Identifier") /\
  py_get_v r (JStr T) = Ret (field r T).
Proof.
  intros (HT & d & ts & ident & v & -> & HF & HMT & Hts & Hid & Hcl).
  split; [assumption|].
  unfold classification, node_id_of, make_node_id, py_get, py_get_default,
    py_index, py_get_v, event_parameters, field.
  rewrite Hcl, HF, HMT, Hts, Hid. cbn [bind strip_timestamp].
  repeat split; reflexivity.
Qed.

Lemma add_node_cache_first (F T : string) (r : value) (c : node_cache)
    (id : string) (is_error : value) :
  aggregatable F T r -> cache_mem (JStr F, JStr T) c = false ->
  add_node_cache (JStr T) c id r is_error =
  Ret (c ++ [((JStr F, JStr T),
              mkNodeData id (JStr F) (JStr T) (field r "Timestamp")
                         (field r "Identifier") [event_parameters r] is_error)]).
Proof.
  intros Hr Hc.
  destruct (aggregatable_reads F T r 0 Hr) as (_ & _ & _ & _ & HF & Hp & Hts & Hid & _).
  unfold add_node_cache. rewrite Hp, HF. cbn [bind hashable andb].
  rewrite Hc, Hts, Hid. reflexivity.
Qed.

Lemma add_node_cache_more (F T : string) (r : value) (c : node_cache)
    (b : node_data) (id : string) (is_error : value) :
  aggregatable F T r -> cache_mem (JStr F, JStr T) c = false ->
  add_node_cache (JStr T) (c ++ [((JStr F, JStr T), b)]) id r is_error =
  Ret (c ++ [((JStr F, JStr T), append_parameters (event_parameters r) b)]).
Proof.
  intros Hr Hc.
  destruct (aggregatable_reads F T r 0 Hr) as (_ & _ & _ & _ & HF & Hp & _).
  unfold add_node_cache. rewrite Hp, HF. cbn [bind hashable andb].
  rewrite cache_mem_last, key_eqb_refl, orb_true_r.
  rewrite cache_append_last by (auto using key_eqb_refl). reflexivity.
Qed.

Section Runs.

Variable X : externals.
Variables (lambda_logs : value) (module_stack : string).
Variables (F T : string).

Let key : cache_key := (JStr F, JStr T).

(** [build_module_detail] only moves the error counter on an aggregatable
    event. *)
Lemma module_step_aggregatable (r : value) (i : nat) (st : bstate)
    (c : node_cache) (last : value) :
  aggregatable F T r ->
  module_step X lambda_logs module_stack i r (st, c, last) =
  (c' <- add_node_cache (JStr T) c (node_id_of r i) r (classification r) ;;
   Ret (bump st (count_errors [r]), c', field r T)).
Proof.
  intros Hr.
  destruct (aggregatable_reads F T r i Hr) as (HT & Hcl & Hid & Hmt & _ & _ & _ & _ & Hv).
  unfold module_step. rewrite Hcl. cbn [bind]. rewrite Hid. cbn [bind].
  rewrite Hmt. cbn [bind]. unfold dedup_emit.
  rewrite (in_consts_In T _ HT).
  destruct (add_node_cache (JStr T) c (node_id_of r i) r (classification r));
    cbn [bind]; [|reflexivity].
  rewrite Hv. cbn [bind]. unfold bump, count_errors, error_flag. simpl.
  destruct (truthy (classification r)); simpl;
    [rewrite Nat.add_1_r | rewrite Nat.add_0_r]; reflexivity.
Qed.

Lemma module_loop_run (rest : list value) :
  Forall (aggregatable F T) rest ->
  forall (i : nat) (st : bstate) (c : node_cache) (b : node_data) (last : value),
    cache_mem key c = false ->
    module_loop X lambda_logs module_stack i rest (st, c ++ [(key, b)], last) =
    Ret (bump st (count_errors rest),
         c ++ [(key, mkNodeData (nd_id b) (nd_contact_flow_name b) (nd_module_type b)
                                (nd_timestamp b) (nd_blockIdentifier b)
                                (nd_Parameters b ++ map event_parameters rest)
                                (nd_is_error b))],
         run_marker T rest last).
Proof.
  induction 1 as [|r rest Hr Hrest IH]; intros i st c b last Hc.
  - simpl. unfold bump, count_errors. simpl. rewrite Nat.add_0_r, app_nil_r.
    destruct st, b; reflexivity.
  - cbn [module_loop]. rewrite (module_step_aggregatable r i st _ last Hr).
    unfold key. rewrite (add_node_cache_more F T r c b _ _ Hr Hc). cbn [bind].
    fold key. rewrite (IH (S i) _ c _ (field r T) Hc).
    unfold bump, count_errors, append_parameters. simpl.
    rewrite <- app_assoc. simpl.
    destruct (error_flag r); simpl; rewrite <- Nat.add_assoc; reflexivity.
Qed.





(** The same in [build_contact_flow_detail], for a flow that is not a
    module; there the error counter does not move. *)
Variables (all_logs : list value) (contact_id : value).
Hypothesis F_outside : is_substring "MOD_" F = false.






End Runs.





(* ------------------------------------------------------------------ *)
(** ** The end of the stream, the error flag of a bucket, the error count *)

(** A run that the stream ends with stays in the cache: the loop returns
    with the graph and the node list as they were before the run. *)
Lemma module_loop_trailing_run (X : externals) (lambda_logs : value)
    (module_stack F T : string) (first : value) (rest : list value) (i : nat)
    (st : bstate) (c : node_cache) (last0 : value) :
  Forall (aggregatable F T) (first :: rest) ->
  cache_mem (JStr F, JStr T) c = false ->
  module_loop X lambda_logs module_stack i (first :: rest) (st, c, last0) =
  Ret (bump st (count_errors (first :: rest)),
       c ++ [((JStr F, JStr T), run_bucket F T first i (first :: rest))],
       run_marker T (first :: rest) last0).
Proof.
  intros Hrun Hc. inversion Hrun as [|? ? Hfirst Hrest]; subst.
  cbn [module_loop].
  rewrite (module_step_aggregatable X lambda_logs module_stack F T first i st c
             last0 Hfirst).
  rewrite (add_node_cache_first F T first c _ _ Hfirst Hc). cbn [bind].
  rewrite (module_loop_run X lambda_logs module_stack F T rest Hrest (S i) _ c _ _ Hc).
  unfold run_bucket, bump, count_errors. cbn [map filter app st_dot st_nodes
    st_errors st_out nd_id nd_contact_flow_name nd_module_type nd_timestamp
    nd_blockIdentifier nd_Parameters nd_is_error].
  destruct (error_flag first); cbn [List.length];
    rewrite <- Nat.add_assoc; reflexivity.
Qed.

(** The colour of the node of a run is decided by its first event. *)
Lemma aggregate_node_color (fm : list (string * string)) (F T : string)
    (first : value) (i : nat) (run : list value) :
  n_color (aggregate_node fm T (run_bucket F T first i run)) =
  error_color (classification first).
Proof. reflexivity. Qed.

(** C3.  A flow that ends with a run of attribute settings: both assembly
    functions return the node of the prompt only; the bucket of the run is
    still in the cache when the loop ends and is not emitted. *)
Lemma trailing_run_not_emitted :
  (exists st,
     build_module_detail Demo.X Demo.trailing_run (JObj []) 0 "" [] = Ret st /\
     st_nodes st = ["2024-01-01T000001000Z_0"] /\
     map n_id (g_nodes (st_dot st)) = ["2024-01-01T000001000Z_0"]) /\
  (exists st,
     build_contact_flow_detail Demo.X Demo.trailing_run (JStr "c-1") (JObj []) 0 "" []
       = Ret st /\
     st_nodes st = ["2024-01-01T000001000Z_0"] /\
     map n_id (g_nodes (st_dot st)) = ["2024-01-01T000001000Z_0"]).
Proof.
  split; eexists; (split; [vm_compute; reflexivity|]);
    split; vm_compute; reflexivity.
Qed.

(** C4.  A run whose second event is classified as an error: the event is
    counted, but the node of the run is not in the error colour.  With the
    erroneous event first, it is. *)
Lemma bucket_flag_is_first_event :
  error_flag (Demo.failed_attr Demo.at_2000) = true /\
  (exists st,
     build_module_detail Demo.X Demo.error_second (JObj []) 0 "" [] = Ret st /\
     st_errors st = 1 /\
     map n_color (g_nodes (st_dot st)) = ["lightgray"; "lightgray"]) /\
  (exists st,
     build_module_detail Demo.X Demo.error_first (JObj []) 0 "" [] = Ret st /\
     st_errors st = 1 /\
     map n_color (g_nodes (st_dot st)) = ["tomato"; "lightgray"]).
Proof.
  split; [vm_compute; reflexivity|].
  split; eexists; (split; [vm_compute; reflexivity|]);
    split; vm_compute; reflexivity.
Qed.

(** C8.  A flow whose only event is one failed prompt inside a module: the
    module's own count is 1, the count [build_contact_flow_detail] returns
    for the flow is 2, and the count [process_sub_flow] returns for the flow
    is 3. *)
Lemma module_error_counted_three_times :
  (exists st,
     build_module_detail Demo.X [Demo.module_failure] (JObj []) 0 "" [] = Ret st /\
     st_errors st = 1) /\
  (exists st,
     build_contact_flow_detail Demo.X [Demo.module_failure] (JStr "c-1") (JObj [])
                               0 "" [] = Ret st /\
     st_errors st = 2) /\
  (exists st l_nodes,
     process_sub_flow Demo.X "flow" Demo.no_state [] (JStr "Main") "c-1_n1"
                      [Demo.module_failure] (JStr "c-1") (JObj [])
       = Ret (st, l_nodes) /\
     st_errors st = 3).
Proof.
  split; [|split].
  - eexists. split; vm_compute; reflexivity.
  - eexists. split; vm_compute; reflexivity.
  - eexists. eexists. split; vm_compute; reflexivity.
Qed.

(* ================================================================== *)
(** * Further properties *)

(* ------------------------------------------------------------------ *)
(** ** Sorting the events *)

Lemma insert_by_key_perm (k : Z) (x : value) (l : list (Z * value)) :
  Permutation ((k, x) :: l) (insert_by_key k x l).
Proof.
  induction l as [|[k' y] l IH]; simpl; [reflexivity|].
  destruct (k <=? k')%Z; [reflexivity|].
  rewrite perm_swap. now apply perm_skip.
Qed.

Lemma sort_keyed_perm (l : list (Z * value)) : Permutation l (sort_keyed l).
Proof.
  induction l as [|[k x] l IH]; simpl; [constructor|].
  rewrite <- insert_by_key_perm. now apply perm_skip.
Qed.

Lemma insert_by_key_sorted (k : Z) (x : value) (l : list (Z * value)) :
  StronglySorted key_order l -> StronglySorted key_order (insert_by_key k x l).
Proof.
  induction 1 as [|[k' y] l Hl IH Hall]; simpl.
  - repeat constructor.
  - destruct (k <=? k')%Z eqn:Hk.
    + apply Z.leb_le in Hk. constructor.
      * now constructor.
      * constructor; [exact Hk|].
        eapply Forall_impl; [|exact Hall].
        intros [k2 z] H2. unfold key_order in *. simpl in *. lia.
    + apply Z.leb_gt in Hk. constructor; [exact IH|].
      apply (Permutation_Forall (insert_by_key_perm k x l)).
      constructor; [unfold key_order; simpl; lia | exact Hall].
Qed.

Lemma sort_keyed_sorted (l : list (Z * value)) :
  StronglySorted key_order (sort_keyed l).
Proof.
  induction l as [|[k x] l IH]; simpl; [constructor|].
  now apply insert_by_key_sorted.
Qed.

Lemma sort_keyed_stable (l : list (Z * value)) :
  StronglySorted key_order l -> sort_keyed l = l.
Proof.
  induction 1 as [|[k x] l Hl IH Hall]; simpl; [reflexivity|].
  rewrite IH. destruct l as [|[k' y] l']; simpl; [reflexivity|].
  inversion Hall as [|? ? Hk _]; subst. unfold key_order in Hk. simpl in Hk.
  apply Z.leb_le in Hk. now rewrite Hk.
Qed.

Lemma mapM_length {A B : Type} (f : A -> res B) (l : list A) (r : list B) :
  mapM f l = Ret r -> List.length r = List.length l.
Proof.
  revert r. induction l as [|x l IH]; intros r; simpl.
  - now intros [= <-].
  - destruct (f x); simpl; [|discriminate].
    destruct (mapM f l); simpl; [|discriminate].
    intros [= <-]. simpl. now rewrite (IH l0 eq_refl).
Qed.

Lemma map_snd_combine {A B : Type} (l1 : list A) (l2 : list B) :
  List.length l1 = List.length l2 -> map snd (combine l1 l2) = l2.
Proof.
  revert l2. induction l1 as [|a l1 IH]; intros [|b l2]; simpl; try discriminate.
  - reflexivity.
  - intros [= H]. now rewrite IH.
Qed.

(* ------------------------------------------------------------------ *)
(** ** The X-Ray summary node *)

Lemma py_get_record (l : value) (k : string) (v : value) :
  py_get l k = Ret v -> (exists d, l = JObj d) /\ v = field l k.
Proof.
  destruct l; try discriminate. simpl. intros [= <-]. eauto.
Qed.

Lemma filterM_associated (xid : value) (fl r : list value) :
  filterM (fun l => x <- py_get l "xray_trace_id" ;; Ret (py_eq x xid)) fl = Ret r ->
  r = associated_logs xid fl.
Proof.
  revert r. induction fl as [|l fl IH]; intros r; simpl.
  - now intros [= <-].
  - destruct (py_get l "xray_trace_id") as [x|] eqn:Hx; simpl; [|discriminate].
    destruct (py_get_record _ _ _ Hx) as (_ & ->).
    destruct (filterM _ fl) as [r'|]; simpl; [|discriminate].
    intros [= <-]. rewrite (IH r' eq_refl). reflexivity.
Qed.

Lemma mapM_levels (logs levels : list value) :
  mapM (fun l => py_get_default l "level" (JStr "INFO")) logs = Ret levels ->
  levels = map log_level logs.
Proof.
  revert levels. induction logs as [|l logs IH]; intros levels; simpl.
  - now intros [= <-].
  - destruct l; simpl; try discriminate.
    destruct (mapM _ logs) as [r|]; simpl; [|discriminate].
    intros [= <-]. now rewrite (IH r eq_refl).
Qed.

(** What [build_xray_dot] returns, when it returns. *)
Lemma build_xray_dot_inv (X : externals) (st st' : bstate)
    (xray_trace_id : value) (function_logs : list value) (log : value)
    (module_stack : string) (contact_id : value) :
  build_xray_dot X st xray_trace_id function_logs log module_stack contact_id = Ret st' ->
  let levels := map log_level (associated_logs xray_trace_id function_logs) in
  let flagged := ((0 <? count_level "ERROR" levels)
                  || (0 <? count_level "WARN" levels))%nat in
  associated_logs xray_trace_id function_logs <> [] /\
  exists node_id title file,
    st' = mkState
            (dot_node (st_dot st)
               (mkNode node_id (JStr "xray") title "plaintext"
                       (if flagged then "tomato" else "lightgray") (UrlFile file)))
            (st_nodes st ++ [node_id])
            (if flagged
             then st_errors st + (count_level "ERROR" levels + count_level "WARN" levels)
             else st_errors st)
            (st_out st).
Proof.
  unfold build_xray_dot.
  destruct (get_xray_trace X xray_trace_id) as [trace|]; cbn [bind]; [|discriminate].
  destruct (xray_text_loop trace JNull 1 "") as [text|]; cbn [bind]; [|discriminate].
  destruct (filterM _ function_logs) as [assoc_logs|] eqn:Hassoc; cbn [bind];
    [|discriminate].
  apply filterM_associated in Hassoc. subst assoc_logs.
  unfold build_xray_nodes.
  destruct (draw_xray_batch X xray_trace_id _); cbn [bind]; [|discriminate].
  destruct (associated_logs xray_trace_id function_logs) as [|a0 rest] eqn:Ha;
    cbn [bind]; [discriminate|].
  destruct (mapM _ (a0 :: rest)) as [levels|] eqn:Hlv; cbn [bind]; [|discriminate].
  apply mapM_levels in Hlv. subst levels.
  destruct (py_get_default log "Timestamp" (JStr "")) as [ts|]; cbn [bind];
    [|discriminate].
  destruct (strip_timestamp ts) as [stripped|]; cbn [bind]; [|discriminate].
  destruct (get_module_name_ko (flow_translation_map X) (JStr "xray") log) as [name|];
    cbn [bind]; [|discriminate].
  destruct (py_add_str name _) as [title|]; cbn [bind]; [|discriminate].
  destruct (get_node_label X _ _ _ _ _); cbn [bind]; [|discriminate].
  intros [= <-]. split; [discriminate|]. eexists _, _, _. reflexivity.
Qed.

(** The part of it the callers rely on. *)
Lemma build_xray_dot_appends (X : externals) (st st' : bstate)
    (xray_trace_id : value) (function_logs : list value) (log : value)
    (module_stack : string) (contact_id : value) :
  build_xray_dot X st xray_trace_id function_logs log module_stack contact_id = Ret st' ->
  exists node,
    g_nodes (st_dot st') = g_nodes (st_dot st) ++ [node] /\
    g_edges (st_dot st') = g_edges (st_dot st) /\
    st_nodes st' = st_nodes st ++ [n_id node] /\
    st_errors st <= st_errors st' /\
    st_out st' = st_out st /\
    n_module_type node = JStr "xray".
Proof.
  intros H. destruct (build_xray_dot_inv _ _ _ _ _ _ _ _ H)
    as (_ & node_id & title & file & ->).
  eexists. cbn [st_dot st_nodes st_errors st_out dot_node g_nodes g_edges
                n_id n_module_type].
  repeat split.
  match goal with |- _ <= (if ?b then _ else _) => destruct b end; lia.
Qed.

(** X2.  When [build_xray_dot] returns, some function log carries the trace
    id, exactly one node (of type "xray") has been added to the graph and to
    the node list, the error count has grown by the number of those logs
    whose level is ERROR or WARN, the node is in the error colour exactly
    when that number is positive, and nothing has been printed. *)
Theorem build_xray_dot_effect (X : externals) (st st' : bstate)
    (xray_trace_id : value) (function_logs : list value) (log : value)
    (module_stack : string) (contact_id : value) :
  build_xray_dot X st xray_trace_id function_logs log module_stack contact_id = Ret st' ->
  let alarms := alarm_count (associated_logs xray_trace_id function_logs) in
  associated_logs xray_trace_id function_logs <> [] /\
  exists node,
    g_nodes (st_dot st') = g_nodes (st_dot st) ++ [node] /\
    g_edges (st_dot st') = g_edges (st_dot st) /\
    st_nodes st' = st_nodes st ++ [n_id node] /\
    st_errors st' = st_errors st + alarms /\
    st_out st' = st_out st /\
    n_module_type node = JStr "xray" /\
    n_color node = (if (0 <? alarms)%nat then "tomato" else "lightgray").
Proof.
  intros Hrun alarms. subst alarms.
  destruct (build_xray_dot_inv _ _ _ _ _ _ _ _ Hrun)
    as (Hne & node_id & title & file & ->).
  split; [exact Hne|].
  eexists. cbn [st_dot st_nodes st_errors st_out dot_node g_nodes g_edges
                n_id n_module_type n_color].
  repeat split.
  - unfold alarm_count.
    destruct (count_level "ERROR" _) as [|e], (count_level "WARN" _) as [|w];
      cbn [Nat.ltb Nat.leb orb Nat.add]; try reflexivity; lia.
  - unfold alarm_count.
    destruct (count_level "ERROR" _) as [|e], (count_level "WARN" _) as [|w];
      reflexivity.
Qed.

Lemma build_xray_dot_nodes (X : externals) (st st' : bstate)
    (xray_trace_id : value) (function_logs : list value) (log : value)
    (module_stack : string) (contact_id : value) :
  build_xray_dot X st xray_trace_id function_logs log module_stack contact_id = Ret st' ->
  exists node,
    g_nodes (st_dot st') = g_nodes (st_dot st) ++ [node] /\
    n_module_type node = JStr "xray".
Proof.
  intros H. destruct (build_xray_dot_appends _ _ _ _ _ _ _ _ H)
    as (node & Hg & _ & _ & _ & _ & Hty).
  exists node. split; assumption.
Qed.

(** X3.  When no function log carries the trace id, [build_xray_dot] does
    not return: [xray_trace_file] is never assigned in [build_xray_nodes], so
    at the latest its [return] raises, and no node is added. *)
Theorem build_xray_dot_needs_associated_log (X : externals) (st : bstate)
    (xray_trace_id : value) (function_logs : list value) (log : value)
    (module_stack : string) (contact_id : value) :
  associated_logs xray_trace_id function_logs = [] ->
  exists e,
    build_xray_dot X st xray_trace_id function_logs log module_stack contact_id = Raise e /\
    (get_xray_trace X xray_trace_id = Ret [] ->
     Forall (fun l => exists d, l = JObj d) function_logs ->
     draw_xray_batch X xray_trace_id [] = Ret tt ->
     e = UnboundLocalError).
Proof.
  intros Hnone.
  destruct (build_xray_dot X st xray_trace_id function_logs log module_stack contact_id)
    as [st'|e] eqn:Hrun.
  - apply build_xray_dot_inv in Hrun. destruct Hrun as [Hne _]. contradiction.
  - exists e. split; [reflexivity|]. intros Htrace Hrec Hdraw.
    unfold build_xray_dot in Hrun. rewrite Htrace in Hrun. cbn [bind xray_text_loop] in Hrun.
    assert (Hf : filterM (fun l => x <- py_get l "xray_trace_id" ;;
                                   Ret (py_eq x xray_trace_id)) function_logs =
                 Ret (associated_logs xray_trace_id function_logs)).
    { clear -Hrec. induction Hrec as [|l fl (d & ->) _ IH]; [reflexivity|].
      cbn [filterM]. change (py_get (JObj d) "xray_trace_id")
        with (Ret (A:=value) (field (JObj d) "xray_trace_id")).
      cbn [bind]. rewrite IH. reflexivity. }
    rewrite Hf, Hnone in Hrun. cbn [bind] in Hrun.
    unfold build_xray_nodes in Hrun. rewrite Hdraw in Hrun. cbn [bind] in Hrun.
    now injection Hrun as <-.
Qed.

(** X2, worked: a trace with one INFO line and one ERROR line. *)
Lemma build_xray_dot_effect_witness :
  exists st',
    build_xray_dot Demo.X Demo.no_state (JStr "t-1")
      [Demo.candidate Demo.at_1050 "t-1"; Demo.failure_line Demo.at_2000 "t-1";
       Demo.failure_line Demo.at_3000 "t-2"]
      (Demo.invoke Demo.at_1000) "" (JStr "c-1") = Ret st' /\
    st_errors st' = 1.
Proof.
  destruct (build_xray_dot Demo.X Demo.no_state (JStr "t-1")
      [Demo.candidate Demo.at_1050 "t-1"; Demo.failure_line Demo.at_2000 "t-1";
       Demo.failure_line Demo.at_3000 "t-2"]
      (Demo.invoke Demo.at_1000) "" (JStr "c-1")) as [st'|e] eqn:H;
    [|vm_compute in H; discriminate].
  exists st'. split; [reflexivity|].
  destruct (build_xray_dot_effect _ _ _ _ _ _ _ _ H)
    as (_ & node & _ & _ & _ & He & _).
  rewrite He. vm_compute. reflexivity.
Defined.

(** X3, worked: a trace id no log line carries. *)
Lemma build_xray_dot_needs_associated_log_witness :
  build_xray_dot Demo.X Demo.no_state (JStr "t-9")
    [Demo.candidate Demo.at_1050 "t-1"] (Demo.invoke Demo.at_1000) "" (JStr "c-1")
  = Raise UnboundLocalError.
Proof.
  destruct (build_xray_dot_needs_associated_log Demo.X Demo.no_state (JStr "t-9")
              [Demo.candidate Demo.at_1050 "t-1"] (Demo.invoke Demo.at_1000) ""
              (JStr "c-1") eq_refl) as (e & He & Hu).
  rewrite He. f_equal. apply Hu.
  - reflexivity.
  - repeat constructor. eexists. reflexivity.
  - reflexivity.
Defined.

(* ------------------------------------------------------------------ *)
(** ** add_block_nodes *)

Lemma trace_lambda_cases (X : externals) (st st2 : bstate) (log lambda_logs : value)
    (fname ms : string) (c : value) :
  trace_lambda X st log lambda_logs fname ms = (c, Ret st2) ->
  (exists log', st2 = mkState (st_dot st) (st_nodes st) (st_errors st)
                              (st_out st ++ [NoTargetLogs log'])) \/
  exists xid fl cid log', build_xray_dot X st xid fl log' ms cid = Ret st2.
Proof.
  unfold trace_lambda.
  destruct (find_target_logs X log lambda_logs fname)
    as [c' [[[[fl cid] targets] lp]|e]]; [|intros [= _ ?]; discriminate].
  cbv zeta.
  destruct targets as [|t1 [|t2 rest]]; cbn [select_trace bind].
  - intros [= _ <-]. left. eauto.
  - destruct (py_get t1 "xray_trace_id") as [x|]; cbn [bind]; [|discriminate].
    intros [= _ H]. right. eauto.
  - destruct (py_get (with_parameters log lp) "Timestamp") as [ts|]; cbn [bind];
      [|discriminate].
    destruct (closest_trace X ts (t1 :: t2 :: rest) sys_maxsize (JStr "")) as [x|];
      cbn [bind]; [|discriminate].
    intros [= _ H]. right. eauto.
Qed.

(** When [add_block_nodes] returns, the text and the label of the node
    have been formatted. *)
Ltac formatted_text X :=
  match goal with
  | |- context [py_get ?log "Identifier"] =>
      destruct (py_get log "Identifier") as [block_id|]; cbn [bind]; [|discriminate]
  end;
  match goal with
  | |- context [get_node_text_by_module_type X ?mt ?log ?b] =>
      destruct (get_node_text_by_module_type X mt log b)
        as [[node_text node_footer]|]; cbn [bind]; [|discriminate]
  end.

Ltac formatted_label X :=
  match goal with
  | |- context [get_node_label X ?mt ?title ?text ?footer ?b] =>
      destruct (get_node_label X mt title text footer b) as [label|];
      cbn [bind]; [|discriminate]
  end.

(** The three ways [add_block_nodes] returns: with the node of the event
    only, with a diagnostic printed as well, or through [build_xray_dot]. *)
Lemma add_block_nodes_cases (X : externals) (module_type log is_error : value)
    (st st' : bstate) (node_id : string) (lambda_logs : value) (module_stack : string) :
  add_block_nodes X module_type log is_error st node_id lambda_logs module_stack
    = Ret st' ->
  exists node,
    n_id node = node_id /\ n_color node = error_color is_error /\
    n_url node = UrlDoc log /\
    let st1 := mkState (dot_node (st_dot st) node) (st_nodes st ++ [node_id])
                       (st_errors st) (st_out st) in
    (exists printed,
       List.length printed <= 1 /\
       st' = mkState (st_dot st1) (st_nodes st1) (st_errors st1) (st_out st1 ++ printed)) \/
    (exists xid fl cid log',
       build_xray_dot X st1 xid fl log' module_stack cid = Ret st').
Proof.
  unfold add_block_nodes. formatted_text X.
  destruct (py_get_default log "Parameters" (JObj [])) as [params|]; cbn [bind];
    [|discriminate].
  destruct (define_module_type module_type params) as [mt|]; cbn [bind];
    [|discriminate].
  destruct (get_module_name_ko (flow_translation_map X) mt log) as [title|];
    cbn [bind]; [|discriminate].
  formatted_label X.
  set (node := mkNode node_id mt title "plaintext" (error_color is_error) (UrlDoc log)).
  set (st1 := mkState (dot_node (st_dot st) node) (st_nodes st ++ [node_id])
                      (st_errors st) (st_out st)).
  intros H. exists node. split; [reflexivity|]. split; [reflexivity|].
  split; [reflexivity|]. cbv zeta. fold st1. revert H.
  assert (Hplain : st1 = mkState (st_dot st1) (st_nodes st1) (st_errors st1)
                                 (st_out st1 ++ [])).
  { subst st1. cbn. now rewrite app_nil_r. }
  destruct (py_eq mt (JStr "InvokeExternalResource"));
    [|intros [= <-]; left; exists []; split; [cbn; lia | exact Hplain]].
  destruct (py_len lambda_logs) as [n|]; cbn [bind]; [|discriminate].
  destruct (0 <? n)%nat;
    [|intros [= <-]; left; exists []; split; [cbn; lia | exact Hplain]].
  destruct (py_get log "Parameters") as [p|]; cbn [bind]; [|discriminate].
  destruct (py_index p "FunctionArn") as [arn|]; cbn [bind]; [|discriminate].
  destruct (get_func_name X arn) as [fname|]; cbn [bind]; [|discriminate].
  destruct (trace_lambda X st1 log lambda_logs fname module_stack) as [c [st2|e]] eqn:Ht.
  - intros [= <-]. destruct (trace_lambda_cases _ _ _ _ _ _ _ _ Ht)
      as [(log' & ->) | (xid & fl & cid & log' & Hx)].
    + left. exists [NoTargetLogs log']. split; [cbn; lia | reflexivity].
    + right. eauto.
  - intros [= <-]. left. exists [CaughtException c e]. split; [cbn; lia | reflexivity].
Qed.

(** X4.  When [add_block_nodes] returns, it has added the node of the event
    (with the given id, coloured by [is_error], linked to the event) and at
    most one node after it (the X-Ray summary), to the graph and to the node
    list alike; it has added no edge, has not lowered the error count and
    has printed at most one diagnostic. *)
Theorem add_block_nodes_shape (X : externals) (module_type log is_error : value)
    (st st' : bstate) (node_id : string) (lambda_logs : value) (module_stack : string) :
  add_block_nodes X module_type log is_error st node_id lambda_logs module_stack
    = Ret st' ->
  exists node extra printed,
    g_nodes (st_dot st') = g_nodes (st_dot st) ++ node :: extra /\
    st_nodes st' = st_nodes st ++ node_id :: map n_id extra /\
    List.length extra <= 1 /\
    n_id node = node_id /\
    n_color node = error_color is_error /\
    n_url node = UrlDoc log /\
    g_edges (st_dot st') = g_edges (st_dot st) /\
    st_errors st <= st_errors st' /\
    st_out st' = st_out st ++ printed /\
    List.length printed <= 1.
Proof.
  intros H. destruct (add_block_nodes_cases _ _ _ _ _ _ _ _ _ H)
    as (node & Hid & Hcol & Hurl & [(printed & Hlen & ->) | (xid & fl & cid & log' & Hx)]).
  - exists node, [], printed. cbn. repeat split; auto.
  - destruct (build_xray_dot_appends _ _ _ _ _ _ _ _ Hx)
      as (xnode & Hg & He & Hn & Herr & Hout & _).
    exists node, [xnode], []. rewrite Hg, He, Hn, Hout. cbn in Herr |- *.
    rewrite <- !app_assoc, app_nil_r. cbn. repeat split; auto.
Qed.

(* ------------------------------------------------------------------ *)
(** ** The assembly loops only append *)

Lemma extends_refl (st : bstate) : extends st st.
Proof. exists [], []. cbn [map]. rewrite !app_nil_r. auto. Qed.

Lemma extends_trans (a b c : bstate) : extends a b -> extends b c -> extends a c.
Proof.
  intros (n1 & o1 & Hg1 & Hn1 & He1 & Hc1 & Ho1) (n2 & o2 & Hg2 & Hn2 & He2 & Hc2 & Ho2).
  exists (n1 ++ n2), (o1 ++ o2).
  rewrite Hg2, Hg1, Hn2, Hn1, He2, He1, Ho2, Ho1, map_app, !app_assoc.
  repeat split; auto; lia.
Qed.

Lemma extends_in_step (st st' : bstate) : extends st st' -> in_step st -> in_step st'.
Proof.
  intros (new & o & Hg & Hn & _) Hs. unfold in_step in *.
  now rewrite Hg, Hn, map_app, Hs.
Qed.

Lemma add_block_nodes_extends (X : externals) (module_type log is_error : value)
    (st st' : bstate) (node_id : string) (lambda_logs : value) (module_stack : string) :
  add_block_nodes X module_type log is_error st node_id lambda_logs module_stack
    = Ret st' -> extends st st'.
Proof.
  intros H. destruct (add_block_nodes_cases _ _ _ _ _ _ _ _ _ H)
    as (node & Hid & _ & _ & [(printed & _ & ->) | (xid & fl & cid & log' & Hx)]).
  - exists [node], printed. cbn. rewrite Hid. repeat split; auto.
  - destruct (build_xray_dot_appends _ _ _ _ _ _ _ _ Hx)
      as (xnode & Hg & He & Hn & Herr & Hout & _).
    exists [node; xnode], []. rewrite Hg, He, Hn, Hout. cbn in Herr |- *.
    rewrite <- !app_assoc, app_nil_r, Hid. cbn. repeat split; auto.
Qed.

Lemma add_block_nodes_lists (X : externals) (module_type log is_error : value)
    (st st' : bstate) (node_id : string) (lambda_logs : value) (module_stack : string) :
  add_block_nodes X module_type log is_error st node_id lambda_logs module_stack
    = Ret st' -> In node_id (st_nodes st').
Proof.
  intros H. destruct (add_block_nodes_cases _ _ _ _ _ _ _ _ _ H)
    as (node & _ & _ & _ & [(printed & _ & ->) | (xid & fl & cid & log' & Hx)]).
  - cbn. apply in_or_app. right. now left.
  - destruct (build_xray_dot_appends _ _ _ _ _ _ _ _ Hx) as (xnode & _ & _ & Hn & _).
    rewrite Hn. cbn. apply in_or_app. left. apply in_or_app. right. now left.
Qed.

(** What [dup_block_sanitize] adds for a cache, when it returns. *)
Lemma dup_block_sanitize_nodes (X : externals) (c : node_cache) :
  forall (dot dot' : digraph) (nodes nodes' : list string),
    dup_block_sanitize X c dot nodes = Ret (dot', nodes') ->
    exists new,
      g_nodes dot' = g_nodes dot ++ new /\
      g_edges dot' = g_edges dot /\
      nodes' = nodes ++ map n_id new /\
      map n_id new = map (fun kb => nd_id (snd kb)) c /\
      map n_color new = map (fun kb => error_color (nd_is_error (snd kb))) c /\
      map n_url new = map (fun kb => UrlDoc (node_data_doc (snd kb))) c.
Proof.
  induction c as [|[k b] c IH]; intros dot dot' nodes nodes'; cbn [dup_block_sanitize].
  - intros [= <- <-]. exists []. cbn [map]. rewrite !app_nil_r. repeat split.
  - destruct (bucket_node X b) as [n|] eqn:Hb; cbn [bind]; [|discriminate].
    destruct (bucket_node_shape X b n Hb) as (Hbi & _ & Hbc & Hbu & _).
    intros H. destruct (IH _ _ _ _ H) as (new & Hg & He & Hn & Hid & Hc & Hu).
    exists (n :: new). rewrite Hg, He, Hn. cbn. rewrite <- !app_assoc. cbn.
    rewrite Hid, Hc, Hu, Hbi, Hbc, Hbu. repeat split.
Qed.

Lemma in_consts_inv (v : value) (l : list string) :
  in_consts v l = true -> exists T, In T l /\ v = JStr T.
Proof.
  unfold in_consts. intros H. apply existsb_exists in H.
  destruct H as (T & HT & Heq). apply py_eq_str in Heq. eauto.
Qed.

Lemma scan_errors_monotone (X : externals) (logs : list value) :
  forall span n span' m, scan_errors X logs span n = Ret (span', m) -> n <= m.
Proof.
  induction logs as [|l logs IH]; intros span n span' m; cbn [scan_errors].
  - intros [= _ <-]. lia.
  - destruct (timestamp_of X l); cbn [bind]; [|discriminate].
    match goal with
    | |- context [bind ?m _] => destruct m as [mn|]; cbn [bind]; [|discriminate]
    end.
    match goal with
    | |- context [bind ?m _] => destruct m as [mx|]; cbn [bind]; [|discriminate]
    end.
    destruct (results_has_keyword l) as [kw|]; cbn [bind]; [|discriminate].
    destruct (is_lambda_error l) as [le|]; cbn [bind]; [|discriminate].
    intros H. apply IH in H. destruct kw, (truthy le); lia.
Qed.

Lemma flush_extends (X : externals) (module_type last : value) (st st1 : bstate)
    (cache cache1 : node_cache) :
  (if (0 <? List.length cache)%nat && negb (py_eq module_type last)
   then '(dot, nodes) <- dup_block_sanitize X cache (st_dot st) (st_nodes st) ;;
        Ret (mkState dot nodes (st_errors st) (st_out st), [])
   else Ret (st, cache)) = Ret (st1, cache1) ->
  extends st st1.
Proof.
  destruct ((0 <? List.length cache)%nat && negb (py_eq module_type last)).
  - destruct (dup_block_sanitize _ cache _ _) as [[d n]|] eqn:Hd; cbn [bind];
      [|discriminate].
    intros [= <- _]. destruct (dup_block_sanitize_nodes _ _ _ _ _ _ Hd)
      as (new & Hg & He & Hn & _).
    exists new, []. cbn. rewrite app_nil_r. auto.
  - intros [= <- _]. apply extends_refl.
Qed.

Lemma dedup_emit_extends (X : externals) (lambda_logs : value) (module_stack : string)
    (module_type log is_error : value) (node_id : string) (st st' : bstate)
    (cache cache' : node_cache) (last last' : value) :
  dedup_emit X lambda_logs module_stack module_type log is_error node_id st cache last
    = Ret (st', cache', last') -> extends st st'.
Proof.
  unfold dedup_emit.
  destruct (in_consts module_type DUP_CONTACT_FLOW_MODULE_TYPE).
  - destruct (add_node_cache module_type cache node_id log is_error); cbn [bind];
      [|discriminate].
    destruct (py_get_v log module_type); cbn [bind]; [|discriminate].
    intros [= <- _ _]. apply extends_refl.
  - destruct (if (0 <? List.length cache)%nat && negb (py_eq module_type last)
              then _ else _) as [[st1 cache1]|] eqn:Hf; cbn [bind]; [|discriminate].
    apply flush_extends in Hf.
    destruct (negb (in_consts module_type OMIT_CONTACT_FLOW_MODULE_TYPE)).
    + destruct (add_block_nodes X module_type log is_error st1 node_id lambda_logs
                                module_stack) as [st2|] eqn:Ha; cbn [bind];
        [|discriminate].
      intros [= <- _ _]. eapply extends_trans; [exact Hf|].
      eapply add_block_nodes_extends; eauto.
    + intros [= <- _ _]. exact Hf.
Qed.

Lemma module_loop_extends (X : externals) (lambda_logs : value) (module_stack : string)
    (logs : list value) :
  forall i st cache last st' cache' last',
    module_loop X lambda_logs module_stack i logs (st, cache, last)
      = Ret (st', cache', last') -> extends st st'.
Proof.
  induction logs as [|l logs IH]; intros i st cache last st' cache' last';
    cbn [module_loop].
  - intros [= <- _ _]. apply extends_refl.
  - destruct (module_step X lambda_logs module_stack i l (st, cache, last))
      as [[[st1 c1] l1]|] eqn:Hs; cbn [bind]; [|discriminate].
    intros H. apply IH in H. eapply extends_trans; [|exact H].
    unfold module_step in Hs.
    destruct (classify l) as [ie|]; cbn [bind] in Hs; [|discriminate].
    destruct (make_node_id l i) as [id|]; cbn [bind] in Hs; [|discriminate].
    destruct (py_get l "ContactFlowModuleType") as [mt|]; cbn [bind] in Hs;
      [|discriminate].
    apply dedup_emit_extends in Hs. eapply extends_trans; [|exact Hs].
    exists [], []. cbn. rewrite !app_nil_r. repeat split; auto.
    destruct (truthy ie); lia.
Qed.

Lemma add_edges_effect (dot : digraph) (nodes : list string) :
  g_nodes (add_edges dot nodes) = g_nodes dot /\
  g_edges (add_edges dot nodes) =
    g_edges dot ++ map (edge_at nodes)
                       (filter (first_occurrence nodes)
                               (seq 0 (List.length nodes - 1))).
Proof.
  destruct (add_edges_fold nodes dot (List.length nodes - 1)) as (Hn & He & _).
  split; [exact Hn | exact He].
Qed.

Lemma build_module_detail_shape (X : externals) (logs : list value) (lambda_logs : value)
    (errors : nat) (module_stack : string) (out : list diag) (st : bstate) :
  build_module_detail X logs lambda_logs errors module_stack out = Ret st ->
  in_step st /\
  g_edges (st_dot st) =
    map (edge_at (st_nodes st))
        (filter (first_occurrence (st_nodes st))
                (seq 0 (List.length (st_nodes st) - 1))) /\
  errors <= st_errors st /\
  exists printed, st_out st = out ++ printed.
Proof.
  unfold build_module_detail.
  destruct (sort_logs X logs) as [sorted|]; cbn [bind]; [|discriminate].
  destruct (module_loop X lambda_logs module_stack 0 sorted
              (mkState empty_graph [] errors out, [], JStr ""))
    as [[[s c] l]|] eqn:Hloop; cbn [bind]; [|discriminate].
  intros [= <-].
  apply module_loop_extends in Hloop.
  destruct Hloop as (new & printed & Hg & Hn & He & Hc & Ho).
  cbn in Hg, Hn, He, Hc, Ho.
  destruct (add_edges_effect (st_dot s) (st_nodes s)) as (Hnodes & Hedges).
  unfold in_step. cbn [st_dot st_nodes st_errors st_out].
  rewrite Hnodes, Hedges, He, Hg, Hn. cbn [app].
  repeat split; auto. eauto.
Qed.

Lemma py_eq_refl_hashable (v : value) : hashable v = true -> py_eq v v = true.
Proof.
  destruct v as [|b|z|s|l|d]; simpl; try discriminate; intros _.
  - reflexivity.
  - now destruct b.
  - apply Z.eqb_refl.
  - apply String.eqb_refl.
Qed.

Lemma dict_find_set {A : Type} (k : value) (v : A) (d : list (value * A)) :
  py_eq k k = true -> dict_find k (dict_set k v d) = Some v.
Proof.
  intros Hk. induction d as [|[k' v'] d IH]; cbn [dict_set dict_find].
  - now rewrite Hk.
  - destruct (py_eq k k') eqn:E; cbn [dict_find]; rewrite E; [reflexivity | exact IH].
Qed.

(** What the tail of [process_sub_flow] does to the parent. *)
Lemma sub_flow_node_effect (X : externals) (st st' : bstate)
    (l_nodes l_nodes' : list (value * string)) (l_name : value)
    (node_id node_title sub_file : string) (span : time_span) (n_logs : nat)
    (shown error_count : nat) (out : list diag) :
  sub_flow_node X st l_nodes l_name node_id node_title sub_file span n_logs
                shown error_count out
    = Ret (st', l_nodes') ->
  exists node,
    g_nodes (st_dot st') = g_nodes (st_dot st) ++ [node] /\
    n_id node = node_id /\
    n_module_type node = JStr node_title /\
    n_color node = (if (0 <? shown)%nat then "tomato" else "lightgray") /\
    st_nodes st' = st_nodes st ++ [node_id] /\
    g_edges (st_dot st') = g_edges (st_dot st) /\
    st_errors st' = error_count /\ st_out st' = out /\
    dict_find l_name l_nodes' = Some node_id.
Proof.
  unfold sub_flow_node. destruct (hashable l_name) eqn:Hh; [|discriminate].
  formatted_label X.
  intros [= <- <-]. eexists. cbn. repeat split.
  apply dict_find_set. now apply py_eq_refl_hashable.
Qed.

Lemma process_sub_flow_module_effect (X : externals) (st st' : bstate)
    (l_nodes l_nodes' : list (value * string)) (l_name : value) (node_id : string)
    (l_logs : list value) (contact_id lambda_logs : value) :
  process_sub_flow_module X st l_nodes l_name node_id l_logs contact_id lambda_logs
    = Ret (st', l_nodes') ->
  exists node printed,
    g_nodes (st_dot st') = g_nodes (st_dot st) ++ [node] /\
    n_id node = node_id /\
    n_module_type node = JStr "InvokeFlowModule" /\
    st_nodes st' = st_nodes st ++ [node_id] /\
    g_edges (st_dot st') = g_edges (st_dot st) /\
    st_errors st <= st_errors st' /\
    st_out st' = st_out st ++ printed /\
    dict_find l_name l_nodes' = Some node_id.
Proof.
  unfold process_sub_flow_module.
  destruct (scan_errors X l_logs (None, None) (st_errors st)) as [[span ec]|] eqn:Hscan; cbn [bind];
    [|discriminate].
  apply scan_errors_monotone in Hscan.
  destruct (read_contact_flow X contact_id) as [flow_logs|]; cbn [bind];
    [|discriminate].
  destruct (filterM _ flow_logs) as [arns|]; cbn [bind]; [|discriminate].
  destruct (match arns with | [] => _ | _ => _ end) as [flow_name|]; cbn [bind];
    [|discriminate].
  destruct (build_module_detail X l_logs lambda_logs 0 _ (st_out st)) as [sub|] eqn:Hsub;
    cbn [bind]; [|discriminate].
  destruct (build_module_detail_shape _ _ _ _ _ _ _ Hsub) as (_ & _ & _ & printed & Hp).
  intros H. destruct (sub_flow_node_effect _ _ _ _ _ _ _ _ _ _ _ _ _ _ H)
    as (node & Hg & Hid & Hty & _ & Hn & He & Herr & Hout & Hfind).
  exists node, printed. rewrite Herr, Hout, Hp. repeat split; auto. lia.
Qed.

Lemma flow_loop_extends (X : externals) (all_logs : list value)
    (contact_id lambda_logs : value) (module_stack : string) (logs : list value) :
  forall i st cache last mn st' cache' last' mn',
    flow_loop X all_logs contact_id lambda_logs module_stack i logs
              (st, cache, last, mn) = Ret (st', cache', last', mn') ->
    extends st st'.
Proof.
  induction logs as [|l logs IH]; intros i st cache last mn st' cache' last' mn';
    cbn [flow_loop].
  - intros [= <- _ _ _]. apply extends_refl.
  - destruct (flow_step X all_logs contact_id lambda_logs module_stack i l
                        (st, cache, last, mn))
      as [[[[st1 c1] l1] mn1]|] eqn:Hs; cbn [bind]; [|discriminate].
    intros H. apply IH in H. eapply extends_trans; [|exact H].
    unfold flow_step in Hs.
    destruct (classify l) as [ie|]; cbn [bind] in Hs; [|discriminate].
    destruct (make_node_id l i) as [id|]; cbn [bind] in Hs; [|discriminate].
    destruct (py_get l "ContactFlowModuleType") as [mt|]; cbn [bind] in Hs;
      [|discriminate].
    destruct (py_index l "ContactFlowName") as [name|]; cbn [bind] in Hs;
      [|discriminate].
    destruct (py_str_in "MOD_" name) as [[|]|]; cbn [bind] in Hs; [| |discriminate].
    + destruct (hashable name); [|discriminate].
      destruct (dict_find name mn).
      * injection Hs as <- _ _ _. apply extends_refl.
      * destruct (filterM _ all_logs) as [module_logs|]; cbn [bind] in Hs;
          [|discriminate].
        destruct (process_sub_flow_module X st mn name id module_logs contact_id
                                          lambda_logs) as [[st2 mn2]|] eqn:Hp;
          cbn [bind] in Hs; [|discriminate].
        injection Hs as <- _ _ _.
        destruct (process_sub_flow_module_effect _ _ _ _ _ _ _ _ _ _ Hp)
          as (node & printed & Hg & Hid & _ & Hn & He & Hc & Ho & _).
        exists [node], printed. cbn [map]. rewrite Hid. auto.
    + destruct (dedup_emit X lambda_logs module_stack mt l ie id st cache last)
        as [[[st2 c2] l2]|] eqn:Hd; cbn [bind] in Hs; [|discriminate].
      injection Hs as <- _ _ _. eapply dedup_emit_extends; eauto.
Qed.

Lemma build_contact_flow_detail_shape (X : externals) (logs : list value)
    (contact_id lambda_logs : value) (errors : nat) (module_stack : string)
    (out : list diag) (st : bstate) :
  build_contact_flow_detail X logs contact_id lambda_logs errors module_stack out
    = Ret st ->
  in_step st /\
  g_edges (st_dot st) =
    map (edge_at (st_nodes st))
        (filter (first_occurrence (st_nodes st))
                (seq 0 (List.length (st_nodes st) - 1))) /\
  errors <= st_errors st /\
  exists printed, st_out st = out ++ printed.
Proof.
  unfold build_contact_flow_detail.
  destruct (sort_logs X logs) as [sorted|]; cbn [bind]; [|discriminate].
  destruct (flow_loop X sorted contact_id lambda_logs module_stack 0 sorted
              (mkState empty_graph [] errors out, [], JStr "", []))
    as [[[[s c] l] mn]|] eqn:Hloop; cbn [bind]; [|discriminate].
  intros [= <-].
  apply flow_loop_extends in Hloop.
  destruct Hloop as (new & printed & Hg & Hn & He & Hc & Ho).
  cbn in Hg, Hn, He, Hc, Ho.
  destruct (add_edges_effect (st_dot s) (st_nodes s)) as (Hnodes & Hedges).
  unfold in_step. cbn [st_dot st_nodes st_errors st_out].
  rewrite Hnodes, Hedges, He, Hg, Hn. cbn [app].
  repeat split; auto. eauto.
Qed.

(** X5.  When [build_module_detail] or [build_contact_flow_detail] returns,
    the graph has one node statement per entry of the ordered node list, in
    the same order; its edges are exactly those of [add_edges] on that list
    (the loop adds none); the error count is at least the one passed in;
    and what had been printed before is a prefix of the output. *)
Theorem assembled_graph_shape (X : externals) (logs : list value)
    (contact_id lambda_logs : value) (errors : nat) (module_stack : string)
    (out : list diag) (st : bstate) :
  build_module_detail X logs lambda_logs errors module_stack out = Ret st \/
  build_contact_flow_detail X logs contact_id lambda_logs errors module_stack out
    = Ret st ->
  map n_id (g_nodes (st_dot st)) = st_nodes st /\
  g_edges (st_dot st) =
    map (edge_at (st_nodes st))
        (filter (first_occurrence (st_nodes st))
                (seq 0 (List.length (st_nodes st) - 1))) /\
  errors <= st_errors st /\
  exists printed, st_out st = out ++ printed.
Proof.
  intros [H | H].
  - exact (build_module_detail_shape _ _ _ _ _ _ _ H).
  - exact (build_contact_flow_detail_shape _ _ _ _ _ _ _ _ H).
Qed.

Lemma process_sub_flow_flow_effect (X : externals) (st st' : bstate)
    (l_nodes l_nodes' : list (value * string)) (l_name : value) (node_id : string)
    (l_logs : list value) (contact_id lambda_logs : value) :
  process_sub_flow_flow X st l_nodes l_name node_id l_logs contact_id lambda_logs
    = Ret (st', l_nodes') ->
  exists node printed,
    g_nodes (st_dot st') = g_nodes (st_dot st) ++ [node] /\
    n_id node = node_id /\
    n_module_type node = JStr "TransferToFlow" /\
    st_nodes st' = st_nodes st ++ [node_id] /\
    g_edges (st_dot st') = g_edges (st_dot st) /\
    st_errors st <= st_errors st' /\
    st_out st' = st_out st ++ printed /\
    dict_find l_name l_nodes' = Some node_id.
Proof.
  unfold process_sub_flow_flow.
  destruct (scan_errors X l_logs (None, None) (st_errors st)) as [[span ec]|] eqn:Hscan; cbn [bind];
    [|discriminate].
  apply scan_errors_monotone in Hscan.
  destruct (build_contact_flow_detail X l_logs contact_id lambda_logs ec _ (st_out st))
    as [sub|] eqn:Hsub; cbn [bind]; [|discriminate].
  destruct (build_contact_flow_detail_shape _ _ _ _ _ _ _ _ Hsub)
    as (_ & _ & Hle & printed & Hp).
  intros H. destruct (sub_flow_node_effect _ _ _ _ _ _ _ _ _ _ _ _ _ _ H)
    as (node & Hg & Hid & Hty & _ & Hn & He & Herr & Hout & Hfind).
  exists node, printed. rewrite Herr, Hout, Hp. repeat split; auto. lia.
Qed.

(** X6.  When [process_sub_flow] returns, the parent graph and node list
    have grown by exactly one node, the summary of the nested unit, with the
    given id, of type "InvokeFlowModule" or "TransferToFlow"; no edge was
    added; the unit is registered under its name with that id; the error
    count did not go down and the output was only appended to. *)
Theorem process_sub_flow_one_summary (X : externals) (flow_type : string)
    (st st' : bstate) (l_nodes l_nodes' : list (value * string)) (l_name : value)
    (node_id : string) (l_logs : list value) (contact_id lambda_logs : value) :
  process_sub_flow X flow_type st l_nodes l_name node_id l_logs contact_id lambda_logs
    = Ret (st', l_nodes') ->
  exists node printed,
    g_nodes (st_dot st') = g_nodes (st_dot st) ++ [node] /\
    n_id node = node_id /\
    n_module_type node =
      JStr (if String.eqb flow_type "module" then "InvokeFlowModule" else "TransferToFlow") /\
    st_nodes st' = st_nodes st ++ [node_id] /\
    g_edges (st_dot st') = g_edges (st_dot st) /\
    st_errors st <= st_errors st' /\
    st_out st' = st_out st ++ printed /\
    dict_find l_name l_nodes' = Some node_id.
Proof.
  unfold process_sub_flow.
  destruct (String.eqb flow_type "module").
  - apply process_sub_flow_module_effect.
  - destruct (String.eqb flow_type "flow").
    + apply process_sub_flow_flow_effect.
    + destruct (scan_errors X l_logs (None, None) (st_errors st)) as [[span ec]|]; cbn [bind]; discriminate.
Qed.

(** X5, worked. *)
Lemma assembled_graph_shape_witness :
  exists st,
    build_module_detail Demo.X Demo.error_second (JObj []) 0 "" [] = Ret st /\
    map n_id (g_nodes (st_dot st)) = st_nodes st.
Proof.
  destruct (build_module_detail Demo.X Demo.error_second (JObj []) 0 "" [])
    as [st|e] eqn:H; [|vm_compute in H; discriminate].
  exists st. split; [reflexivity|].
  exact (proj1 (assembled_graph_shape Demo.X Demo.error_second JNull (JObj []) 0 "" []
                  st (or_introl H))).
Defined.

(** X6, worked: a flow with one event inside a module. *)
Lemma process_sub_flow_one_summary_witness :
  exists st' l_nodes',
    process_sub_flow Demo.X "flow" Demo.no_state [] (JStr "Main") "c-1_n1"
                     [Demo.module_failure] (JStr "c-1") (JObj [])
      = Ret (st', l_nodes') /\
    st_nodes st' = ["c-1_n1"] /\ dict_find (JStr "Main") l_nodes' = Some "c-1_n1".
Proof.
  destruct (process_sub_flow Demo.X "flow" Demo.no_state [] (JStr "Main") "c-1_n1"
                             [Demo.module_failure] (JStr "c-1") (JObj []))
    as [[st' l_nodes']|e] eqn:H; [|vm_compute in H; discriminate].
  exists st', l_nodes'. split; [reflexivity|].
  destruct (process_sub_flow_one_summary _ _ _ _ _ _ _ _ _ _ _ H)
    as (node & printed & _ & _ & _ & Hn & _ & _ & _ & Hf).
  split; [exact Hn | exact Hf].
Defined.

(* ------------------------------------------------------------------ *)
(** ** Error counts *)

Lemma error_flag_split (r : value) (b : bool) (v : value) :
  results_has_keyword r = Ret b -> is_lambda_error r = Ret v ->
  error_flag r = keyword_flag r || lambda_flag r.
Proof.
  intros Hb Hv. unfold error_flag, classification, classify, keyword_flag, lambda_flag.
  rewrite Hb, Hv. cbn [bind]. destruct b; [reflexivity|]. rewrite ?Hv. reflexivity.
Qed.

Lemma sort_key_timestamp (X : externals) (r : value) (k : Z) :
  sort_key X r = Ret k -> exists text, timestamp_of X r = Ret (text, k).
Proof.
  unfold sort_key. destruct (timestamp_of X r) as [[text t]|]; cbn [bind snd];
    [|discriminate].
  intros [= <-]. eauto.
Qed.

Lemma comparable_aware (X : externals) (logs : list value) :
  comparable X logs = true ->
  exists a, Forall (fun r => aware X r = a) logs.
Proof.
  destruct logs as [|x rest]; cbn [comparable]; intros H.
  - exists true. constructor.
  - exists (aware X x). constructor; [reflexivity|].
    rewrite forallb_forall in H. apply Forall_forall. intros y Hy.
    apply eqb_prop. exact (H y Hy).
Qed.

Lemma scan_errors_uniform (X : externals) (a : bool) (logs : list value) :
  Forall (scannable X) logs ->
  Forall (fun r => aware X r = a) logs ->
  forall span n,
    span_aware X a span ->
    exists span',
      span_aware X a span' /\
      scan_errors X logs span n =
        Ret (span', n + List.length (filter keyword_flag logs)
                      + List.length (filter lambda_flag logs)).
Proof.
  intros Hall. induction Hall as [|r logs ((k & Hk) & (b & Hb) & (v & Hv)) _ IH];
    intros Haw span n Hspan.
  - exists span. split; [exact Hspan|]. cbn. do 2 f_equal. lia.
  - apply Forall_cons_iff in Haw. destruct Haw as [Hr Hrest].
    destruct (sort_key_timestamp X r k Hk) as (text & Ht).
    unfold aware in Hr. rewrite Ht in Hr. cbn [fst] in Hr.
    cbn [scan_errors]. rewrite Ht. cbn [bind].
    destruct Hspan as [Hmin Hmax].
    assert (Hmn : exists mn,
               match fst span with
               | None => Ret (text, k)
               | Some m => earlier <- datetime_lt X (text, k) m ;;
                           Ret (if earlier then (text, k) else m)
               end = Ret mn /\ has_utc_offset X (fst mn) = a).
    { destruct (fst span) as [m|] eqn:Hm.
      - unfold datetime_lt. cbn [fst snd]. rewrite (Hmin m eq_refl), Hr.
        rewrite eqb_reflx. cbn [bind].
        destruct (k <? snd m)%Z; eexists; split; try reflexivity;
          [exact Hr | exact (Hmin m eq_refl)].
      - eexists. split; [reflexivity | exact Hr]. }
    destruct Hmn as (mn & -> & Hmna). cbn [bind].
    assert (Hmx : exists mx,
               match snd span with
               | None => Ret (text, k)
               | Some m => later <- datetime_lt X m (text, k) ;;
                           Ret (if later then (text, k) else m)
               end = Ret mx /\ has_utc_offset X (fst mx) = a).
    { destruct (snd span) as [m|] eqn:Hm.
      - unfold datetime_lt. cbn [fst snd]. rewrite (Hmax m eq_refl), Hr.
        rewrite eqb_reflx. cbn [bind].
        destruct (snd m <? k)%Z; eexists; split; try reflexivity;
          [exact Hr | exact (Hmax m eq_refl)].
      - eexists. split; [reflexivity | exact Hr]. }
    destruct Hmx as (mx & -> & Hmxa). cbn [bind].
    rewrite Hb, Hv. cbn [bind].
    destruct (IH Hrest (Some mn, Some mx)
                (if truthy v then S (if b then S n else n) else (if b then S n else n)))
      as (span' & Hspan' & Hscan).
    { split; cbn [fst snd]; intros t [= <-]; assumption. }
    exists span'. split; [exact Hspan'|]. rewrite Hscan.
    cbn [filter]. unfold keyword_flag at 2, lambda_flag at 2. rewrite Hb, Hv.
    do 2 f_equal. destruct b, (truthy v); cbn [List.length]; lia.
Qed.

(** X7.  On events it can read, whose timestamps are all naive or all
    aware, the scan loop of [process_sub_flow] returns, and adds to the
    error count the number of events whose result text has a keyword plus
    the number of events that are failed external invocations: every event
    classified as an error is counted, and an event that is both is counted
    twice. *)
Theorem scan_errors_counts (X : externals) (logs : list value) (n : nat) :
  Forall (scannable X) logs ->
  comparable X logs = true ->
  let both r := keyword_flag r && lambda_flag r in
  (exists span,
     scan_errors X logs (None, None) n =
       Ret (span, n + List.length (filter keyword_flag logs)
                    + List.length (filter lambda_flag logs))) /\
  List.length (filter keyword_flag logs) + List.length (filter lambda_flag logs) =
    count_errors logs + List.length (filter both logs).
Proof.
  intros Hall Hcmp both. split.
  - destruct (comparable_aware X logs Hcmp) as (a & Haw).
    destruct (scan_errors_uniform X a logs Hall Haw (None, None) n)
      as (span & _ & Hscan).
    { split; cbn [fst snd]; intros t; discriminate. }
    exists span. exact Hscan.
  - clear Hcmp.
    induction Hall as [|r logs (_ & (b & Hb) & (v & Hv)) _ IH]; [reflexivity|].
    unfold count_errors in *. cbn [filter].
    rewrite (error_flag_split r b v Hb Hv). subst both. cbn beta in *.
    destruct (keyword_flag r), (lambda_flag r); cbn [orb andb List.length]; lia.
Qed.

(** X7, worked: one event that is an error on both counts. *)
Lemma scan_errors_counts_witness :
  (exists span, scan_errors Demo.X [Demo.double_failure] (None, None) 0 = Ret (span, 2)) /\
  count_errors [Demo.double_failure] = 1.
Proof.
  destruct (scan_errors_counts Demo.X [Demo.double_failure] 0) as [(span & H) _].
  - repeat constructor; eexists; vm_compute; reflexivity.
  - reflexivity.
  - split; [exists span; rewrite H; vm_compute; reflexivity | vm_compute; reflexivity].
Defined.

Lemma add_block_nodes_no_lambda (X : externals) (module_type log is_error : value)
    (st st' : bstate) (node_id : string) (lambda_logs : value) (module_stack : string) :
  py_len lambda_logs = Ret 0 ->
  add_block_nodes X module_type log is_error st node_id lambda_logs module_stack
    = Ret st' ->
  st_errors st' = st_errors st /\ st_out st' = st_out st /\
  st_nodes st' = st_nodes st ++ [node_id].
Proof.
  intros Hlen. unfold add_block_nodes. formatted_text X.
  destruct (py_get_default log "Parameters" (JObj [])) as [params|]; cbn [bind];
    [|discriminate].
  destruct (define_module_type module_type params) as [mt|]; cbn [bind];
    [|discriminate].
  destruct (get_module_name_ko (flow_translation_map X) mt log) as [title|];
    cbn [bind]; [|discriminate].
  formatted_label X.
  rewrite Hlen. cbn [bind Nat.ltb Nat.leb].
  destruct (py_eq mt (JStr "InvokeExternalResource")); intros [= <-]; auto.
Qed.

Lemma flush_keeps_count (X : externals) (module_type last : value) (st st1 : bstate)
    (cache cache1 : node_cache) :
  (if (0 <? List.length cache)%nat && negb (py_eq module_type last)
   then '(dot, nodes) <- dup_block_sanitize X cache (st_dot st) (st_nodes st) ;;
        Ret (mkState dot nodes (st_errors st) (st_out st), [])
   else Ret (st, cache)) = Ret (st1, cache1) ->
  st_errors st1 = st_errors st /\ st_out st1 = st_out st.
Proof.
  destruct ((0 <? List.length cache)%nat && negb (py_eq module_type last)).
  - destruct (dup_block_sanitize _ cache _ _) as [[d n]|]; cbn [bind]; [|discriminate].
    intros [= <- _]. auto.
  - intros [= <- _]. auto.
Qed.

Lemma dedup_emit_no_lambda (X : externals) (lambda_logs : value) (module_stack : string)
    (module_type log is_error : value) (node_id : string) (st st' : bstate)
    (cache cache' : node_cache) (last last' : value) :
  py_len lambda_logs = Ret 0 ->
  dedup_emit X lambda_logs module_stack module_type log is_error node_id st cache last
    = Ret (st', cache', last') ->
  st_errors st' = st_errors st /\ st_out st' = st_out st.
Proof.
  intros Hlen. unfold dedup_emit.
  destruct (in_consts module_type DUP_CONTACT_FLOW_MODULE_TYPE).
  - destruct (add_node_cache module_type cache node_id log is_error); cbn [bind];
      [|discriminate].
    destruct (py_get_v log module_type); cbn [bind]; [|discriminate].
    intros [= <- _ _]. auto.
  - destruct (if (0 <? List.length cache)%nat && negb (py_eq module_type last)
              then _ else _) as [[st1 cache1]|] eqn:Hf; cbn [bind]; [|discriminate].
    apply flush_keeps_count in Hf. destruct Hf as [He Ho].
    destruct (negb (in_consts module_type OMIT_CONTACT_FLOW_MODULE_TYPE)).
    + destruct (add_block_nodes X module_type log is_error st1 node_id lambda_logs
                                module_stack) as [st2|] eqn:Ha; cbn [bind];
        [|discriminate].
      intros [= <- _ _].
      destruct (add_block_nodes_no_lambda _ _ _ _ _ _ _ _ _ Hlen Ha) as (H1 & H2 & _).
      rewrite H1, H2. auto.
    + intros [= <- _ _]. auto.
Qed.

Lemma module_loop_count (X : externals) (lambda_logs : value) (module_stack : string)
    (logs : list value) :
  forall i st cache last st' cache' last',
    module_loop X lambda_logs module_stack i logs (st, cache, last)
      = Ret (st', cache', last') ->
    st_errors st + count_errors logs <= st_errors st' /\
    (py_len lambda_logs = Ret 0 ->
     st_errors st' = st_errors st + count_errors logs /\ st_out st' = st_out st).
Proof.
  induction logs as [|l logs IH]; intros i st cache last st' cache' last';
    cbn [module_loop].
  - intros [= <- _ _]. unfold count_errors. cbn. split; [lia|]. intros _. split; [lia|auto].
  - destruct (module_step X lambda_logs module_stack i l (st, cache, last))
      as [[[st1 c1] l1]|] eqn:Hs; cbn [bind]; [|discriminate].
    intros H. apply IH in H. destruct H as [Hle Heq].
    unfold module_step in Hs.
    destruct (classify l) as [ie|] eqn:Hcl; cbn [bind] in Hs; [|discriminate].
    destruct (make_node_id l i) as [id|]; cbn [bind] in Hs; [|discriminate].
    destruct (py_get l "ContactFlowModuleType") as [mt|]; cbn [bind] in Hs;
      [|discriminate].
    assert (Hflag : count_errors (l :: logs) =
                    (if truthy ie then 1 else 0) + count_errors logs).
    { unfold count_errors. cbn [filter]. unfold error_flag, classification.
      rewrite Hcl. destruct (truthy ie); reflexivity. }
    rewrite Hflag. split.
    + apply dedup_emit_extends in Hs. destruct Hs as (_ & _ & _ & _ & _ & Hc & _).
      cbn in Hc. destruct (truthy ie); lia.
    + intros Hlen. destruct (Heq Hlen) as [He Ho].
      destruct (dedup_emit_no_lambda _ _ _ _ _ _ _ _ _ _ _ _ _ Hlen Hs) as [He1 Ho1].
      cbn in He1, Ho1. rewrite He, Ho, He1, Ho1.
      split; [destruct (truthy ie); lia | reflexivity].
Qed.

Lemma count_errors_perm (l l' : list value) :
  Permutation l l' -> count_errors l = count_errors l'.
Proof.
  unfold count_errors. induction 1; cbn [filter]; try congruence.
  - destruct (error_flag x); cbn [List.length]; congruence.
  - destruct (error_flag x), (error_flag y); reflexivity.
Qed.

Lemma sort_logs_perm (X : externals) (logs sorted : list value) :
  sort_logs X logs = Ret sorted -> Permutation logs sorted.
Proof.
  unfold sort_logs.
  destruct (mapM (sort_key X) logs) as [keys|] eqn:Hk; cbn [bind]; [|discriminate].
  destruct (comparable X logs); [|discriminate].
  intros [= <-].
  rewrite <- (map_snd_combine keys logs (mapM_length _ _ _ Hk)) at 1.
  apply Permutation_map, sort_keyed_perm.
Qed.

(** X8.  The error count [build_module_detail] returns is at least the
    count passed in plus the number of events classified as errors, each
    counted once whatever the order of the input; without lambda logs it is
    exactly that, and nothing is printed. *)
Theorem build_module_detail_count (X : externals) (logs : list value)
    (lambda_logs : value) (errors : nat) (module_stack : string) (out : list diag)
    (st : bstate) :
  build_module_detail X logs lambda_logs errors module_stack out = Ret st ->
  errors + count_errors logs <= st_errors st /\
  (py_len lambda_logs = Ret 0 ->
   st_errors st = errors + count_errors logs /\ st_out st = out).
Proof.
  unfold build_module_detail.
  destruct (sort_logs X logs) as [sorted|] eqn:Hsort; cbn [bind]; [|discriminate].
  apply sort_logs_perm in Hsort. rewrite (count_errors_perm _ _ Hsort).
  destruct (module_loop X lambda_logs module_stack 0 sorted
              (mkState empty_graph [] errors out, [], JStr ""))
    as [[[s c] l]|] eqn:Hloop; cbn [bind]; [|discriminate].
  intros [= <-]. apply module_loop_count in Hloop. exact Hloop.
Qed.

(** X8, worked. *)
Lemma build_module_detail_count_witness :
  exists st,
    build_module_detail Demo.X Demo.error_second (JObj []) 0 "" [] = Ret st /\
    st_errors st = 1.
Proof.
  destruct (build_module_detail Demo.X Demo.error_second (JObj []) 0 "" [])
    as [st|e] eqn:H; [|vm_compute in H; discriminate].
  exists st. split; [reflexivity|].
  destruct (build_module_detail_count _ _ _ _ _ _ _ H) as [_ Heq].
  destruct (Heq eq_refl) as [-> _]. vm_compute. reflexivity.
Defined.

(* ------------------------------------------------------------------ *)
(** ** The cache and its flush *)

(** X9.  When the node of every bucket of the cache can be formatted,
    [dup_block_sanitize] returns; it adds one box-shaped node per bucket,
    in the order the buckets were created, with the id the bucket got from
    its first event and the colour of the bucket's error flag, to the graph
    and to the node list alike, and adds no edge.  On buckets of an
    aggregatable module type each node has the module type of its
    bucket. *)
Theorem dup_block_sanitize_one_node_per_bucket (X : externals)
    (c : node_cache) (dot : digraph) (nodes : list string) :
  Forall (fun kb => formatted X (snd kb)) c ->
  exists new,
    dup_block_sanitize X c dot nodes =
      Ret (mkGraph (g_nodes dot ++ new) (g_edges dot), nodes ++ map n_id new) /\
    map n_id new = map (fun kb => nd_id (snd kb)) c /\
    map n_color new = map (fun kb => error_color (nd_is_error (snd kb))) c /\
    map n_shape new = map (fun _ => "box") c /\
    (typed_cache c ->
     map n_module_type new = map (fun kb => nd_module_type (snd kb)) c).
Proof.
  intros Hc. revert dot nodes.
  induction Hc as [|[k b] c (n & Hn) _ IH]; intros dot nodes.
  - exists []. cbn. rewrite !app_nil_r. destruct dot. repeat split.
  - cbn [snd] in Hn.
    destruct (bucket_node_shape X b n Hn) as (Hbi & Hbs & Hbc & _ & Hmt & _).
    cbn [dup_block_sanitize]. rewrite Hn. cbn [bind].
    destruct (IH (dot_node dot n) (nodes ++ [nd_id b]))
      as (new & Hrun & Hid & Hcol & Hsh & Hty).
    exists (n :: new). rewrite Hrun. cbn [dot_node g_nodes g_edges map snd].
    rewrite <- !app_assoc, Hid, Hcol, Hsh, Hbi, Hbs, Hbc. cbn [app].
    repeat split.
    intros Htc. apply Forall_cons_iff in Htc. destruct Htc as [(T & HT & HbT) Htc].
    cbn [snd] in HbT. rewrite (Hty Htc). f_equal.
    rewrite HbT, (dup_not_set_contact_flow T HT) in Hmt.
    injection Hmt as <-. symmetry. exact HbT.
Qed.

Lemma typed_cache_example :
  typed_cache [((JStr "F", JStr "SetAttributes"),
                run_bucket "F" "SetAttributes"
                           (Demo.set_attr Demo.at_1000 "F" "a" "1" []) 0
                           [Demo.set_attr Demo.at_1000 "F" "a" "1" []])].
Proof.
  repeat constructor. exists "SetAttributes". split; [simpl; tauto | reflexivity].
Qed.

(** X9, worked: a cache with one bucket. *)
Lemma dup_block_sanitize_one_node_per_bucket_witness :
  exists dot nodes,
    dup_block_sanitize Demo.X
      [((JStr "F", JStr "SetAttributes"),
        run_bucket "F" "SetAttributes"
                   (Demo.set_attr Demo.at_1000 "F" "a" "1" []) 0
                   [Demo.set_attr Demo.at_1000 "F" "a" "1" []])]
      empty_graph [] = Ret (dot, nodes) /\
    nodes = ["2024-01-01T000001000Z_0"] /\
    map n_module_type (g_nodes dot) = [JStr "SetAttributes"].
Proof.
  destruct (dup_block_sanitize_one_node_per_bucket Demo.X
              [((JStr "F", JStr "SetAttributes"),
                run_bucket "F" "SetAttributes"
                           (Demo.set_attr Demo.at_1000 "F" "a" "1" []) 0
                           [Demo.set_attr Demo.at_1000 "F" "a" "1" []])]
              empty_graph [])
    as (new & Hrun & Hid & _ & _ & Hty).
  - repeat constructor. eexists. vm_compute. reflexivity.
  - eexists _, _. split; [exact Hrun|]. split.
    + rewrite Hid. vm_compute. reflexivity.
    + cbn [g_nodes empty_graph app]. rewrite (Hty typed_cache_example).
      reflexivity.
Defined.

Lemma total_parameters_cons (k : cache_key) (b : node_data) (c : node_cache) :
  total_parameters ((k, b) :: c) = List.length (nd_Parameters b) + total_parameters c.
Proof. reflexivity. Qed.

Lemma cache_append_effect (k : cache_key) (p : value) (c : node_cache) :
  cache_mem k c = true ->
  map fst (cache_append k p c) = map fst c /\
  map (fun kb => nd_id (snd kb)) (cache_append k p c) = map (fun kb => nd_id (snd kb)) c /\
  map (fun kb => nd_is_error (snd kb)) (cache_append k p c)
    = map (fun kb => nd_is_error (snd kb)) c /\
  total_parameters (cache_append k p c) = S (total_parameters c) /\
  cache_mem k (cache_append k p c) = true.
Proof.
  induction c as [|[k' b] c IH]; cbn [cache_mem cache_append]; [discriminate|].
  destruct (key_eqb k k') eqn:Hk; cbn [orb].
  - intros _. rewrite !total_parameters_cons. cbn [map fst snd cache_mem].
    rewrite Hk. unfold append_parameters. cbn [nd_id nd_is_error nd_Parameters].
    rewrite length_app. cbn [List.length]. repeat split. lia.
  - intros Hm. destruct (IH Hm) as (H1 & H2 & H3 & H4 & H5).
    rewrite !total_parameters_cons. cbn [map fst snd cache_mem].
    rewrite Hk, H1, H2, H3, H4, H5. repeat split. lia.
Qed.

(** X10.  When [add_node_cache] returns, the cache has a bucket for the
    key [(ContactFlowName, module_type)] of the event and holds exactly one
    more parameter entry.  If the key was there, no bucket is added and the
    keys, the node ids and the error flags of all buckets are as before;
    otherwise one bucket is appended after the others, with the given node
    id and error flag and the parameters of the event as its only entry. *)
Theorem add_node_cache_lookup (module_type : value) (c c' : node_cache)
    (node_id : string) (log is_error : value) :
  add_node_cache module_type c node_id log is_error = Ret c' ->
  exists name,
    py_index log "ContactFlowName" = Ret name /\
    cache_mem (name, module_type) c' = true /\
    total_parameters c' = S (total_parameters c) /\
    (cache_mem (name, module_type) c = true ->
     map fst c' = map fst c /\
     map (fun kb => nd_id (snd kb)) c' = map (fun kb => nd_id (snd kb)) c /\
     map (fun kb => nd_is_error (snd kb)) c' = map (fun kb => nd_is_error (snd kb)) c) /\
    (cache_mem (name, module_type) c = false ->
     exists b, c' = c ++ [((name, module_type), b)] /\
               nd_id b = node_id /\ nd_is_error b = is_error /\
               nd_Parameters b = [event_parameters log]).
Proof.
  unfold add_node_cache.
  destruct (py_get_default log "Parameters" (JObj [])) as [params|] eqn:Hp; cbn [bind];
    [|discriminate].
  destruct (py_index log "ContactFlowName") as [name|]; cbn [bind]; [|discriminate].
  destruct (hashable name && hashable module_type) eqn:Hh; [|discriminate].
  apply andb_true_iff in Hh. destruct Hh as [Hh1 Hh2].
  assert (Hrefl : key_eqb (name, module_type) (name, module_type) = true).
  { unfold key_eqb. cbn. now rewrite !py_eq_refl_hashable. }
  assert (Hparams : params = event_parameters log).
  { destruct log; try discriminate. cbn in Hp. now injection Hp as <-. }
  destruct (cache_mem (name, module_type) c) eqn:Hm.
  - intros [= <-]. exists name.
    destruct (cache_append_effect (name, module_type) params c Hm)
      as (H1 & H2 & H3 & H4 & H5).
    split; [reflexivity|]. split; [exact H5|]. split; [exact H4|].
    split; [intros _; auto | intros Hf; congruence].
  - destruct (py_index log "Timestamp") as [ts|]; cbn [bind]; [|discriminate].
    destruct (py_index log "Identifier") as [ident|]; cbn [bind]; [|discriminate].
    intros [= <-]. exists name. split; [reflexivity|].
    split; [rewrite cache_mem_last, Hrefl; apply orb_true_r|].
    split.
    + unfold total_parameters. rewrite map_app, list_sum_app.
      cbn [map list_sum fold_right snd nd_Parameters List.length]. lia.
    + split; [intros Hf; congruence|]. intros _. eexists. split; [reflexivity|].
      cbn. rewrite Hparams. auto.
Qed.

(** X10, worked: the second event of a run joins the bucket of the
    first. *)
Lemma add_node_cache_lookup_witness :
  exists c1 c2,
    add_node_cache (JStr "SetAttributes") [] "n_0"
                   (Demo.set_attr Demo.at_1000 "F" "a" "1" []) (JBool false) = Ret c1 /\
    add_node_cache (JStr "SetAttributes") c1 "n_1"
                   (Demo.failed_attr Demo.at_2000) (JBool true) = Ret c2 /\
    List.length c2 = 1 /\ total_parameters c2 = 2 /\
    map (fun kb => nd_is_error (snd kb)) c2 = [JBool false].
Proof.
  destruct (add_node_cache (JStr "SetAttributes") [] "n_0"
              (Demo.set_attr Demo.at_1000 "F" "a" "1" []) (JBool false))
    as [c1|e] eqn:H1; [|vm_compute in H1; discriminate].
  destruct (add_node_cache (JStr "SetAttributes") c1 "n_1"
              (Demo.failed_attr Demo.at_2000) (JBool true))
    as [c2|e] eqn:H2;
    [|vm_compute in H1; injection H1 as <-; vm_compute in H2; discriminate].
  exists c1, c2. split; [reflexivity|]. split; [exact H2|].
  destruct (add_node_cache_lookup _ _ _ _ _ _ H2) as (name & _ & _ & Ht & _).
  vm_compute in H1. injection H1 as <-. vm_compute in H2. injection H2 as <-.
  repeat split.
Defined.

(* ------------------------------------------------------------------ *)
(** ** The candidates for a trace *)

Lemma match_step_effect (X : externals) (contact_id : value)
    (t t' : list value) (p p' l : value) :
  match_step X contact_id (t, p) l = Ret (t', p') ->
  t' = t \/
  (t' = t ++ [l] /\
   exists c, py_get l "ContactId" = Ret c /\ py_eq c contact_id = true).
Proof.
  unfold match_step.
  destruct (py_get l "ContactId") as [c|] eqn:Hc; cbn [bind]; [|discriminate].
  destruct (py_eq c contact_id) eqn:He; [|intros [= <- _]; now left].
  destruct (py_get_default l "message" (JStr "")) as [msg|]; cbn [bind]; [|discriminate].
  destruct (py_str_in "parameter" msg) as [[|]|]; cbn [bind]; [| |discriminate].
  - destruct (py_get l "parameters") as [fp|]; cbn [bind]; [|discriminate].
    match goal with |- (if ?b then _ else _) = _ -> _ => destruct b end.
    + intros [= <- _]. right. split; [reflexivity|]. now exists c.
    + intros [= <- _]. now left.
  - destruct (py_str_in "Event" msg) as [[|]|]; cbn [bind]; [| |discriminate].
    + destruct p; cbn [bind]; try discriminate.
      destruct (py_get l "event") as [ev|]; cbn [bind]; [|discriminate].
      destruct (truthy ev); [|intros [= <- _]; now left].
      destruct (py_index ev "Details") as [details|]; cbn [bind]; [|discriminate].
      destruct (py_index details "Parameters") as [fp|]; cbn [bind]; [|discriminate].
      destruct (py_get fp "varsConfig") as [fv|]; cbn [bind]; [|discriminate].
      match goal with |- (x <- ?m ;; _) = _ -> _ => destruct m as [lv|] end;
        cbn [bind]; [|discriminate].
      cbv zeta.
      match goal with |- (if ?b then _ else _) = _ -> _ => destruct b end.
      * intros [= <- _]. right. split; [reflexivity|]. now exists c.
      * intros [= <- _]. now left.
    + intros [= <- _]. now left.
Qed.

Lemma subseq_nil_l {A : Type} (l : list A) : subseq [] l.
Proof. induction l; constructor; assumption. Qed.

Lemma last_cons_default {A : Type} (l : list A) :
  forall x d : A, last (x :: l) d = last l x.
Proof.
  induction l as [|y l IH]; intros x d; [reflexivity|].
  change (last (x :: y :: l) d) with (last (y :: l) d).
  rewrite !IH. reflexivity.
Qed.

Lemma match_loop_effect (X : externals) (contact_id : value) (fl : list value) :
  forall (chk chk' : value) (t t' : list value) (p p' : value),
    match_loop X contact_id fl chk (t, p) = (chk', Ret (t', p')) ->
    chk' = last fl chk /\
    exists added,
      t' = t ++ added /\ subseq added fl /\
      Forall (fun l => exists c, py_get l "ContactId" = Ret c /\
                                 py_eq c contact_id = true) added.
Proof.
  induction fl as [|l fl IH]; intros chk chk' t t' p p'; cbn [match_loop].
  - intros [= <- <- _]. split; [reflexivity|].
    exists []. rewrite app_nil_r. repeat split; constructor.
  - destruct (match_step X contact_id (t, p) l) as [[t1 p1]|e] eqn:Hs; [|discriminate].
    intros H. destruct (IH _ _ _ _ _ _ H) as (Hchk & added & -> & Hsub & Hall).
    split.
    { rewrite Hchk. symmetry. apply last_cons_default. }
    destruct (match_step_effect _ _ _ _ _ _ _ Hs) as [-> | [-> Hc]].
    + exists added. repeat split; [now constructor | assumption].
    + exists (l :: added). rewrite <- app_assoc. repeat split.
      * now constructor.
      * now constructor.
Qed.

(** X11.  The candidates [add_block_nodes] finds for an invocation are
    entries of the log of the invoked function, in the order of that log,
    all of the contact of the event; [check_log] is the entry the loop
    looked at last. *)
Theorem find_target_logs_sound (X : externals) (log lambda_logs : value)
    (function_name : string) (check_log contact_id : value)
    (function_logs target_logs : list value) (log_parameters : value) :
  find_target_logs X log lambda_logs function_name
    = (check_log, Ret (function_logs, contact_id, target_logs, log_parameters)) ->
  py_get_default lambda_logs function_name (JList []) = Ret (JList function_logs) /\
  py_get log "ContactId" = Ret contact_id /\
  check_log = last function_logs JNull /\
  subseq target_logs function_logs /\
  Forall (fun l => exists c, py_get l "ContactId" = Ret c /\
                             py_eq c contact_id = true) target_logs.
Proof.
  unfold find_target_logs.
  destruct (py_get_default lambda_logs function_name (JList [])) as [fl|];
    cbn [bind]; [|discriminate].
  destruct fl as [| | | |fl|]; try discriminate.
  destruct (py_get log "ContactId") as [cid|]; cbn [bind]; [|discriminate].
  destruct (py_get_default log "Parameters" (JList [])) as [p|]; cbn [bind];
    [|discriminate].
  destruct (py_get_default p "Parameters" (JList [])) as [lp|]; cbn [bind];
    [|discriminate].
  destruct (mapM (fun l => py_get l "ContactId") fl) as [ids|]; cbn [bind];
    [|discriminate].
  destruct (match_loop X cid fl JNull ([], lp)) as [chk [[t p']|e]] eqn:Hm;
    [|discriminate].
  intros [= <- <- <- <- _].
  destruct (match_loop_effect _ _ _ _ _ _ _ _ _ Hm) as (Hchk & added & Ht & Hsub & Hall).
  cbn in Ht. subst t. repeat split; assumption.
Qed.

(** X11, worked: of three lines of the log of "fn", the two with the
    parameters of the event are the candidates. *)
Lemma find_target_logs_sound_witness :
  exists chk targets,
    find_target_logs Demo.X (Demo.invoke Demo.at_1000) Demo.fn_logs "fn"
      = (chk, Ret (Demo.fn_lines, JStr "c-1", targets, JObj [("x", JNum 1)])) /\
    subseq targets Demo.fn_lines /\ List.length targets = 2.
Proof.
  assert (H : find_target_logs Demo.X (Demo.invoke Demo.at_1000) Demo.fn_logs "fn"
              = (Demo.candidate Demo.at_3000 "t-2",
                 Ret (Demo.fn_lines, JStr "c-1",
                      [Demo.candidate Demo.at_1050 "t-1";
                       Demo.candidate Demo.at_3000 "t-2"],
                      JObj [("x", JNum 1)])))
    by (vm_compute; reflexivity).
  eexists _, _. split; [exact H|].
  destruct (find_target_logs_sound _ _ _ _ _ _ _ _ _ H) as (_ & _ & _ & Hsub & _).
  split; [exact Hsub | reflexivity].
Defined.

(** X4, worked: an invocation with one candidate gets its own node and
    the node of the trace. *)
Lemma add_block_nodes_shape_witness :
  exists st',
    add_block_nodes Demo.X (JStr "InvokeExternalResource") (Demo.invoke Demo.at_1000)
      JNull Demo.no_state "n_0" Demo.fn_logs "" = Ret st' /\
    List.length (g_nodes (st_dot st')) = 2 /\ g_edges (st_dot st') = [].
Proof.
  destruct (add_block_nodes Demo.X (JStr "InvokeExternalResource")
              (Demo.invoke Demo.at_1000) JNull Demo.no_state "n_0" Demo.fn_logs "")
    as [st'|e] eqn:H; [|vm_compute in H; discriminate].
  exists st'. split; [reflexivity|].
  destruct (add_block_nodes_shape _ _ _ _ _ _ _ _ _ H)
    as (node & extra & printed & Hg & _ & _ & _ & _ & _ & He & _).
  rewrite He. split; [|reflexivity].
  vm_compute in H. injection H as <-. reflexivity.
Defined.

(* ------------------------------------------------------------------ *)
(** ** Linking the contacts *)

Lemma dict_index_find {A : Type} (k : value) (d : list (value * A)) (v : A) :
  dict_index k d = Ret v -> dict_find k d = Some v.
Proof.
  unfold dict_index. destruct (hashable k); [|discriminate].
  destruct (dict_find k d); [|discriminate]. now intros [= ->].
Qed.

Lemma positive_length (l : list string) : (0 <? List.length l)%nat = true -> l <> [].
Proof. destruct l; [discriminate | discriminate]. Qed.

Lemma link_contact_effect (subgraphs : list value)
    (subgraph_nodes : list (value * list string))
    (contact contact_id prev_id related_id : value) (dot dot' : digraph) :
  link_contact subgraphs subgraph_nodes contact contact_id prev_id related_id dot
    = Ret dot' ->
  dot' = dot \/
  exists e, dot' = dot_edge dot e /\ linking_edge subgraph_nodes e /\
            first_of subgraph_nodes (e_head e) /\
            dict_find contact_id subgraph_nodes <> None.
Proof.
  unfold link_contact.
  assert (Hedge : forall k nodes own label dir,
            dict_index k subgraph_nodes = Ret nodes ->
            (0 <? List.length nodes)%nat = true ->
            dict_index contact_id subgraph_nodes = Ret own ->
            (0 <? List.length own)%nat = true ->
            exists e,
              dot_edge dot (mkEdge (last nodes "") (hd "" own) label dir) = dot_edge dot e /\
              linking_edge subgraph_nodes e /\ first_of subgraph_nodes (e_head e) /\
              dict_find contact_id subgraph_nodes <> None).
  { intros k nodes own label dir Hk Hn Ho Hon.
    apply dict_index_find in Hk. apply dict_index_find in Ho.
    apply positive_length in Hn. apply positive_length in Hon.
    assert (Hf : first_of subgraph_nodes (hd "" own)) by (exists contact_id, own; auto).
    eexists. split; [reflexivity|]. split; [|split; [exact Hf | congruence]].
    split; [exact Hf|]. right. exists k, nodes. auto. }
  destruct (truthy related_id).
  - destruct (dict_index related_id subgraph_nodes) as [rel|] eqn:Hr; cbn [bind];
      [|discriminate].
    destruct (0 <? List.length rel)%nat eqn:Hrn.
    + destruct (dict_index contact_id subgraph_nodes) as [own|] eqn:Ho; cbn [bind];
        [|discriminate].
      destruct (0 <? List.length own)%nat eqn:Hon.
      * intros [= <-]. right. eapply Hedge; eauto.
      * destruct (truthy prev_id); cbn [bind].
        -- destruct (hashable prev_id); cbn [bind]; [|discriminate].
           destruct (existsb (py_eq prev_id) subgraphs); cbn [bind].
           ++ destruct (dict_index prev_id subgraph_nodes) as [pn|] eqn:Hp;
                cbn [bind]; [|discriminate].
              destruct (0 <? List.length pn)%nat; cbn [bind].
              ** cbn [bind]. intros [= <-]. now left.
              ** intros [= <-]. now left.
           ++ intros [= <-]. now left.
        -- intros [= <-]. now left.
    + cbn [bind].
      destruct (truthy prev_id); cbn [bind].
      * destruct (hashable prev_id); cbn [bind]; [|discriminate].
        destruct (existsb (py_eq prev_id) subgraphs); cbn [bind].
        -- destruct (dict_index prev_id subgraph_nodes) as [pn|] eqn:Hp;
             cbn [bind]; [|discriminate].
           destruct (0 <? List.length pn)%nat eqn:Hpn; cbn [bind].
           ++ destruct (dict_index contact_id subgraph_nodes) as [own|] eqn:Ho;
                cbn [bind]; [|discriminate].
              destruct (0 <? List.length own)%nat eqn:Hon; cbn [bind].
              ** destruct (py_get contact "InitiationMethod") as [m|]; cbn [bind];
                   [|discriminate].
                 intros [= <-]. right. eapply Hedge; eauto.
              ** intros [= <-]. now left.
           ++ intros [= <-]. now left.
        -- intros [= <-]. now left.
      * intros [= <-]. now left.
  - cbn [bind].
    destruct (truthy prev_id); cbn [bind].
    + destruct (hashable prev_id); cbn [bind]; [|discriminate].
      destruct (existsb (py_eq prev_id) subgraphs); cbn [bind].
      * destruct (dict_index prev_id subgraph_nodes) as [pn|] eqn:Hp;
          cbn [bind]; [|discriminate].
        destruct (0 <? List.length pn)%nat eqn:Hpn; cbn [bind].
        -- destruct (dict_index contact_id subgraph_nodes) as [own|] eqn:Ho;
             cbn [bind]; [|discriminate].
           destruct (0 <? List.length own)%nat eqn:Hon; cbn [bind].
           ++ destruct (py_get contact "InitiationMethod") as [m|]; cbn [bind];
                [|discriminate].
              intros [= <-]. right. eapply Hedge; eauto.
           ++ intros [= <-]. now left.
        -- intros [= <-]. now left.
      * intros [= <-]. now left.
    + intros [= <-]. now left.
Qed.

Lemma dict_set_length {A : Type} (k : value) (v : A) (d : list (value * A)) :
  List.length (dict_set k v d) <= S (List.length d).
Proof.
  induction d as [|[k' v'] d IH]; cbn [dict_set List.length]; [lia|].
  destruct (py_eq k k'); cbn [List.length]; lia.
Qed.

Lemma link_loop_effect (subgraphs : list value)
    (subgraph_nodes : list (value * list string)) (contacts : list value) :
  forall (dot dot' : digraph) (roots roots' : list (value * value))
         (out out' : list diag),
    link_loop subgraphs subgraph_nodes contacts (dot, roots, out)
      = Ret (dot', roots', out') ->
    g_nodes dot' = g_nodes dot /\
    List.length roots' <= List.length roots + List.length contacts /\
    exists added printed,
      g_edges dot' = g_edges dot ++ added /\
      List.length added <= List.length contacts /\
      Forall (linking_edge subgraph_nodes) added /\
      out' = out ++ printed /\
      List.length printed <= List.length contacts.
Proof.
  induction contacts as [|contact rest IH]; intros dot dot' roots roots' out out';
    cbn [link_loop].
  - intros [= <- <- <-]. split; [reflexivity|]. split; [cbn; lia|].
    exists [], []. rewrite !app_nil_r. repeat split; auto.
  - destruct (py_get contact "ContactId") as [cid|]; cbn [bind]; [|discriminate].
    destruct (py_get contact "PreviousContactId") as [prev|]; cbn [bind]; [|discriminate].
    destruct (py_get contact "RelatedContactId") as [rel|]; cbn [bind]; [|discriminate].
    destruct (negb (truthy cid)).
    { intros H. destruct (IH _ _ _ _ _ _ H)
        as (Hn & Hr & added & printed & He & Hl & Hall & Ho & Hp).
      split; [exact Hn|]. split; [cbn [List.length]; lia|].
      exists added, printed. cbn [List.length]. repeat split; auto. }
    destruct (hashable cid) eqn:Hh; [|discriminate].
    apply py_eq_refl_hashable in Hh.
    destruct (py_get contact "InitiationMethod") as [m|]; cbn [bind]; [|discriminate].
    cbv zeta.
    set (roots1 := if negb (truthy prev) then dict_set cid m roots else roots).
    set (roots2 := if truthy rel then dict_set cid m roots1 else roots1).
    assert (Hroots : List.length roots2 <= S (List.length roots)).
    { assert (H1 : List.length roots1 <= S (List.length roots)).
      { subst roots1. destruct (negb (truthy prev)); [apply dict_set_length | lia]. }
      subst roots2. destruct (truthy rel); [|exact H1].
      subst roots1. destruct (negb (truthy prev)).
      - clear H1. generalize (dict_set_length cid m roots).
        assert (Hsame : List.length (dict_set cid m (dict_set cid m roots))
                        = List.length (dict_set cid m roots)).
        { clear - Hh. induction roots as [|[k v] d IHd]; cbn [dict_set].
          - now rewrite Hh.
          - destruct (py_eq cid k) eqn:E; cbn [dict_set]; rewrite E; cbn [List.length].
            + reflexivity.
            + now rewrite IHd. }
        rewrite Hsame. auto.
      - apply dict_set_length. }
    clearbody roots1 roots2.
    destruct (existsb (py_eq cid) subgraphs); [|discriminate].
    destruct (link_contact subgraphs subgraph_nodes contact cid prev rel dot)
      as [dot1|e] eqn:Hl.
    + intros H. destruct (IH _ _ _ _ _ _ H)
        as (Hn & Hr & added & printed & He & Hlen & Hall & Ho & Hp).
      destruct (link_contact_effect _ _ _ _ _ _ _ _ Hl) as [-> | (e & -> & Hok & _)].
      * split; [exact Hn|]. split; [cbn [List.length]; lia|].
        exists added, printed. cbn [List.length]. repeat split; auto.
      * split; [exact Hn|]. split; [cbn [List.length]; lia|].
        exists (e :: added), printed. cbn [List.length].
        rewrite He. cbn [dot_edge g_edges]. rewrite <- app_assoc.
        repeat split; auto. lia.
    + intros H. destruct (IH _ _ _ _ _ _ H)
        as (Hn & Hr & added & printed & He & Hlen & Hall & Ho & Hp).
      split; [exact Hn|]. split; [cbn [List.length]; lia|].
      exists added, (Traceback e :: printed). cbn [List.length].
      rewrite Ho, <- app_assoc. repeat split; auto. lia.
Qed.

Lemma root_edges_effect (subgraph_nodes : list (value * list string))
    (roots : list (value * value)) :
  forall (dot dot' : digraph),
    root_edges subgraph_nodes roots dot = Ret dot' ->
    g_nodes dot' = g_nodes dot /\
    exists added,
      g_edges dot' = g_edges dot ++ added /\
      List.length added <= List.length roots /\
      Forall (linking_edge subgraph_nodes) added /\
      Forall (fun e => e_tail e = "start") added.
Proof.
  induction roots as [|[key m] rest IH]; intros dot dot'; cbn [root_edges].
  - intros [= <-]. split; [reflexivity|]. exists []. rewrite app_nil_r.
    repeat split; auto.
  - destruct (dict_index key subgraph_nodes) as [kn|] eqn:Hk; cbn [bind];
      [|discriminate].
    destruct (0 <? List.length kn)%nat eqn:Hn.
    + intros H. destruct (IH _ _ H) as (Hg & added & He & Hl & Hall & Hs).
      split; [exact Hg|].
      exists (mkEdge "start" (hd "" kn) m JNull :: added).
      rewrite He. cbn [dot_edge g_edges List.length]. rewrite <- app_assoc.
      split; [reflexivity|]. split; [lia|]. split.
      * constructor; [|exact Hall]. split; [|now left].
        exists key, kn. repeat split.
        -- now apply dict_index_find.
        -- now apply positive_length.
      * constructor; [reflexivity | exact Hs].
    + intros H. destruct (IH _ _ H) as (Hg & added & He & Hl & Hall & Hs).
      split; [exact Hg|]. exists added. cbn [List.length]. repeat split; auto.
Qed.

(** X12.  Linking draws edges only: the graph [link_contacts] returns has
    the start node and no other node statement; it has at most two edges per
    contact; every edge ends at the first node of a contact and starts at
    the start node or at the last node of a contact; and at most one
    traceback per contact is printed, after what was printed before. *)
Theorem link_contacts_shape (search_contacts : list value)
    (subgraph_nodes : list (value * list string)) (out out' : list diag)
    (dot : digraph) :
  link_contacts search_contacts subgraph_nodes out = Ret (dot, out') ->
  g_nodes dot = g_nodes start_graph /\
  List.length (g_edges dot) <= 2 * List.length search_contacts /\
  Forall (linking_edge subgraph_nodes) (g_edges dot) /\
  exists printed,
    out' = out ++ printed /\ List.length printed <= List.length search_contacts.
Proof.
  unfold link_contacts.
  destruct (cluster_ids search_contacts) as [sg|]; cbn [bind]; [|discriminate].
  destruct (link_loop sg subgraph_nodes search_contacts (start_graph, [], out))
    as [[[dot1 roots] out1]|] eqn:Hl; cbn [bind]; [|discriminate].
  destruct (root_edges subgraph_nodes roots dot1) as [dot2|] eqn:Hr; cbn [bind];
    [|discriminate].
  intros [= <- <-].
  destruct (link_loop_effect _ _ _ _ _ _ _ _ _ Hl)
    as (Hn & Hroots & added & printed & He & Hlen & Hall & Ho & Hp).
  destruct (root_edges_effect _ _ _ _ Hr) as (Hn2 & added2 & He2 & Hlen2 & Hall2 & _).
  cbn [List.length] in Hroots. cbn [start_graph dot_node empty_graph g_edges] in He.
  split; [congruence|]. rewrite He2, He. cbn [app].
  split; [rewrite length_app; lia|].
  split; [apply Forall_app; auto|].
  exists printed. auto.
Qed.

(** X12, worked on the two sample contacts. *)
Lemma link_contacts_shape_witness :
  exists dot,
    link_contacts [Demo.contact_a; Demo.contact_b] Demo.contact_nodes [] = Ret (dot, []) /\
    List.length (g_nodes dot) = 1 /\ List.length (g_edges dot) <= 4.
Proof.
  assert (H : exists dot,
             link_contacts [Demo.contact_a; Demo.contact_b] Demo.contact_nodes []
             = Ret (dot, [])) by (eexists; vm_compute; reflexivity).
  destruct H as [dot H]. exists dot. split; [exact H|].
  destruct (link_contacts_shape _ _ _ _ _ H) as (Hn & Hl & _).
  rewrite Hn. split; [reflexivity | exact Hl].
Defined.

Section Predecessor.

(** Contact [a] has no predecessor and no related contact; contact [b]
    names [a] as its previous contact and has no related contact.  Both
    have nodes. *)
Variables (a b : value) (ida idb : string) (pa ra ma rb mb : value).
Variables (nodes_a nodes_b : list string).
Variable subgraph_nodes : list (value * list string).

Hypothesis a_id : py_get a "ContactId" = Ret (JStr ida).
Hypothesis a_prev : py_get a "PreviousContactId" = Ret pa.
Hypothesis a_rel : py_get a "RelatedContactId" = Ret ra.
Hypothesis a_method : py_get a "InitiationMethod" = Ret ma.
Hypothesis b_id : py_get b "ContactId" = Ret (JStr idb).
Hypothesis b_prev : py_get b "PreviousContactId" = Ret (JStr ida).
Hypothesis b_rel : py_get b "RelatedContactId" = Ret rb.
Hypothesis b_method : py_get b "InitiationMethod" = Ret mb.
Hypothesis a_root : truthy pa = false.
Hypothesis a_unrelated : truthy ra = false.
Hypothesis b_unrelated : truthy rb = false.
Hypothesis ida_given : ida <> "".
Hypothesis idb_given : idb <> "".
Hypothesis distinct : ida <> idb.
Hypothesis a_nodes : dict_find (JStr ida) subgraph_nodes = Some nodes_a.
Hypothesis b_nodes : dict_find (JStr idb) subgraph_nodes = Some nodes_b.
Hypothesis a_nonempty : nodes_a <> [].
Hypothesis b_nonempty : nodes_b <> [].

Let previous_edge : edge_stmt :=
  mkEdge (last nodes_a "") (hd "" nodes_b) mb JNull.
Let start_a : edge_stmt := mkEdge "start" (hd "" nodes_a) ma JNull.

Lemma link_a_then_successor (out : list diag) :
  exists dot,
    link_contacts [a; b] subgraph_nodes out = Ret (dot, out) /\
    g_edges dot = [previous_edge; start_a].
Proof.
  assert (Hneq : (idb =? ida)%string = false)
    by (apply String.eqb_neq; congruence).
  unfold link_contacts. cbn [cluster_ids].
  rewrite a_id, b_id. cbn [bind].
  rewrite (truthy_id ida ida_given), (truthy_id idb idb_given).
  cbn [link_loop]. rewrite a_id, a_prev, a_rel. cbn [bind].
  rewrite (truthy_id ida ida_given). cbn [negb hashable].
  rewrite a_method. cbn [bind]. rewrite a_root, a_unrelated. cbn [negb].
  cbn [existsb py_eq]. rewrite String.eqb_refl. cbn [orb].
  unfold link_contact at 1. rewrite a_unrelated, a_root. cbn [bind].
  rewrite b_id, b_prev, b_rel. cbn [bind].
  rewrite (truthy_id idb idb_given). cbn [negb hashable].
  rewrite b_method. cbn [bind]. rewrite (truthy_id ida ida_given), b_unrelated.
  cbn [negb existsb py_eq]. rewrite String.eqb_refl, Hneq. cbn [orb].
  unfold link_contact. rewrite b_unrelated, (truthy_id ida ida_given).
  cbn [bind hashable existsb py_eq]. rewrite String.eqb_refl. cbn [orb].
  unfold dict_index. cbn [hashable]. rewrite a_nodes, b_nodes. cbn [bind].
  rewrite (nonempty_length _ a_nonempty), (nonempty_length _ b_nonempty).
  cbn [bind]. rewrite b_method. cbn [bind dict_set root_edges].
  unfold dict_index. cbn [hashable]. rewrite a_nodes. cbn [bind].
  rewrite (nonempty_length _ a_nonempty).
  cbn [bind]. eexists. split; reflexivity.
Qed.

Lemma link_successor_then_a (out : list diag) :
  exists dot,
    link_contacts [b; a] subgraph_nodes out = Ret (dot, out) /\
    g_edges dot = [previous_edge; start_a].
Proof.
  assert (Hneq : (ida =? idb)%string = false) by (now apply String.eqb_neq).
  unfold link_contacts. cbn [cluster_ids].
  rewrite a_id, b_id. cbn [bind].
  rewrite (truthy_id ida ida_given), (truthy_id idb idb_given).
  cbn [link_loop]. rewrite b_id, b_prev, b_rel. cbn [bind].
  rewrite (truthy_id idb idb_given). cbn [negb hashable].
  rewrite b_method. cbn [bind]. rewrite (truthy_id ida ida_given), b_unrelated.
  cbn [negb existsb py_eq]. rewrite String.eqb_refl. cbn [orb].
  unfold link_contact at 1. rewrite b_unrelated, (truthy_id ida ida_given).
  cbn [bind hashable existsb py_eq]. rewrite Hneq, String.eqb_refl. cbn [orb].
  unfold dict_index. cbn [hashable]. rewrite a_nodes, b_nodes. cbn [bind].
  rewrite (nonempty_length _ a_nonempty), (nonempty_length _ b_nonempty).
  cbn [bind]. rewrite b_method. cbn [bind].
  rewrite a_id, a_prev, a_rel. cbn [bind].
  rewrite (truthy_id ida ida_given). cbn [negb hashable].
  rewrite a_method. cbn [bind]. rewrite a_root, a_unrelated. cbn [negb].
  cbn [existsb py_eq]. rewrite String.eqb_refl, Hneq. cbn [orb].
  unfold link_contact. rewrite a_unrelated, a_root. cbn [bind dict_set root_edges].
  unfold dict_index. cbn [hashable]. rewrite a_nodes. cbn [bind].
  rewrite (nonempty_length _ a_nonempty).
  cbn [bind]. eexists. split; reflexivity.
Qed.

(** X13.  Composing [a] and its successor [b], in either order of the
    contact list, adds exactly two edges and prints nothing: the edge from
    the last node of [a] to the first node of [b], labelled with the
    initiation method of [b] and directed, and the edge from the start node
    to the first node of [a]; [b] gets no edge from the start node. *)
Theorem link_previous_contact (out : list diag) :
  (exists dot,
     link_contacts [a; b] subgraph_nodes out = Ret (dot, out) /\
     g_edges dot =
       [ mkEdge (last nodes_a "") (hd "" nodes_b) mb JNull;
         mkEdge "start" (hd "" nodes_a) ma JNull ]) /\
  (exists dot,
     link_contacts [b; a] subgraph_nodes out = Ret (dot, out) /\
     g_edges dot =
       [ mkEdge (last nodes_a "") (hd "" nodes_b) mb JNull;
         mkEdge "start" (hd "" nodes_a) ma JNull ]).
Proof.
  split; [apply link_a_then_successor | apply link_successor_then_a].
Qed.

End Predecessor.

(** X13, worked: the second sample contact as a transfer of the first. *)
Lemma link_previous_contact_witness :
  exists dot,
    link_contacts [Demo.contact_a; Demo.contact_c] Demo.contact_nodes_ac []
      = Ret (dot, []) /\
    g_edges dot =
      [ mkEdge "a2" "c1" (JStr "TRANSFER") JNull;
        mkEdge "start" "a1" (JStr "INBOUND") JNull ].
Proof.
  exact (proj1 (link_previous_contact Demo.contact_a Demo.contact_c "A" "C"
                  JNull JNull (JStr "INBOUND") JNull (JStr "TRANSFER")
                  ["a1"; "a2"] ["c1"] Demo.contact_nodes_ac
                  eq_refl eq_refl eq_refl eq_refl eq_refl eq_refl eq_refl eq_refl
                  eq_refl eq_refl eq_refl
                  ltac:(discriminate) ltac:(discriminate) ltac:(discriminate)
                  eq_refl eq_refl ltac:(discriminate) ltac:(discriminate) [])).
Defined.

(** X14.  A contact [b] that refers to a contact [ref] which is not among
    the contacts.  If [ref] is its related contact, the lookup of the nodes
    of [ref] raises inside the [try]: the traceback is printed, no link is
    drawn and [b] is linked to the start node.  If [ref] is its previous
    contact and it has no related contact, nothing is raised or printed,
    and [b] gets no edge at all, not even from the start node. *)
Theorem link_dangling_reference (b : value) (idb ref : string) (p r m : value)
    (nodes_b : list string) (subgraph_nodes : list (value * list string))
    (out : list diag) :
  py_get b "ContactId" = Ret (JStr idb) ->
  py_get b "PreviousContactId" = Ret p ->
  py_get b "RelatedContactId" = Ret r ->
  py_get b "InitiationMethod" = Ret m ->
  idb <> "" -> ref <> "" -> ref <> idb ->
  dict_find (JStr idb) subgraph_nodes = Some nodes_b ->
  nodes_b <> [] ->
  dict_find (JStr ref) subgraph_nodes = None ->
  (r = JStr ref ->
   exists dot,
     link_contacts [b] subgraph_nodes out = Ret (dot, out ++ [Traceback KeyError]) /\
     g_edges dot = [mkEdge "start" (hd "" nodes_b) m JNull]) /\
  (p = JStr ref -> truthy r = false ->
   exists dot,
     link_contacts [b] subgraph_nodes out = Ret (dot, out) /\
     g_edges dot = []).
Proof.
  intros b_id b_prev b_rel b_method idb_given ref_given Hneq b_nodes b_nonempty Hunknown.
  assert (Hne : (ref =? idb)%string = false) by (now apply String.eqb_neq).
  split.
  - intros ->.
    unfold link_contacts. cbn [cluster_ids]. rewrite b_id. cbn [bind].
    rewrite (truthy_id idb idb_given).
    cbn [link_loop]. rewrite b_id, b_prev, b_rel. cbn [bind].
    rewrite (truthy_id idb idb_given). cbn [negb hashable].
    rewrite b_method. cbn [bind]. rewrite (truthy_id ref ref_given).
    cbn [existsb py_eq]. rewrite String.eqb_refl. cbn [orb].
    unfold link_contact. rewrite (truthy_id ref ref_given).
    unfold dict_index at 1. cbn [hashable]. rewrite Hunknown. cbn [bind].
    replace (dict_set (JStr idb) m
               (if negb (truthy p) then dict_set (JStr idb) m [] else []))
      with [(JStr idb, m)]
      by (destruct (negb (truthy p)); cbn [dict_set py_eq];
          rewrite ?String.eqb_refl; reflexivity).
    cbn [root_edges]. unfold dict_index. cbn [hashable]. rewrite b_nodes. cbn [bind].
    rewrite (nonempty_length _ b_nonempty). cbn [bind].
    eexists. split; reflexivity.
  - intros -> r_none.
    unfold link_contacts. cbn [cluster_ids]. rewrite b_id. cbn [bind].
    rewrite (truthy_id idb idb_given).
    cbn [link_loop]. rewrite b_id, b_prev, b_rel. cbn [bind].
    rewrite (truthy_id idb idb_given). cbn [negb hashable].
    rewrite b_method. cbn [bind]. rewrite (truthy_id ref ref_given), r_none.
    cbn [negb existsb py_eq]. rewrite String.eqb_refl. cbn [orb].
    unfold link_contact. rewrite r_none, (truthy_id ref ref_given).
    cbn [bind hashable existsb py_eq]. rewrite Hne. cbn [orb bind root_edges].
    eexists. split; reflexivity.
Qed.

(** X14, worked: the related contact of the second sample contact is not
    among the contacts. *)
Lemma link_dangling_reference_witness :
  exists dot,
    link_contacts [Demo.contact_b] [(JStr "B", ["b1"; "b2"])] []
      = Ret (dot, [Traceback KeyError]) /\
    g_edges dot = [mkEdge "start" "b1" (JStr "TRANSFER") JNull].
Proof.
  exact (proj1 (link_dangling_reference Demo.contact_b "B" "A" JNull (JStr "A")
                  (JStr "TRANSFER") ["b1"; "b2"] [(JStr "B", ["b1"; "b2"])] []
                  eq_refl eq_refl eq_refl eq_refl
                  ltac:(discriminate) ltac:(discriminate) ltac:(discriminate)
                  eq_refl ltac:(discriminate) eq_refl) eq_refl).
Defined.

(* ------------------------------------------------------------------ *)
(** ** get_xray_parent_id *)

Lemma invocation_loop_sound (parent_id : value) (xray_data : list value) :
  forall invocation_id0 invocation_id,
    invocation_loop parent_id xray_data invocation_id0 = Ret invocation_id ->
    invocation_id = invocation_id0 \/
    exists inner,
      In inner xray_data /\ has_subsegment inner parent_id = Ret true /\
      py_index inner "parent_id" = Ret invocation_id.
Proof.
  induction xray_data as [|s rest IH]; intros i0 i; cbn [invocation_loop].
  - intros [= <-]. now left.
  - destruct (has_subsegment s parent_id) as [[|]|] eqn:Hs; cbn [bind]; [| |discriminate].
    + destruct (py_index s "parent_id") as [p|] eqn:Hp; cbn [bind]; [|discriminate].
      intros H. destruct (IH _ _ H) as [-> | (inner & Hin & H1 & H2)].
      * right. exists s. repeat split; auto. now left.
      * right. exists inner. repeat split; auto. now right.
    + intros H. destruct (IH _ _ H) as [-> | (inner & Hin & H1 & H2)].
      * now left.
      * right. exists inner. repeat split; auto. now right.
Qed.

Lemma parent_loop_sound (invocation_id : value) (xray_data : list value) (r : value) :
  parent_loop invocation_id xray_data = Ret r ->
  (r = JNull /\ Forall (fun s => has_subsegment s invocation_id = Ret false) xray_data) \/
  exists before outer after,
    xray_data = before ++ outer :: after /\
    Forall (fun s => has_subsegment s invocation_id = Ret false) before /\
    has_subsegment outer invocation_id = Ret true /\
    py_index outer "id" = Ret r.
Proof.
  induction xray_data as [|s rest IH]; cbn [parent_loop].
  - intros [= <-]. left. split; [reflexivity | constructor].
  - destruct (has_subsegment s invocation_id) as [[|]|] eqn:Hs; cbn [bind];
      [| |discriminate].
    + intros H. right. exists [], s, rest. repeat split; auto.
    + intros H. destruct (IH H) as [[-> Hall] | (before & outer & after & -> & Hb & Ho & Hi)].
      * left. split; [reflexivity | now constructor].
      * right. exists (s :: before), outer, after. repeat split; auto.
Qed.

(** X15.  [get_xray_parent_id] answers [None] when the parent id is
    missing.  An answer other than [None] is the id of the first segment
    that holds, among its subsegments, the subsegment that started a
    segment holding the subsegment [parent_id]: the id two levels up. *)
Theorem get_xray_parent_id_sound (parent_id xray_data r : value) :
  get_xray_parent_id parent_id xray_data = Ret r ->
  (truthy parent_id = false -> r = JNull) /\
  (r <> JNull ->
   exists segments inner invocation_id before outer after,
     py_iter xray_data = Ret segments /\
     In inner segments /\
     has_subsegment inner parent_id = Ret true /\
     py_index inner "parent_id" = Ret invocation_id /\
     truthy invocation_id = true /\
     segments = before ++ outer :: after /\
     Forall (fun s => has_subsegment s invocation_id = Ret false) before /\
     has_subsegment outer invocation_id = Ret true /\
     py_index outer "id" = Ret r).
Proof.
  unfold get_xray_parent_id.
  destruct (truthy parent_id) eqn:Hp.
  - destruct (py_iter xray_data) as [segments|] eqn:Hit; cbn [bind]; [|discriminate].
    destruct (invocation_loop parent_id segments JNull) as [inv|] eqn:Hinv; cbn [bind];
      [|discriminate].
    destruct (truthy inv) eqn:Ht.
    + intros H. split; [discriminate|]. intros Hr.
      destruct (invocation_loop_sound _ _ _ _ Hinv) as [-> | (inner & Hin & H1 & H2)];
        [discriminate|].
      destruct (parent_loop_sound _ _ _ H)
        as [[-> _] | (before & outer & after & -> & Hb & Ho & Hi)]; [contradiction|].
      exists (before ++ outer :: after), inner, inv, before, outer, after.
      repeat split; auto.
    + intros [= <-]. split; [reflexivity | contradiction].
  - cbn [bind truthy]. intros [= <-]. split; [reflexivity | contradiction].
Qed.

(** X15, worked: the subsegment "sdk" of the function's segment. *)
Lemma get_xray_parent_id_sound_witness :
  get_xray_parent_id (JStr "sdk") Demo.trace_segments = Ret (JStr "caller") /\
  exists inner, In inner [Demo.segment_leaf; Demo.segment_function; Demo.segment_caller] /\
                py_index inner "parent_id" = Ret (JStr "inv").
Proof.
  assert (H : get_xray_parent_id (JStr "sdk") Demo.trace_segments = Ret (JStr "caller"))
    by (vm_compute; reflexivity).
  split; [exact H|].
  destruct (proj2 (get_xray_parent_id_sound _ _ _ H) ltac:(discriminate))
    as (segments & inner & inv & before & outer & after
        & Hit & Hin & H1 & H2 & Ht & Hs & Hb & Ho & Hi).
  injection Hit as <-.
  assert (Hinv : inv = JStr "inv").
  { destruct Hin as [<- | [<- | [<- | []]]]; vm_compute in H1; try discriminate.
    vm_compute in H2. now injection H2 as <-. }
  subst inv. exists inner. split; assumption.
Defined.

(* ------------------------------------------------------------------ *)
(** ** build_main_flow *)

Lemma node_info_add_keys (node_id : string) (name : option value) (log : value)
    (node_info : node_info_map) :
  map fst (node_info_add node_id name log node_info)
  = add_distinct (map fst node_info) node_id.
Proof.
  unfold add_distinct.
  induction node_info as [|[k [n subnode]] rest IH]; [reflexivity|].
  cbn [node_info_add map fst existsb].
  destruct (String.eqb node_id k); cbn [orb map fst]; [reflexivity|].
  rewrite IH. destruct (existsb (String.eqb node_id) (map fst rest)); reflexivity.
Qed.

Lemma py_index_field (r : value) (k : string) (v : value) :
  py_index r k = Ret v -> field r k = v.
Proof.
  unfold py_index, field. destruct r; try discriminate.
  destruct (assoc k l); [|discriminate]. now intros [= ->].
Qed.

Lemma group_logs_keys (X : externals) (contact_id : value) (logs : list value) :
  forall node_info node_info',
    group_logs X contact_id logs node_info = Ret node_info' ->
    map fst node_info'
    = fold_left add_distinct (map (main_node_id X contact_id) logs) (map fst node_info).
Proof.
  induction logs as [|log rest IH]; intros info info'; cbn [group_logs map fold_left].
  - now intros [= <-].
  - destruct (py_index log "node_id") as [nid|] eqn:Hn; cbn [bind]; [|discriminate].
    destruct (py_index log "ContactFlowName") as [name|]; cbn [bind]; [|discriminate].
    destruct (py_str_in "MOD_" name) as [in_module|]; cbn [bind]; [|discriminate].
    intros H. rewrite (IH _ _ H), node_info_add_keys.
    unfold main_node_id. now rewrite (py_index_field _ _ _ Hn).
Qed.

Lemma add_distinct_NoDup (seen : list string) (x : string) :
  NoDup seen -> NoDup (add_distinct seen x).
Proof.
  intros H. unfold add_distinct.
  destruct (existsb (String.eqb x) seen) eqn:E; [exact H|].
  apply NoDup_app; [exact H | repeat constructor; intros [] |].
  intros y Hy [<- | []].
  assert (Ht : existsb (String.eqb x) seen = true)
    by (apply existsb_exists; exists x; split; [exact Hy | apply String.eqb_refl]).
  congruence.
Qed.

Lemma fold_add_distinct_NoDup (l : list string) :
  forall seen, NoDup seen -> NoDup (fold_left add_distinct l seen).
Proof.
  induction l as [|x l IH]; intros seen H; cbn [fold_left]; [exact H|].
  apply IH. now apply add_distinct_NoDup.
Qed.

Lemma main_flow_loop_effect (X : externals) (contact_id lambda_logs : value)
    (node_info : node_info_map) :
  forall dot nodes flow_nodes out dot' nodes' flow_nodes' out',
    main_flow_loop X contact_id lambda_logs node_info (dot, nodes, flow_nodes, out)
      = Ret (dot', nodes', flow_nodes', out') ->
    exists new printed,
      g_nodes dot' = g_nodes dot ++ new /\
      map n_id new = map fst node_info /\
      Forall (fun n => n_module_type n = JStr "TransferToFlow") new /\
      nodes' = nodes ++ map fst node_info /\
      g_edges dot' = g_edges dot /\
      out' = out ++ printed.
Proof.
  induction node_info as [|[node_id [name subnode]] rest IH];
    intros dot nodes flow_nodes out dot' nodes' flow_nodes' out'; cbn [main_flow_loop].
  - intros [= <- <- <- <-]. exists [], []. rewrite !app_nil_r. repeat split; auto.
  - destruct (process_sub_flow X "flow" (mkState dot nodes 0 out) flow_nodes name
                node_id subnode contact_id lambda_logs) as [[st fn]|] eqn:Hp;
      cbn [bind]; [|discriminate].
    intros H.
    unfold process_sub_flow in Hp. cbn [String.eqb Ascii.eqb Bool.eqb] in Hp.
    destruct (process_sub_flow_flow_effect _ _ _ _ _ _ _ _ _ _ Hp)
      as (node & pr & Hg & Hid & Hty & Hn & He & _ & Ho & _).
    cbn [st_dot st_nodes st_out] in Hg, Hn, He, Ho.
    destruct (IH _ _ _ _ _ _ _ _ H) as (new & printed & Hg' & Hid' & Hty' & Hn' & He' & Ho').
    exists (node :: new), (pr ++ printed).
    rewrite Hg', Hn', He', Ho', Hg, Hn, He, Ho. cbn [map fst].
    rewrite <- !app_assoc. cbn [app]. rewrite Hid, Hid'.
    repeat split; auto.
Qed.

Lemma consecutive_pairs_fst (nodes : list string) (p : string * string) :
  In p (consecutive_pairs nodes) -> In (fst p) nodes.
Proof.
  induction nodes as [|a [|b tl] IH]; try contradiction.
  change (consecutive_pairs (a :: b :: tl)) with ((a, b) :: consecutive_pairs (b :: tl)).
  intros [<- | H]; [now left | right; now apply IH].
Qed.

Lemma consecutive_pairs_NoDup (nodes : list string) :
  NoDup nodes -> NoDup (consecutive_pairs nodes).
Proof.
  induction nodes as [|a [|b tl] IH]; intros H; [constructor | constructor |].
  change (consecutive_pairs (a :: b :: tl)) with ((a, b) :: consecutive_pairs (b :: tl)).
  constructor.
  - intros Hin. apply consecutive_pairs_fst in Hin. now inversion H.
  - apply IH. now inversion H.
Qed.

Lemma add_edges_chain (dot : digraph) (nodes : list string) :
  NoDup nodes ->
  g_nodes (add_edges dot nodes) = g_nodes dot /\
  map edge_pair (g_edges (add_edges dot nodes))
  = map edge_pair (g_edges dot) ++ consecutive_pairs nodes.
Proof.
  intros H. apply consecutive_pairs_NoDup in H.
  destruct (add_edges_fold nodes dot (List.length nodes - 1)) as (Hn & He & _).
  unfold add_edges. split; [exact Hn|].
  rewrite He, map_app, edge_pair_at.
  rewrite consecutive_pairs_seq in H.
  now rewrite (first_occurrence_all nodes _ H), consecutive_pairs_seq.
Qed.

(** X16.  When [build_main_flow] returns, the node list holds the node ids
    of the events, [<contact id>_<node_id>], each once, in the order in
    which the events sorted by time first show them; the graph has one
    summary node per id, in that order, each of type "TransferToFlow"; and
    its edges are the chain through the node list: one edge from each node
    to the next, none else.  The output is only appended to. *)
Theorem build_main_flow_chain (X : externals) (logs : list value)
    (lambda_logs contact_id : value) (out out' : list diag)
    (dot : digraph) (nodes : list string) :
  build_main_flow X logs lambda_logs contact_id out = Ret (dot, nodes, out') ->
  exists sorted,
    sort_logs X logs = Ret sorted /\
    nodes = distinct (map (main_node_id X contact_id) sorted) /\
    NoDup nodes /\
    map n_id (g_nodes dot) = nodes /\
    Forall (fun n => n_module_type n = JStr "TransferToFlow") (g_nodes dot) /\
    map edge_pair (g_edges dot) = consecutive_pairs nodes /\
    exists printed, out' = out ++ printed.
Proof.
  unfold build_main_flow.
  destruct (sort_logs X logs) as [sorted|]; cbn [bind]; [|discriminate].
  destruct (group_logs X contact_id sorted []) as [info|] eqn:Hg; cbn [bind];
    [|discriminate].
  destruct (main_flow_loop X contact_id lambda_logs info (empty_graph, [], [], out))
    as [[[[dot1 nodes1] fn] out1]|] eqn:Hl; cbn [bind]; [|discriminate].
  intros [= <- <- <-].
  apply group_logs_keys in Hg. cbn [map] in Hg.
  destruct (main_flow_loop_effect _ _ _ _ _ _ _ _ _ _ _ _ Hl)
    as (new & printed & Hn & Hid & Hty & Hnodes & He & Ho).
  cbn [empty_graph g_nodes g_edges app] in Hn, Hnodes, He.
  assert (Hnd : NoDup nodes1).
  { rewrite Hnodes, Hg. apply fold_add_distinct_NoDup. constructor. }
  destruct (add_edges_chain dot1 nodes1 Hnd) as (Hgn & Hge).
  exists sorted. split; [reflexivity|].
  split; [now rewrite Hnodes, Hg|].
  split; [exact Hnd|].
  rewrite Hgn, Hn, Hge, He. cbn [map app].
  split; [now rewrite Hid, Hnodes|].
  split; [exact Hty|].
  split; [reflexivity|].
  exists printed. exact Ho.
Qed.

(** X16, worked: three events on two nodes. *)
Lemma build_main_flow_chain_witness :
  exists dot out,
    build_main_flow Demo.X Demo.main_events (JObj []) (JStr "c-1") []
      = Ret (dot, ["c-1_n1"; "c-1_n2"], out) /\
    map edge_pair (g_edges dot) = [("c-1_n1", "c-1_n2")].
Proof.
  assert (H : exists dot out,
             build_main_flow Demo.X Demo.main_events (JObj []) (JStr "c-1") []
             = Ret (dot, ["c-1_n1"; "c-1_n2"], out))
    by (eexists _, _; vm_compute; reflexivity).
  destruct H as (dot & out & H). exists dot, out. split; [exact H|].
  destruct (build_main_flow_chain _ _ _ _ _ _ _ _ H) as (_ & _ & _ & _ & _ & _ & He & _).
  exact He.
Defined.

(* ------------------------------------------------------------------ *)
(** ** The attribute table *)

Lemma py_get_field (r : value) (k : string) (v : value) :
  py_get r k = Ret v -> field r k = v.
Proof.
  unfold py_get, py_get_default, field. destruct r; try discriminate.
  now intros [= <-].
Qed.

Lemma find_setter_first (k : string) (logs : list value) (found : option value) :
  find_setter k logs = Ret found ->
  match found with
  | None => Forall (fun l => sets_attribute k l = false) logs
  | Some log =>
      exists before after,
        logs = before ++ log :: after /\
        Forall (fun l => sets_attribute k l = false) before /\
        sets_attribute k log = true
  end.
Proof.
  induction logs as [|log rest IH]; cbn [find_setter].
  - intros [= <-]. constructor.
  - assert (Hstep : sets_attribute k log = false ->
              find_setter k rest = Ret found ->
              match found with
              | None => Forall (fun l => sets_attribute k l = false) (log :: rest)
              | Some log' =>
                  exists before after,
                    log :: rest = before ++ log' :: after /\
                    Forall (fun l => sets_attribute k l = false) before /\
                    sets_attribute k log' = true
              end).
    { intros Hb H. specialize (IH H). destruct found as [log'|].
      - destruct IH as (before & after & -> & Hall & Hs).
        exists (log :: before), after. repeat split; auto.
      - now constructor. }
    destruct (py_get log "ContactFlowModuleType") as [mt|] eqn:Hmt; cbn [bind];
      [|discriminate].
    assert (Hrec : exists d, log = JObj d)
      by (destruct log; try discriminate Hmt; eauto).
    destruct Hrec as [d Hd].
    apply py_get_field in Hmt.
    unfold sets_attribute in Hstep |- *. rewrite Hmt in Hstep.
    destruct (py_eq mt (JStr "SetAttributes")) eqn:Hty; cbn [bind andb] in Hstep |- *;
      [|now apply Hstep].
    rewrite Hd in Hstep |- *. cbn [py_str_in bind field py_index] in Hstep |- *.
    destruct (assoc "Parameters" d) as [p|] eqn:Hp; cbn [bind andb] in Hstep |- *;
      [|now apply Hstep].
    destruct (py_get p "Key") as [key|] eqn:Hk; cbn [bind]; [|discriminate].
    apply py_get_field in Hk. rewrite Hk in Hstep.
    destruct (py_eq key (JStr k)) eqn:He.
    + intros [= <-]. exists [], rest. rewrite <- Hd.
      split; [reflexivity|]. split; [constructor|].
      rewrite Hd in Hmt |- *. cbn [field] in Hmt |- *.
      rewrite Hmt, Hty, Hp, Hk, He. reflexivity.
    + now apply Hstep.
Qed.

(** X17.  The table has one row per attribute of the contact, in their
    order, with the attribute and its serialized value.  The provenance of a
    row is read from the first event, in the order of the list, of module
    type "SetAttributes" whose parameters name the attribute as their
    [Key]; when there is no such event it is empty. *)
Theorem attribute_rows_provenance (json_dumps : value -> string)
    (logs : list value) (contact_attrs : list (string * value))
    (rows : list attr_row) :
  attribute_rows json_dumps logs contact_attrs = Ret rows ->
  map r_k rows = map fst contact_attrs /\
  map r_v rows = map (fun kv => json_dumps (snd kv)) contact_attrs /\
  Forall (fun row =>
            (Forall (fun l => sets_attribute (r_k row) l = false) logs /\
             r_c row = JStr "" /\ r_i row = JStr "") \/
            (exists before log after,
               logs = before ++ log :: after /\
               Forall (fun l => sets_attribute (r_k row) l = false) before /\
               sets_attribute (r_k row) log = true /\
               r_c row = field log "ContactFlowName" /\
               r_i row = field log "Identifier")) rows.
Proof.
  unfold attribute_rows. revert rows.
  induction contact_attrs as [|[k v] rest IH]; intros rows; cbn [mapM].
  - intros [= <-]. repeat split; constructor.
  - unfold attribute_row at 1. cbn [fst snd].
    destruct (find_setter k logs) as [found|] eqn:Hf; cbn [bind]; [|discriminate].
    destruct (mapM (attribute_row json_dumps logs) rest) as [rows'|]; cbn [bind];
      [|discriminate].
    intros [= <-]. destruct (IH _ eq_refl) as (Hk & Hv & Hall).
    cbn [map fst snd]. apply find_setter_first in Hf.
    destruct found as [log|]; cbn [r_k r_v]; rewrite Hk, Hv;
      (split; [reflexivity|]; split; [reflexivity|]); constructor; try exact Hall.
    + right. destruct Hf as (before & after & -> & Hb & Hs).
      exists before, log, after. cbn [r_k r_c r_i]. repeat split; auto.
    + left. cbn [r_k r_c r_i]. repeat split; auto.
Qed.

(** X17, worked: of two attributes, one was set by an event. *)
Lemma attribute_rows_provenance_witness :
  attribute_rows Demo.dumps Demo.error_second
                 [("b", JStr "2"); ("other", JStr "x")]
  = Ret [ mkRow "b" (Demo.dumps (JStr "2")) (JStr "F") (JStr "block");
          mkRow "other" (Demo.dumps (JStr "x")) (JStr "") (JStr "") ] /\
  map r_k [ mkRow "b" (Demo.dumps (JStr "2")) (JStr "F") (JStr "block");
            mkRow "other" (Demo.dumps (JStr "x")) (JStr "") (JStr "") ]
  = ["b"; "other"].
Proof.
  assert (H : attribute_rows Demo.dumps Demo.error_second
                [("b", JStr "2"); ("other", JStr "x")]
              = Ret [ mkRow "b" (Demo.dumps (JStr "2")) (JStr "F") (JStr "block");
                      mkRow "other" (Demo.dumps (JStr "x")) (JStr "") (JStr "") ])
    by (vm_compute; reflexivity).
  split; [exact H|].
  exact (proj1 (attribute_rows_provenance _ _ _ _ H)).
Defined.

Lemma find_row_some (k v : string) (other_data : list attr_row) (o : attr_row) :
  find_row k v other_data = Some o -> r_k o = k /\ r_v o = v.
Proof.
  induction other_data as [|x rest IH]; cbn [find_row]; [discriminate|].
  destruct (String.eqb (r_k x) k && String.eqb (r_v x) v) eqn:E; [|exact IH].
  intros [= <-]. apply andb_true_iff in E. destruct E as [E1 E2].
  split; now apply String.eqb_eq.
Qed.

Lemma borrow_from_key (my_id : value) (subcontact_attr : list (value * list attr_row)) :
  forall entry,
    r_k (borrow_from my_id entry subcontact_attr) = r_k entry /\
    r_v (borrow_from my_id entry subcontact_attr) = r_v entry.
Proof.
  induction subcontact_attr as [|[other_id other_data] rest IH]; intros entry;
    cbn [borrow_from]; [split; reflexivity|].
  destruct (py_eq other_id my_id); [apply IH|].
  destruct (find_row (r_k entry) (r_v entry) other_data) as [o|] eqn:Hf; [|apply IH].
  destruct (IH (mkRow (r_k entry) (r_v o) (r_c o) (r_i o))) as [H1 H2].
  cbn [r_k r_v] in H1, H2. apply find_row_some in Hf. destruct Hf as [_ Hv].
  split; congruence.
Qed.

Lemma borrow_entry_kept (subcontact_attr : list (value * list attr_row))
    (my_id : value) (my_data : list attr_row) :
  Forall2 (fun e e' => r_k e' = r_k e /\ r_v e' = r_v e /\ (complete e = true -> e' = e))
          my_data (map (borrow_entry subcontact_attr my_id) my_data).
Proof.
  induction my_data as [|e rest IH]; cbn [map]; constructor; [|exact IH].
  unfold borrow_entry. destruct (complete e).
  - repeat split.
  - destruct (borrow_from_key my_id subcontact_attr e) as [H1 H2].
    repeat split; auto. discriminate.
Qed.

Lemma borrow_loop_kept (pending : list (value * list attr_row)) :
  forall updated,
    exists pending',
      borrow_loop updated pending = updated ++ pending' /\
      Forall2 (fun old new =>
                 fst new = fst old /\
                 Forall2 (fun e e' => r_k e' = r_k e /\ r_v e' = r_v e /\
                                      (complete e = true -> e' = e))
                         (snd old) (snd new))
              pending pending'.
Proof.
  induction pending as [|[my_id my_data] rest IH]; intros updated; cbn [borrow_loop].
  - exists []. rewrite app_nil_r. split; [reflexivity | constructor].
  - cbv zeta.
    destruct (IH (updated ++
                  [(my_id, map (borrow_entry (updated ++ (my_id, my_data) :: rest) my_id)
                               my_data)])) as (pending' & Heq & Hall).
    eexists (_ :: pending'). rewrite Heq, <- app_assoc. split; [reflexivity|].
    constructor; [|exact Hall]. split; [reflexivity|]. apply borrow_entry_kept.
Qed.

(** X18.  Borrowing provenance keeps the table in shape: the contacts and
    their order, the rows of each contact and their order, and the attribute
    and the value of every row are as before; a row whose value, flow and
    block are all non-empty is not touched. *)
Theorem borrow_provenance_keeps_rows (subcontact_attr : list (value * list attr_row)) :
  Forall2 (fun old new =>
             fst new = fst old /\
             Forall2 (fun e e' => r_k e' = r_k e /\ r_v e' = r_v e /\
                                  (complete e = true -> e' = e))
                     (snd old) (snd new))
          subcontact_attr (borrow_provenance subcontact_attr).
Proof.
  unfold borrow_provenance.
  destruct (borrow_loop_kept subcontact_attr []) as (pending' & Heq & Hall).
  rewrite Heq. exact Hall.
Qed.

Lemma borrow_from_app (my_id : value) (before after : list (value * list attr_row)) :
  forall entry,
    borrow_from my_id entry (before ++ after)
    = borrow_from my_id (borrow_from my_id entry before) after.
Proof.
  induction before as [|[other_id other_data] rest IH]; intros entry;
    cbn [borrow_from app]; [reflexivity|].
  destruct (py_eq other_id my_id); [apply IH|].
  destruct (find_row (r_k entry) (r_v entry) other_data); apply IH.
Qed.

Lemma borrow_from_none (my_id : value) (subcontact_attr : list (value * list attr_row)) :
  forall entry,
    Forall (fun c => lends my_id (r_k entry) (r_v entry) c = false) subcontact_attr ->
    borrow_from my_id entry subcontact_attr = entry.
Proof.
  induction subcontact_attr as [|[other_id other_data] rest IH]; intros entry H;
    cbn [borrow_from]; [reflexivity|].
  inversion H as [|c l Hc Hrest]. subst. unfold lends in Hc. cbn [fst snd] in Hc.
  destruct (py_eq other_id my_id); [now apply IH|].
  destruct (find_row (r_k entry) (r_v entry) other_data); [discriminate Hc|].
  now apply IH.
Qed.

(** X19.  Which provenance a row borrows.  If no other contact has a row
    with the attribute and the value of the entry, the entry is left as it
    is.  Otherwise it ends with the flow and the block of the first such row
    of the last contact that has one, whatever the contacts before that one
    would give and whether or not that row has a flow and a block itself. *)
Theorem borrow_from_last_lender (my_id : value) (entry : attr_row)
    (subcontact_attr : list (value * list attr_row)) :
  (Forall (fun c => lends my_id (r_k entry) (r_v entry) c = false) subcontact_attr ->
   borrow_from my_id entry subcontact_attr = entry) /\
  (forall before lender after o,
     subcontact_attr = before ++ lender :: after ->
     py_eq (fst lender) my_id = false ->
     find_row (r_k entry) (r_v entry) (snd lender) = Some o ->
     Forall (fun c => lends my_id (r_k entry) (r_v entry) c = false) after ->
     borrow_from my_id entry subcontact_attr
     = mkRow (r_k entry) (r_v entry) (r_c o) (r_i o)).
Proof.
  split; [apply borrow_from_none|].
  intros before [other_id other_data] after o -> Hid Hrow Hafter.
  cbn [fst snd] in Hid, Hrow.
  rewrite borrow_from_app. cbn [borrow_from]. rewrite Hid.
  destruct (borrow_from_key my_id before entry) as [Hk Hv].
  rewrite Hk, Hv, Hrow.
  destruct (find_row_some _ _ _ _ Hrow) as [_ Hov]. rewrite Hov.
  apply borrow_from_none. exact Hafter.
Qed.

(** X18, worked: the rows of three contacts. *)
Lemma borrow_provenance_keeps_rows_witness :
  map fst (borrow_provenance Demo.three_tables) = [JStr "A"; JStr "B"; JStr "C"].
Proof.
  pose proof (borrow_provenance_keeps_rows Demo.three_tables) as H.
  assert (Hfst : forall l l' : list (value * list attr_row),
            Forall2 (fun old new =>
                       fst new = fst old /\
                       Forall2 (fun e e' => r_k e' = r_k e /\ r_v e' = r_v e /\
                                            (complete e = true -> e' = e))
                               (snd old) (snd new)) l l' ->
            map fst l' = map fst l).
  { intros l l' HF. induction HF as [|x y l l' [Hxy _] _ IH]; [reflexivity|].
    cbn [map]. now rewrite Hxy, IH. }
  rewrite (Hfst _ _ H). reflexivity.
Defined.

(** X19, worked: the first contact borrows from the second and then from
    the third, whose row has no provenance, and ends without any; the third
    borrows from the first and then from the second, and keeps it. *)
Lemma borrow_from_last_lender_witness :
  borrow_from (JStr "A") (Demo.bare_row) Demo.three_tables = Demo.bare_row /\
  borrow_provenance Demo.three_tables
  = [ (JStr "A", [Demo.bare_row]); (JStr "B", [Demo.set_row]);
      (JStr "C", [Demo.set_row]) ].
Proof.
  split; [|vm_compute; reflexivity].
  rewrite (proj2 (borrow_from_last_lender (JStr "A") Demo.bare_row Demo.three_tables)
             [(JStr "A", [Demo.bare_row]); (JStr "B", [Demo.set_row])]
             (JStr "C", [Demo.bare_row]) [] Demo.bare_row
             eq_refl eq_refl eq_refl (Forall_nil _)).
  reflexivity.
Defined.

(* ------------------------------------------------------------------ *)
(** ** One summary per module *)

Lemma define_module_type_not_summary (module_type params mt : value) :
  define_module_type module_type params = Ret mt ->
  py_eq module_type (JStr "InvokeFlowModule") = false ->
  py_eq mt (JStr "InvokeFlowModule") = false.
Proof.
  unfold define_module_type.
  destruct (py_eq module_type (JStr "SetContactFlow")); [|now intros [= <-]].
  destruct (py_get params "Type") as [ft|]; cbn [bind]; [|discriminate].
  repeat match goal with
         | |- (if ?b then _ else _) = _ -> _ => destruct b
         end; now intros [= <-].
Qed.

Lemma omit_not_summary (module_type : value) :
  in_consts module_type OMIT_CONTACT_FLOW_MODULE_TYPE = false ->
  py_eq module_type (JStr "InvokeFlowModule") = false.
Proof.
  unfold in_consts, OMIT_CONTACT_FLOW_MODULE_TYPE. cbn [existsb].
  now rewrite orb_false_r.
Qed.

Lemma filter_summary_app (l new : list node_stmt) :
  Forall (fun n => is_module_summary n = false) new ->
  filter is_module_summary (l ++ new) = filter is_module_summary l.
Proof.
  intros H. rewrite filter_app.
  replace (filter is_module_summary new) with (@nil node_stmt);
    [now rewrite app_nil_r|].
  induction H as [|n new Hn _ IH]; [reflexivity|]. cbn [filter]. now rewrite Hn.
Qed.

Lemma add_block_nodes_summaries (X : externals) (module_type log is_error : value)
    (st st' : bstate) (node_id : string) (lambda_logs : value) (module_stack : string) :
  add_block_nodes X module_type log is_error st node_id lambda_logs module_stack
    = Ret st' ->
  py_eq module_type (JStr "InvokeFlowModule") = false ->
  filter is_module_summary (g_nodes (st_dot st'))
  = filter is_module_summary (g_nodes (st_dot st)).
Proof.
  unfold add_block_nodes. intros H Hm. revert H. formatted_text X.
  destruct (py_get_default log "Parameters" (JObj [])) as [params|]; cbn [bind];
    [|discriminate].
  destruct (define_module_type module_type params) as [mt|] eqn:Hd; cbn [bind];
    [|discriminate].
  apply define_module_type_not_summary in Hd; [|exact Hm].
  destruct (get_module_name_ko (flow_translation_map X) mt log) as [title|];
    cbn [bind]; [|discriminate].
  formatted_label X.
  set (node := mkNode node_id mt title "plaintext" (error_color is_error) (UrlDoc log)).
  set (st1 := mkState (dot_node (st_dot st) node) (st_nodes st ++ [node_id])
                      (st_errors st) (st_out st)).
  assert (H1 : filter is_module_summary (g_nodes (st_dot st1))
               = filter is_module_summary (g_nodes (st_dot st))).
  { subst st1. cbn [st_dot dot_node g_nodes]. apply filter_summary_app.
    repeat constructor. exact Hd. }
  destruct (py_eq mt (JStr "InvokeExternalResource")); [|now intros [= <-]].
  destruct (py_len lambda_logs) as [n|]; cbn [bind]; [|discriminate].
  destruct (0 <? n)%nat; [|now intros [= <-]].
  destruct (py_get log "Parameters") as [p|]; cbn [bind]; [|discriminate].
  destruct (py_index p "FunctionArn") as [arn|]; cbn [bind]; [|discriminate].
  destruct (get_func_name X arn) as [fname|]; cbn [bind]; [|discriminate].
  destruct (trace_lambda X st1 log lambda_logs fname module_stack) as [c [st2|e]] eqn:Ht.
  - intros [= <-]. destruct (trace_lambda_cases _ _ _ _ _ _ _ _ Ht)
      as [(log' & ->) | (xid & fl & cid & log' & Hx)]; [exact H1|].
    destruct (build_xray_dot_nodes _ _ _ _ _ _ _ _ Hx) as (xnode & Hg & Hty).
    rewrite Hg, <- H1. apply filter_summary_app. repeat constructor.
    unfold is_module_summary. now rewrite Hty.
  - intros [= <-]. exact H1.
Qed.

Lemma add_node_cache_typed (module_type : value) (c c' : node_cache)
    (node_id : string) (log is_error : value) :
  add_node_cache module_type c node_id log is_error = Ret c' ->
  in_consts module_type DUP_CONTACT_FLOW_MODULE_TYPE = true ->
  typed_cache c -> typed_cache c'.
Proof.
  unfold add_node_cache. intros H Hin Hc. revert H.
  destruct (py_get_default log "Parameters" (JObj [])) as [params|]; cbn [bind];
    [|discriminate].
  destruct (py_index log "ContactFlowName") as [name|]; cbn [bind]; [|discriminate].
  destruct (hashable name && hashable module_type); [|discriminate].
  destruct (cache_mem (name, module_type) c).
  - intros [= <-]. clear Hin. unfold typed_cache in *.
    induction Hc as [|[k b] c Hb Hc IH]; cbn [cache_append]; [constructor|].
    destruct (key_eqb (name, module_type) k); constructor;
      solve [exact Hb | exact Hc | exact IH].
  - destruct (py_index log "Timestamp") as [ts|]; cbn [bind]; [|discriminate].
    destruct (py_index log "Identifier") as [ident|]; cbn [bind]; [|discriminate].
    intros [= <-]. apply Forall_app. split; [exact Hc|].
    repeat constructor. cbn [snd nd_module_type]. now apply in_consts_inv.
Qed.

Lemma dup_block_sanitize_summaries (X : externals) (c : node_cache) :
  typed_cache c ->
  forall (dot dot' : digraph) (nodes nodes' : list string),
    dup_block_sanitize X c dot nodes = Ret (dot', nodes') ->
    filter is_module_summary (g_nodes dot') = filter is_module_summary (g_nodes dot).
Proof.
  induction 1 as [|[k b] c (T & HT & Hb) _ IH]; intros dot dot' nodes nodes';
    cbn [dup_block_sanitize].
  - now intros [= <- _].
  - cbn [snd] in Hb.
    destruct (bucket_node X b) as [n|] eqn:Hn; cbn [bind]; [|discriminate].
    destruct (bucket_node_shape X b n Hn) as (_ & _ & _ & _ & Hd & _).
    intros H. rewrite (IH _ _ _ _ H). cbn [dot_node g_nodes].
    apply filter_summary_app. repeat constructor. unfold is_module_summary.
    apply (define_module_type_not_summary _ _ _ Hd).
    rewrite Hb. destruct HT as [<- | [<- | []]]; reflexivity.
Qed.

Lemma dedup_emit_summaries (X : externals) (lambda_logs : value) (module_stack : string)
    (module_type log is_error : value) (node_id : string) (st st' : bstate)
    (cache cache' : node_cache) (last last' : value) :
  dedup_emit X lambda_logs module_stack module_type log is_error node_id st cache last
    = Ret (st', cache', last') ->
  typed_cache cache ->
  typed_cache cache' /\
  filter is_module_summary (g_nodes (st_dot st'))
  = filter is_module_summary (g_nodes (st_dot st)).
Proof.
  unfold dedup_emit. intros H Hc. revert H.
  destruct (in_consts module_type DUP_CONTACT_FLOW_MODULE_TYPE) eqn:Hdup.
  - destruct (add_node_cache module_type cache node_id log is_error) as [c1|] eqn:Ha;
      cbn [bind]; [|discriminate].
    destruct (py_get_v log module_type); cbn [bind]; [|discriminate].
    intros [= <- <- _]. split; [|reflexivity].
    eapply add_node_cache_typed; eauto.
  - assert (Hflush : forall st1 cache1,
              (if (0 <? List.length cache)%nat && negb (py_eq module_type last)
               then '(dot, nodes) <- dup_block_sanitize X cache (st_dot st) (st_nodes st) ;;
                    Ret (mkState dot nodes (st_errors st) (st_out st), [])
               else Ret (st, cache)) = Ret (st1, cache1) ->
              typed_cache cache1 /\
              filter is_module_summary (g_nodes (st_dot st1))
              = filter is_module_summary (g_nodes (st_dot st))).
    { intros st1 cache1.
      destruct ((0 <? List.length cache)%nat && negb (py_eq module_type last)).
      - destruct (dup_block_sanitize _ cache _ _) as [[d n]|] eqn:Hd; cbn [bind];
          [|discriminate].
        intros [= <- <-]. split; [constructor|].
        cbn [st_dot]. eapply dup_block_sanitize_summaries; eauto.
      - intros [= <- <-]. auto. }
    destruct (if (0 <? List.length cache)%nat && negb (py_eq module_type last)
              then _ else _) as [[st1 cache1]|] eqn:Hf; cbn [bind]; [|discriminate].
    destruct (Hflush _ _ eq_refl) as [Hc1 Hs1].
    destruct (negb (in_consts module_type OMIT_CONTACT_FLOW_MODULE_TYPE)) eqn:Ho.
    + destruct (add_block_nodes X module_type log is_error st1 node_id lambda_logs
                                module_stack) as [st2|] eqn:Ha; cbn [bind];
        [|discriminate].
      intros [= <- <- _]. split; [exact Hc1|]. rewrite <- Hs1.
      eapply add_block_nodes_summaries; [exact Ha|].
      apply omit_not_summary. now apply negb_true_iff.
    + intros [= <- <- _]. auto.
Qed.

Lemma dict_find_keys {A : Type} (k : value) (d : list (value * A)) :
  existsb (py_eq k) (map fst d) = match dict_find k d with Some _ => true | None => false end.
Proof.
  induction d as [|[k' v] d IH]; [reflexivity|]. cbn [map fst existsb dict_find].
  destruct (py_eq k k'); [reflexivity | exact IH].
Qed.

Lemma dict_set_fresh {A : Type} (k : value) (v : A) (d : list (value * A)) :
  dict_find k d = None -> dict_set k v d = d ++ [(k, v)].
Proof.
  induction d as [|[k' v'] d IH]; [reflexivity|]. cbn [dict_find dict_set app].
  destruct (py_eq k k'); [discriminate|]. intros H. now rewrite IH.
Qed.

Lemma process_sub_flow_module_summary (X : externals) (st st' : bstate)
    (l_nodes l_nodes' : list (value * string)) (l_name : value) (node_id : string)
    (l_logs : list value) (contact_id lambda_logs : value) :
  process_sub_flow_module X st l_nodes l_name node_id l_logs contact_id lambda_logs
    = Ret (st', l_nodes') ->
  dict_find l_name l_nodes = None ->
  exists node,
    g_nodes (st_dot st') = g_nodes (st_dot st) ++ [node] /\
    is_module_summary node = true /\
    n_title node = JStr (py_str X l_name ++ "  ➡️") /\
    l_nodes' = l_nodes ++ [(l_name, node_id)].
Proof.
  unfold process_sub_flow_module. intros H Hfresh. revert H.
  destruct (scan_errors X l_logs (None, None) (st_errors st)) as [[span ec]|]; cbn [bind]; [|discriminate].
  destruct (read_contact_flow X contact_id) as [flow_logs|]; cbn [bind];
    [|discriminate].
  destruct (filterM _ flow_logs) as [arns|]; cbn [bind]; [|discriminate].
  destruct (match arns with | [] => _ | _ => _ end) as [flow_name|]; cbn [bind];
    [|discriminate].
  destruct (build_module_detail X l_logs lambda_logs 0 _ (st_out st)) as [sub|];
    cbn [bind]; [|discriminate].
  unfold sub_flow_node. destruct (hashable l_name); [|discriminate].
  formatted_label X.
  intros [= <- <-]. eexists. cbn [st_dot dot_node g_nodes].
  split; [reflexivity|]. split; [reflexivity|]. split; [reflexivity|].
  now apply dict_set_fresh.
Qed.

Lemma flow_loop_summaries (X : externals) (all_logs : list value)
    (contact_id lambda_logs : value) (module_stack : string) (logs : list value) :
  forall i st cache last mn st' cache' last' mn',
    flow_loop X all_logs contact_id lambda_logs module_stack i logs
              (st, cache, last, mn) = Ret (st', cache', last', mn') ->
    typed_cache cache ->
    map n_title (filter is_module_summary (g_nodes (st_dot st)))
      = map (fun kv => JStr (py_str X (fst kv) ++ "  ➡️")) mn ->
    map n_title (filter is_module_summary (g_nodes (st_dot st')))
      = map (fun kv => JStr (py_str X (fst kv) ++ "  ➡️")) mn' /\
    map fst mn' = fold_left add_module_name logs (map fst mn).
Proof.
  induction logs as [|log logs IH]; intros i st cache last mn st' cache' last' mn';
    cbn [flow_loop fold_left].
  - intros [= <- _ _ <-] _ H. auto.
  - destruct (flow_step X all_logs contact_id lambda_logs module_stack i log
                        (st, cache, last, mn)) as [[[[st1 c1] l1] mn1]|] eqn:Hs;
      cbn [bind]; [|discriminate].
    intros H Hc Hinv.
    assert (Hstep : typed_cache c1 /\
                    map n_title (filter is_module_summary (g_nodes (st_dot st1)))
                    = map (fun kv => JStr (py_str X (fst kv) ++ "  ➡️")) mn1 /\
                    map fst mn1 = add_module_name (map fst mn) log).
    { unfold flow_step in Hs. unfold add_module_name.
      destruct (classify log) as [ie|]; cbn [bind] in Hs; [|discriminate].
      destruct (make_node_id log i) as [id|]; cbn [bind] in Hs; [|discriminate].
      destruct (py_get log "ContactFlowModuleType") as [mt|]; cbn [bind] in Hs;
        [|discriminate].
      destruct (py_index log "ContactFlowName") as [name|] eqn:Hn; cbn [bind] in Hs;
        [|discriminate].
      rewrite (py_index_field _ _ _ Hn).
      destruct (py_str_in "MOD_" name) as [[|]|]; cbn [bind] in Hs; [| |discriminate].
      - destruct (hashable name); [|discriminate].
        rewrite dict_find_keys.
        destruct (dict_find name mn) as [known|] eqn:Hk.
        + injection Hs as <- <- <- <-. auto.
        + destruct (filterM _ all_logs) as [ml|]; cbn [bind] in Hs; [|discriminate].
          destruct (process_sub_flow_module X st mn name id ml contact_id lambda_logs)
            as [[st2 mn2]|] eqn:Hp; cbn [bind] in Hs; [|discriminate].
          injection Hs as <- <- <- <-.
          destruct (process_sub_flow_module_summary _ _ _ _ _ _ _ _ _ _ Hp Hk)
            as (node & Hg & Hsum & Ht & ->).
          split; [exact Hc|]. rewrite Hg, filter_app, !map_app, Hinv.
          cbn [filter]. rewrite Hsum. cbn [map fst]. rewrite Ht. auto.
      - destruct (dedup_emit X lambda_logs module_stack mt log ie id st cache last)
          as [[[st2 c2] l2]|] eqn:Hd; cbn [bind] in Hs; [|discriminate].
        injection Hs as <- <- <- <-.
        destruct (dedup_emit_summaries _ _ _ _ _ _ _ _ _ _ _ _ _ Hd Hc) as [Hc2 Hs2].
        rewrite Hs2. auto. }
    destruct Hstep as (Hc1 & Hinv1 & Hkeys).
    destruct (IH _ _ _ _ _ _ _ _ _ H Hc1 Hinv1) as [Hfinal Hnames].
    split; [exact Hfinal|]. now rewrite Hnames, Hkeys.
Qed.

(** X20.  In the graph of [build_contact_flow_detail] a module has one
    summary node however many events it has and however they are spread
    over the flow: the nodes of type "InvokeFlowModule" are, in order,
    titled by the names of the modules of the events sorted by time, each
    name once, in the order of its first event. *)
Theorem modules_summarised_once (X : externals) (logs : list value)
    (contact_id lambda_logs : value) (error_count : nat) (module_stack : string)
    (out : list diag) (st : bstate) :
  build_contact_flow_detail X logs contact_id lambda_logs error_count module_stack out
    = Ret st ->
  exists sorted,
    sort_logs X logs = Ret sorted /\
    map n_title (filter is_module_summary (g_nodes (st_dot st)))
    = map (fun name => JStr (py_str X name ++ "  ➡️")) (module_names sorted).
Proof.
  unfold build_contact_flow_detail.
  destruct (sort_logs X logs) as [sorted|]; cbn [bind]; [|discriminate].
  destruct (flow_loop X sorted contact_id lambda_logs module_stack 0 sorted
              (mkState empty_graph [] error_count out, [], JStr "", []))
    as [[[[st1 c1] l1] mn1]|] eqn:Hl; cbn [bind]; [|discriminate].
  intros [= <-]. exists sorted. split; [reflexivity|].
  destruct (flow_loop_summaries _ _ _ _ _ _ _ _ _ _ _ _ _ _ _ Hl) as [Hs Hn];
    [constructor | reflexivity |].
  cbn [st_dot]. destruct (add_edges_fold (st_nodes st1) (st_dot st1)
                            (List.length (st_nodes st1) - 1)) as (Hgn & _).
  unfold add_edges. rewrite Hgn, Hs. unfold module_names. cbn [map] in Hn.
  rewrite <- Hn, map_map. reflexivity.
Qed.

(** X20, worked: a module entered twice, with a prompt of the flow in
    between. *)
Lemma modules_summarised_once_witness :
  exists st,
    build_contact_flow_detail Demo.X Demo.module_twice (JStr "c-1") (JObj []) 0 "" []
      = Ret st /\
    map n_title (filter is_module_summary (g_nodes (st_dot st)))
      = [JStr "MOD_x  ➡️"] /\
    List.length (g_nodes (st_dot st)) = 2.
Proof.
  assert (H : exists st,
             build_contact_flow_detail Demo.X Demo.module_twice (JStr "c-1") (JObj [])
                                       0 "" [] = Ret st /\
             List.length (g_nodes (st_dot st)) = 2)
    by (eexists; split; vm_compute; reflexivity).
  destruct H as (st & H & Hlen). exists st. split; [exact H|]. split; [|exact Hlen].
  destruct (modules_summarised_once _ _ _ _ _ _ _ _ H) as (sorted & Hs & Ht).
  rewrite Ht.
  assert (Hsorted : sort_logs Demo.X Demo.module_twice = Ret Demo.module_twice)
    by (vm_compute; reflexivity).
  rewrite Hsorted in Hs. injection Hs as <-. vm_compute. reflexivity.
Defined.

(* ------------------------------------------------------------------ *)
(** ** Node ids are distinct *)

Lemma str_of_nat_inj (a b : nat) : str_of_nat a = str_of_nat b -> a = b.
Proof.
  unfold str_of_nat. intros H.
  apply (f_equal NilEmpty.uint_of_string) in H. rewrite !NilEmpty.usu in H.
  injection H as H. apply (f_equal Nat.of_uint) in H.
  now rewrite !DecimalNat.Unsigned.of_to in H.
Qed.

Lemma digits_no_underscore (d : Decimal.uint) (s1 s2 : string) :
  NilEmpty.string_of_uint d <> (s1 ++ "_" ++ s2)%string.
Proof.
  revert s1. induction d; intros s1; cbn [NilEmpty.string_of_uint];
    destruct s1 as [|c s1]; cbn; try discriminate;
    intros [= _ H]; exact (IHd _ H).
Qed.

Lemma tagged_inj (j j' : nat) (id : string) : tagged j id -> tagged j' id -> j = j'.
Proof.
  intros [s ->] [s' H]. apply str_of_nat_inj. revert s' H.
  induction s as [|c s IH]; intros [|c' s']; cbn.
  - now intros [= ->].
  - intros [= _ H]. now apply digits_no_underscore in H.
  - intros [= _ H]. symmetry in H. now apply digits_no_underscore in H.
  - intros [= _ H]. now apply IH in H.
Qed.

Lemma tagged_NoDup (js : list nat) (ids : list string) :
  Forall2 tagged js ids -> NoDup js -> NoDup ids.
Proof.
  induction 1 as [|j id js ids Hj Hrest IH]; intros Hnd; [constructor|].
  inversion Hnd as [|j0 js0 Hnotin Hnd']. subst. constructor; [|now apply IH].
  intros Hin. apply Hnotin. clear - Hin Hj Hrest.
  induction Hrest as [|j1 id1 js ids H1 _ IH']; [contradiction|].
  destruct Hin as [<- | Hin]; [left | right; now apply IH'].
  exact (tagged_inj _ _ _ H1 Hj).
Qed.

Lemma make_node_id_tagged (log : value) (i : nat) (id : string) :
  make_node_id log i = Ret id -> tagged i id.
Proof.
  unfold make_node_id.
  destruct (py_index log "Timestamp") as [ts|]; cbn [bind]; [|discriminate].
  destruct (strip_timestamp ts) as [s|]; cbn [bind]; [|discriminate].
  intros [= <-]. now exists s.
Qed.

Lemma distinct_ids_later (i : nat) (nodes : list string) (cache : node_cache) :
  distinct_ids i nodes cache -> distinct_ids (S i) nodes cache.
Proof.
  intros (jn & jc & Hn & Hc & Hnd & Hlt). exists jn, jc. repeat split; auto.
  eapply Forall_impl; [|exact Hlt]. cbn. lia.
Qed.

Lemma fresh_index (i : nat) (js : list nat) :
  Forall (fun j => j < i) js -> ~ In i js.
Proof.
  intros H Hin. rewrite Forall_forall in H. specialize (H _ Hin). lia.
Qed.

Lemma distinct_ids_emit (i : nat) (nodes : list string) (cache : node_cache)
    (id : string) :
  distinct_ids i nodes cache -> tagged i id ->
  distinct_ids (S i) (nodes ++ [id]) cache.
Proof.
  intros (jn & jc & Hn & Hc & Hnd & Hlt) Hid.
  exists (jn ++ [i]), jc.
  split; [apply Forall2_app; [exact Hn | repeat constructor; exact Hid]|].
  split; [exact Hc|].
  assert (Hp : Permutation (i :: jn ++ jc) ((jn ++ [i]) ++ jc)).
  { rewrite <- app_assoc. cbn [app]. apply Permutation_middle. }
  split.
  - eapply Permutation_NoDup; [exact Hp|]. constructor; [|exact Hnd].
    now apply fresh_index.
  - eapply Permutation_Forall; [exact Hp|]. constructor; [lia|].
    eapply Forall_impl; [|exact Hlt]. cbn. lia.
Qed.

Lemma distinct_ids_bucket (i : nat) (nodes : list string) (cache cache' : node_cache)
    (id : string) :
  distinct_ids i nodes cache -> tagged i id ->
  cache_ids cache' = cache_ids cache ++ [id] ->
  distinct_ids (S i) nodes cache'.
Proof.
  intros (jn & jc & Hn & Hc & Hnd & Hlt) Hid Hids.
  exists jn, (jc ++ [i]).
  split; [exact Hn|].
  split; [rewrite Hids; apply Forall2_app; [exact Hc | repeat constructor; exact Hid]|].
  assert (Hp : Permutation (i :: jn ++ jc) (jn ++ jc ++ [i])).
  { rewrite app_assoc. apply Permutation_cons_append. }
  split.
  - eapply Permutation_NoDup; [exact Hp|]. constructor; [|exact Hnd].
    now apply fresh_index.
  - eapply Permutation_Forall; [exact Hp|]. constructor; [lia|].
    eapply Forall_impl; [|exact Hlt]. cbn. lia.
Qed.

Lemma distinct_ids_flush (i : nat) (nodes : list string) (cache : node_cache) :
  distinct_ids i nodes cache -> distinct_ids i (nodes ++ cache_ids cache) [].
Proof.
  intros (jn & jc & Hn & Hc & Hnd & Hlt).
  exists (jn ++ jc), []. rewrite app_nil_r.
  split; [now apply Forall2_app|]. split; [constructor|]. auto.
Qed.

Lemma add_node_cache_ids (module_type : value) (c c' : node_cache)
    (node_id : string) (log is_error : value) :
  add_node_cache module_type c node_id log is_error = Ret c' ->
  cache_ids c' = cache_ids c \/ cache_ids c' = cache_ids c ++ [node_id].
Proof.
  unfold add_node_cache.
  destruct (py_get_default log "Parameters" (JObj [])) as [params|]; cbn [bind];
    [|discriminate].
  destruct (py_index log "ContactFlowName") as [name|]; cbn [bind]; [|discriminate].
  destruct (hashable name && hashable module_type); [|discriminate].
  destruct (cache_mem (name, module_type) c) eqn:Hm.
  - intros [= <-]. left.
    destruct (cache_append_effect (name, module_type) params c Hm) as (_ & H & _).
    exact H.
  - destruct (py_index log "Timestamp") as [ts|]; cbn [bind]; [|discriminate].
    destruct (py_index log "Identifier") as [ident|]; cbn [bind]; [|discriminate].
    intros [= <-]. right. unfold cache_ids. now rewrite map_app.
Qed.

Lemma dedup_emit_distinct (X : externals) (lambda_logs : value) (module_stack : string)
    (module_type log is_error : value) (node_id : string) (st st' : bstate)
    (cache cache' : node_cache) (last last' : value) (i : nat) :
  py_len lambda_logs = Ret 0 ->
  tagged i node_id ->
  distinct_ids i (st_nodes st) cache ->
  dedup_emit X lambda_logs module_stack module_type log is_error node_id st cache last
    = Ret (st', cache', last') ->
  distinct_ids (S i) (st_nodes st') cache'.
Proof.
  intros Hlen Hid Hinv. unfold dedup_emit.
  destruct (in_consts module_type DUP_CONTACT_FLOW_MODULE_TYPE).
  - destruct (add_node_cache module_type cache node_id log is_error) as [c1|] eqn:Ha;
      cbn [bind]; [|discriminate].
    destruct (py_get_v log module_type); cbn [bind]; [|discriminate].
    intros [= <- <- _].
    destruct (add_node_cache_ids _ _ _ _ _ _ Ha) as [Hsame | Hnew].
    + apply distinct_ids_later. destruct Hinv as (jn & jc & Hn & Hc & Hrest).
      exists jn, jc. rewrite Hsame. auto.
    + eapply distinct_ids_bucket; eauto.
  - assert (Hflush : forall st1 cache1,
              (if (0 <? List.length cache)%nat && negb (py_eq module_type last)
               then '(dot, nodes) <- dup_block_sanitize X cache (st_dot st) (st_nodes st) ;;
                    Ret (mkState dot nodes (st_errors st) (st_out st), [])
               else Ret (st, cache)) = Ret (st1, cache1) ->
              distinct_ids i (st_nodes st1) cache1).
    { intros st1 cache1.
      destruct ((0 <? List.length cache)%nat && negb (py_eq module_type last)).
      - destruct (dup_block_sanitize _ cache _ _) as [[d n]|] eqn:Hd; cbn [bind];
          [|discriminate].
        intros [= <- <-]. cbn [st_nodes].
        destruct (dup_block_sanitize_nodes _ _ _ _ _ _ Hd) as (new & _ & _ & -> & Hids & _).
        rewrite Hids. now apply distinct_ids_flush.
      - now intros [= <- <-]. }
    destruct (if (0 <? List.length cache)%nat && negb (py_eq module_type last)
              then _ else _) as [[st1 cache1]|] eqn:Hf; cbn [bind]; [|discriminate].
    specialize (Hflush _ _ eq_refl).
    destruct (negb (in_consts module_type OMIT_CONTACT_FLOW_MODULE_TYPE)).
    + destruct (add_block_nodes X module_type log is_error st1 node_id lambda_logs
                                module_stack) as [st2|] eqn:Ha; cbn [bind];
        [|discriminate].
      intros [= <- <- _].
      destruct (add_block_nodes_no_lambda _ _ _ _ _ _ _ _ _ Hlen Ha) as (_ & _ & ->).
      now apply distinct_ids_emit.
    + intros [= <- <- _]. now apply distinct_ids_later.
Qed.

Lemma module_loop_distinct (X : externals) (lambda_logs : value) (module_stack : string)
    (logs : list value) :
  py_len lambda_logs = Ret 0 ->
  forall i st cache last st' cache' last',
    distinct_ids i (st_nodes st) cache ->
    module_loop X lambda_logs module_stack i logs (st, cache, last)
      = Ret (st', cache', last') ->
    exists i', distinct_ids i' (st_nodes st') cache'.
Proof.
  intros Hlen.
  induction logs as [|l logs IH]; intros i st cache last st' cache' last' Hinv;
    cbn [module_loop].
  - intros [= <- <- _]. eauto.
  - destruct (module_step X lambda_logs module_stack i l (st, cache, last))
      as [[[st1 c1] l1]|] eqn:Hs; cbn [bind]; [|discriminate].
    apply IH. unfold module_step in Hs.
    destruct (classify l) as [ie|]; cbn [bind] in Hs; [|discriminate].
    destruct (make_node_id l i) as [id|] eqn:Hid; cbn [bind] in Hs; [|discriminate].
    destruct (py_get l "ContactFlowModuleType") as [mt|]; cbn [bind] in Hs;
      [|discriminate].
    eapply dedup_emit_distinct; [exact Hlen | | | exact Hs].
    + eapply make_node_id_tagged; eauto.
    + exact Hinv.
Qed.

Lemma flow_loop_distinct (X : externals) (all_logs : list value)
    (contact_id lambda_logs : value) (module_stack : string) (logs : list value) :
  py_len lambda_logs = Ret 0 ->
  forall i st cache last mn st' cache' last' mn',
    distinct_ids i (st_nodes st) cache ->
    flow_loop X all_logs contact_id lambda_logs module_stack i logs
              (st, cache, last, mn) = Ret (st', cache', last', mn') ->
    exists i', distinct_ids i' (st_nodes st') cache'.
Proof.
  intros Hlen.
  induction logs as [|l logs IH]; intros i st cache last mn st' cache' last' mn' Hinv;
    cbn [flow_loop].
  - intros [= <- <- _ _]. eauto.
  - destruct (flow_step X all_logs contact_id lambda_logs module_stack i l
                        (st, cache, last, mn)) as [[[[st1 c1] l1] mn1]|] eqn:Hs;
      cbn [bind]; [|discriminate].
    apply IH. unfold flow_step in Hs.
    destruct (classify l) as [ie|]; cbn [bind] in Hs; [|discriminate].
    destruct (make_node_id l i) as [id|] eqn:Hid; cbn [bind] in Hs; [|discriminate].
    apply make_node_id_tagged in Hid.
    destruct (py_get l "ContactFlowModuleType") as [mt|]; cbn [bind] in Hs;
      [|discriminate].
    destruct (py_index l "ContactFlowName") as [name|]; cbn [bind] in Hs;
      [|discriminate].
    destruct (py_str_in "MOD_" name) as [[|]|]; cbn [bind] in Hs; [| |discriminate].
    + destruct (hashable name); [|discriminate].
      destruct (dict_find name mn) as [known|].
      * injection Hs as <- <- _ _. now apply distinct_ids_later.
      * destruct (filterM _ all_logs) as [ml|]; cbn [bind] in Hs; [|discriminate].
        destruct (process_sub_flow_module X st mn name id ml contact_id lambda_logs)
          as [[st2 mn2]|] eqn:Hp; cbn [bind] in Hs; [|discriminate].
        injection Hs as <- <- _ _.
        destruct (process_sub_flow_module_effect _ _ _ _ _ _ _ _ _ _ Hp)
          as (node & printed & _ & _ & _ & -> & _).
        now apply distinct_ids_emit.
    + destruct (dedup_emit X lambda_logs module_stack mt l ie id st cache last)
        as [[[st2 c2] l2]|] eqn:Hd; cbn [bind] in Hs; [|discriminate].
      injection Hs as <- <- _ _.
      eapply dedup_emit_distinct; eauto.
Qed.

Lemma distinct_ids_NoDup (i : nat) (nodes : list string) (cache : node_cache) :
  distinct_ids i nodes cache -> NoDup nodes.
Proof.
  intros (jn & jc & Hn & _ & Hnd & _).
  apply (tagged_NoDup jn); [exact Hn|]. exact (NoDup_app_remove_r _ _ Hnd).
Qed.

Lemma distinct_ids_start (i : nat) : distinct_ids i [] [].
Proof. exists [], []. repeat split; constructor. Qed.

(** X21.  Without function logs, the nodes of a detail graph have pairwise
    different ids, whether they stand for one event, for a run of events or
    for a module, so the edges of the graph are one chain through the node
    list: an edge from each node to the next and no other edge. *)
Theorem detail_graph_is_chain (X : externals) (logs : list value)
    (contact_id lambda_logs : value) (errors : nat) (module_stack : string)
    (out : list diag) (st : bstate) :
  py_len lambda_logs = Ret 0 ->
  build_module_detail X logs lambda_logs errors module_stack out = Ret st \/
  build_contact_flow_detail X logs contact_id lambda_logs errors module_stack out
    = Ret st ->
  NoDup (st_nodes st) /\
  map n_id (g_nodes (st_dot st)) = st_nodes st /\
  map edge_pair (g_edges (st_dot st)) = consecutive_pairs (st_nodes st).
Proof.
  intros Hlen [H | H].
  - unfold build_module_detail in H.
    destruct (sort_logs X logs) as [sorted|]; cbn [bind] in H; [|discriminate].
    destruct (module_loop X lambda_logs module_stack 0 sorted
                (mkState empty_graph [] errors out, [], JStr ""))
      as [[[s c] l]|] eqn:Hloop; cbn [bind] in H; [|discriminate].
    injection H as <-. cbn [st_nodes st_dot].
    destruct (module_loop_distinct X lambda_logs module_stack sorted Hlen 0
                (mkState empty_graph [] errors out) [] (JStr "") s c l
                (distinct_ids_start 0) Hloop) as [i' Hinv].
    apply distinct_ids_NoDup in Hinv.
    destruct (module_loop_extends _ _ _ _ _ _ _ _ _ _ _ Hloop)
      as (new & printed & Hg & Hn & He & _).
    cbn [st_dot st_nodes empty_graph g_nodes g_edges app] in Hg, Hn, He.
    destruct (add_edges_chain (st_dot s) (st_nodes s) Hinv) as [Hgn Hge].
    split; [exact Hinv|]. rewrite Hgn, Hge, He, Hg, Hn. split; reflexivity.
  - unfold build_contact_flow_detail in H.
    destruct (sort_logs X logs) as [sorted|]; cbn [bind] in H; [|discriminate].
    destruct (flow_loop X sorted contact_id lambda_logs module_stack 0 sorted
                (mkState empty_graph [] errors out, [], JStr "", []))
      as [[[[s c] l] mn]|] eqn:Hloop; cbn [bind] in H; [|discriminate].
    injection H as <-. cbn [st_nodes st_dot].
    destruct (flow_loop_distinct X sorted contact_id lambda_logs module_stack sorted
                Hlen 0 (mkState empty_graph [] errors out) [] (JStr "") [] s c l mn
                (distinct_ids_start 0) Hloop) as [i' Hinv].
    apply distinct_ids_NoDup in Hinv.
    destruct (flow_loop_extends _ _ _ _ _ _ _ _ _ _ _ _ _ _ _ Hloop)
      as (new & printed & Hg & Hn & He & _).
    cbn [st_dot st_nodes empty_graph g_nodes g_edges app] in Hg, Hn, He.
    destruct (add_edges_chain (st_dot s) (st_nodes s) Hinv) as [Hgn Hge].
    split; [exact Hinv|]. rewrite Hgn, Hge, He, Hg, Hn. split; reflexivity.
Qed.

(** X21, worked: the flow that enters a module twice. *)
Lemma detail_graph_is_chain_witness :
  exists st,
    build_contact_flow_detail Demo.X Demo.module_twice (JStr "c-1") (JObj []) 0 "" []
      = Ret st /\
    map edge_pair (g_edges (st_dot st)) = consecutive_pairs (st_nodes st) /\
    List.length (g_edges (st_dot st)) = 1.
Proof.
  assert (H : exists st,
             build_contact_flow_detail Demo.X Demo.module_twice (JStr "c-1") (JObj [])
                                       0 "" [] = Ret st /\
             List.length (g_edges (st_dot st)) = 1)
    by (eexists; split; vm_compute; reflexivity).
  destruct H as (st & H & Hlen). exists st. split; [exact H|]. split; [|exact Hlen].
  exact (proj2 (proj2 (detail_graph_is_chain Demo.X Demo.module_twice (JStr "c-1")
                         (JObj []) 0 "" [] st eq_refl (or_intror H)))).
Defined.

(* ------------------------------------------------------------------ *)
(** ** The colour of a summary node *)

(** X22.  The summary node [process_sub_flow] adds for a module is in the
    error colour whenever an event of the module is classified as an error,
    and without function logs only then: its colour is keyed on the count of
    the module alone.  The summary node of a flow is in the error colour
    exactly when the error count handed back is positive, which includes the
    count handed in. *)
Theorem summary_colour (X : externals) (flow_type : string)
    (st st' : bstate) (l_nodes l_nodes' : list (value * string)) (l_name : value)
    (node_id : string) (l_logs : list value) (contact_id lambda_logs : value) :
  process_sub_flow X flow_type st l_nodes l_name node_id l_logs contact_id lambda_logs
    = Ret (st', l_nodes') ->
  exists node,
    g_nodes (st_dot st') = g_nodes (st_dot st) ++ [node] /\
    (flow_type = "module" ->
     (0 < count_errors l_logs -> n_color node = "tomato") /\
     (py_len lambda_logs = Ret 0 -> count_errors l_logs = 0 ->
      n_color node = "lightgray")) /\
    (flow_type = "flow" ->
     st_errors st <= st_errors st' /\
     n_color node = (if (0 <? st_errors st')%nat then "tomato" else "lightgray")).
Proof.
  unfold process_sub_flow.
  destruct (String.eqb flow_type "module") eqn:Hm.
  - apply String.eqb_eq in Hm. subst flow_type.
    unfold process_sub_flow_module.
    destruct (scan_errors X l_logs (None, None) (st_errors st)) as [[span ec]|]; cbn [bind]; [|discriminate].
    destruct (read_contact_flow X contact_id) as [flow_logs|]; cbn [bind];
      [|discriminate].
    destruct (filterM _ flow_logs) as [arns|]; cbn [bind]; [|discriminate].
    destruct (match arns with | [] => _ | _ => _ end) as [flow_name|]; cbn [bind];
      [|discriminate].
    destruct (build_module_detail X l_logs lambda_logs 0 _ (st_out st)) as [sub|] eqn:Hsub;
      cbn [bind]; [|discriminate].
    assert (Hcount : 0 + count_errors l_logs <= st_errors sub /\
                     (py_len lambda_logs = Ret 0 ->
                      st_errors sub = 0 + count_errors l_logs /\ st_out sub = st_out st)).
    { unfold build_module_detail in Hsub.
      destruct (sort_logs X l_logs) as [sorted|] eqn:Hsort; cbn [bind] in Hsub;
        [|discriminate].
      apply sort_logs_perm in Hsort. rewrite (count_errors_perm _ _ Hsort).
      destruct (module_loop X lambda_logs _ 0 sorted _) as [[[s c] l]|] eqn:Hloop;
        cbn [bind] in Hsub; [|discriminate].
      injection Hsub as <-. apply module_loop_count in Hloop. exact Hloop. }
    destruct Hcount as [Hle Hexact].
    intros H. destruct (sub_flow_node_effect _ _ _ _ _ _ _ _ _ _ _ _ _ _ H)
      as (node & Hg & _ & _ & Hcol & _).
    exists node. split; [exact Hg|]. split; [|discriminate].
    intros _. rewrite Hcol. split.
    + intros Hpos. destruct (st_errors sub); [lia | reflexivity].
    + intros Hlen Hzero. destruct (Hexact Hlen) as [-> _]. now rewrite Hzero.
  - destruct (String.eqb flow_type "flow") eqn:Hf.
    + apply String.eqb_eq in Hf. subst flow_type.
      unfold process_sub_flow_flow.
      destruct (scan_errors X l_logs (None, None) (st_errors st)) as [[span ec]|] eqn:Hscan; cbn [bind];
        [|discriminate].
      apply scan_errors_monotone in Hscan.
      destruct (build_contact_flow_detail X l_logs contact_id lambda_logs ec _ (st_out st))
        as [sub|] eqn:Hsub; cbn [bind]; [|discriminate].
      destruct (build_contact_flow_detail_shape _ _ _ _ _ _ _ _ Hsub)
        as (_ & _ & Hle & _).
      intros H. destruct (sub_flow_node_effect _ _ _ _ _ _ _ _ _ _ _ _ _ _ H)
        as (node & Hg & _ & _ & Hcol & _ & _ & Herr & _).
      exists node. split; [exact Hg|]. split; [discriminate|].
      intros _. rewrite Herr. split; [lia | exact Hcol].
    + destruct (scan_errors X l_logs (None, None) (st_errors st)) as [[span ec]|]; cbn [bind]; discriminate.
Qed.

(** X22, worked: a module whose only event failed. *)
Lemma summary_colour_witness :
  exists st' l_nodes' node,
    process_sub_flow Demo.X "module" Demo.no_state [] (JStr "MOD_x") "n_0"
                     [Demo.module_failure] (JStr "c-1") (JObj [])
      = Ret (st', l_nodes') /\
    g_nodes (st_dot st') = [node] /\ n_color node = "tomato".
Proof.
  destruct (process_sub_flow Demo.X "module" Demo.no_state [] (JStr "MOD_x") "n_0"
                             [Demo.module_failure] (JStr "c-1") (JObj []))
    as [[st' l_nodes']|e] eqn:H; [|vm_compute in H; discriminate].
  destruct (summary_colour _ _ _ _ _ _ _ _ _ _ _ H) as (node & Hg & Hmod & _).
  exists st', l_nodes', node. split; [reflexivity|]. split; [exact Hg|].
  apply (proj1 (Hmod eq_refl)). vm_compute. lia.
Defined.

(* ------------------------------------------------------------------ *)
(** ** Events drawn on their own are never dropped *)

Lemma extends_keeps (st st' : bstate) (id : string) :
  extends st st' -> In id (st_nodes st) -> In id (st_nodes st').
Proof.
  intros (new & printed & _ & Hn & _) Hin. rewrite Hn. apply in_or_app. now left.
Qed.

Lemma dedup_emit_draws (X : externals) (lambda_logs : value) (module_stack : string)
    (module_type log is_error : value) (node_id : string) (st st' : bstate)
    (cache cache' : node_cache) (last last' : value) :
  dedup_emit X lambda_logs module_stack module_type log is_error node_id st cache last
    = Ret (st', cache', last') ->
  in_consts module_type DUP_CONTACT_FLOW_MODULE_TYPE = false ->
  in_consts module_type OMIT_CONTACT_FLOW_MODULE_TYPE = false ->
  In node_id (st_nodes st').
Proof.
  unfold dedup_emit. intros H Hdup Homit. revert H. rewrite Hdup, Homit. cbn [negb].
  destruct (if (0 <? List.length cache)%nat && negb (py_eq module_type last)
            then _ else _) as [[st1 cache1]|]; cbn [bind]; [|discriminate].
  destruct (add_block_nodes X module_type log is_error st1 node_id lambda_logs
                            module_stack) as [st2|] eqn:Ha; cbn [bind]; [|discriminate].
  intros [= <- _ _]. eapply add_block_nodes_lists; eauto.
Qed.

Lemma module_loop_draws (X : externals) (lambda_logs : value) (module_stack : string)
    (logs : list value) :
  forall i st cache last st' cache' last',
    module_loop X lambda_logs module_stack i logs (st, cache, last)
      = Ret (st', cache', last') ->
    forall k log,
      nth_error logs k = Some log -> drawn_alone log ->
      exists id, make_node_id log (i + k) = Ret id /\ In id (st_nodes st').
Proof.
  induction logs as [|l logs IH]; intros i st cache last st' cache' last';
    cbn [module_loop].
  - intros _ [|k] log; discriminate.
  - destruct (module_step X lambda_logs module_stack i l (st, cache, last))
      as [[[st1 c1] l1]|] eqn:Hs; cbn [bind]; [|discriminate].
    intros H [|k] log Hnth [Hdup Homit].
    + injection Hnth as ->. rewrite Nat.add_0_r.
      unfold module_step in Hs.
      destruct (classify log) as [ie|]; cbn [bind] in Hs; [|discriminate].
      destruct (make_node_id log i) as [id|]; cbn [bind] in Hs; [|discriminate].
      destruct (py_get log "ContactFlowModuleType") as [mt|] eqn:Hmt; cbn [bind] in Hs;
        [|discriminate].
      apply py_get_field in Hmt. rewrite Hmt in Hdup, Homit.
      exists id. split; [reflexivity|].
      eapply extends_keeps; [eapply module_loop_extends; exact H|].
      eapply dedup_emit_draws; eauto.
    + cbn [nth_error] in Hnth. rewrite <- Nat.add_succ_comm.
      eapply IH; eauto. split; assumption.
Qed.

Lemma flow_loop_draws (X : externals) (all_logs : list value)
    (contact_id lambda_logs : value) (module_stack : string) (logs : list value) :
  forall i st cache last mn st' cache' last' mn',
    flow_loop X all_logs contact_id lambda_logs module_stack i logs
              (st, cache, last, mn) = Ret (st', cache', last', mn') ->
    forall k log,
      nth_error logs k = Some log -> drawn_alone log ->
      py_str_in "MOD_" (field log "ContactFlowName") = Ret false ->
      exists id, make_node_id log (i + k) = Ret id /\ In id (st_nodes st').
Proof.
  induction logs as [|l logs IH]; intros i st cache last mn st' cache' last' mn';
    cbn [flow_loop].
  - intros _ [|k] log; discriminate.
  - destruct (flow_step X all_logs contact_id lambda_logs module_stack i l
                        (st, cache, last, mn)) as [[[[st1 c1] l1] mn1]|] eqn:Hs;
      cbn [bind]; [|discriminate].
    intros H [|k] log Hnth [Hdup Homit] Hflow.
    + injection Hnth as ->. rewrite Nat.add_0_r.
      unfold flow_step in Hs.
      destruct (classify log) as [ie|]; cbn [bind] in Hs; [|discriminate].
      destruct (make_node_id log i) as [id|]; cbn [bind] in Hs; [|discriminate].
      destruct (py_get log "ContactFlowModuleType") as [mt|] eqn:Hmt; cbn [bind] in Hs;
        [|discriminate].
      apply py_get_field in Hmt. rewrite Hmt in Hdup, Homit.
      destruct (py_index log "ContactFlowName") as [name|] eqn:Hn; cbn [bind] in Hs;
        [|discriminate].
      rewrite (py_index_field _ _ _ Hn) in Hflow. rewrite Hflow in Hs. cbn [bind] in Hs.
      destruct (dedup_emit X lambda_logs module_stack mt log ie id st cache last)
        as [[[st2 c2] l2]|] eqn:Hd; cbn [bind] in Hs; [|discriminate].
      injection Hs as <- <- <- <-.
      exists id. split; [reflexivity|].
      eapply extends_keeps; [eapply flow_loop_extends; exact H|].
      eapply dedup_emit_draws; eauto.
    + cbn [nth_error] in Hnth. rewrite <- Nat.add_succ_comm.
      eapply IH; eauto. split; assumption.
Qed.

(** X23.  No event that is drawn on its own is dropped.  When
    [build_module_detail] returns, every event whose module type is neither
    aggregated nor omitted has its node in the node list, under the id made
    of its timestamp and its position in time order; so has, when
    [build_contact_flow_detail] returns, every such event of a flow that is
    not a module. *)
Theorem plain_events_are_drawn (X : externals) (logs : list value)
    (contact_id lambda_logs : value) (errors : nat) (module_stack : string)
    (out : list diag) (st : bstate) :
  (build_module_detail X logs lambda_logs errors module_stack out = Ret st ->
   exists sorted,
     sort_logs X logs = Ret sorted /\
     forall k log,
       nth_error sorted k = Some log -> drawn_alone log ->
       exists id, make_node_id log k = Ret id /\ In id (st_nodes st)) /\
  (build_contact_flow_detail X logs contact_id lambda_logs errors module_stack out
     = Ret st ->
   exists sorted,
     sort_logs X logs = Ret sorted /\
     forall k log,
       nth_error sorted k = Some log -> drawn_alone log ->
       py_str_in "MOD_" (field log "ContactFlowName") = Ret false ->
       exists id, make_node_id log k = Ret id /\ In id (st_nodes st)).
Proof.
  split.
  - unfold build_module_detail.
    destruct (sort_logs X logs) as [sorted|]; cbn [bind]; [|discriminate].
    destruct (module_loop X lambda_logs module_stack 0 sorted
                (mkState empty_graph [] errors out, [], JStr ""))
      as [[[s c] l]|] eqn:Hloop; cbn [bind]; [|discriminate].
    intros [= <-]. exists sorted. split; [reflexivity|].
    intros k log Hnth Hd. cbn [st_nodes].
    exact (module_loop_draws _ _ _ _ _ _ _ _ _ _ _ Hloop k log Hnth Hd).
  - unfold build_contact_flow_detail.
    destruct (sort_logs X logs) as [sorted|]; cbn [bind]; [|discriminate].
    destruct (flow_loop X sorted contact_id lambda_logs module_stack 0 sorted
                (mkState empty_graph [] errors out, [], JStr "", []))
      as [[[[s c] l] mn]|] eqn:Hloop; cbn [bind]; [|discriminate].
    intros [= <-]. exists sorted. split; [reflexivity|].
    intros k log Hnth Hd Hf. cbn [st_nodes].
    exact (flow_loop_draws _ _ _ _ _ _ _ _ _ _ _ _ _ _ _ Hloop k log Hnth Hd Hf).
Qed.

(** X23, worked: the prompt that follows two attribute events. *)
Lemma plain_events_are_drawn_witness :
  exists st id,
    build_module_detail Demo.X Demo.error_second (JObj []) 0 "" [] = Ret st /\
    make_node_id (Demo.prompt Demo.at_3000 "F") 2 = Ret id /\ In id (st_nodes st).
Proof.
  destruct (build_module_detail Demo.X Demo.error_second (JObj []) 0 "" [])
    as [st|e] eqn:H; [|vm_compute in H; discriminate].
  destruct (proj1 (plain_events_are_drawn Demo.X Demo.error_second JNull (JObj []) 0 ""
                     [] st) H) as (sorted & Hs & Hall).
  assert (Hsorted : sort_logs Demo.X Demo.error_second = Ret Demo.error_second)
    by (vm_compute; reflexivity).
  rewrite Hsorted in Hs. injection Hs as <-.
  destruct (Hall 2 (Demo.prompt Demo.at_3000 "F") eq_refl) as (id & Hid & Hin).
  { split; reflexivity. }
  exists st, id. split; [reflexivity|]. split; assumption.
Defined.
